(** * Blueprint migration commands of the UnrealMCP plugin

    A shallow embedding of the migration command handlers
    ([FUnrealMCPBlueprintMigrationCommands] and the per-operation commands
    under [Commands/Migration]) together with the properties their
    specification states about them.

    The editor objects the handlers walk (blueprints, graphs, nodes, pins) live
    in an object store addressed by pointers; the engine services the handlers
    call (object loading, reflection, the asset registry, the file system and
    the clock) are the fields of a [Host] record. *)

From Stdlib Require Import ZArith String Ascii List Bool Lia.
From stdpp Require Import base option gmap strings list fin_maps pretty.

Local Open Scope Z_scope.

Set Warnings "-register-all".

(** ** FString

    [FString::operator==] and [FString::StartsWith] compare ignoring case
    ([ESearchCase::IgnoreCase] is their default), through [TChar::ToLower],
    which folds the letters [A]-[Z] only. *)

Definition ToLower (c : ascii) : ascii :=
  let n := N_of_ascii c in
  if ((65 <=? n) && (n <=? 90))%N then ascii_of_N (n + 32) else c.

Fixpoint FString_ToLower (s : string) : string :=
  match s with
  | EmptyString => EmptyString
  | String c s' => String (ToLower c) (FString_ToLower s')
  end.

(** [A == B] on two [FString]s. *)
Definition FString_eqb (a b : string) : bool :=
  String.eqb (FString_ToLower a) (FString_ToLower b).

(** [S.StartsWith(Prefix)]; an empty prefix never matches. *)
Definition StartsWith (s pre : string) : bool :=
  match pre with
  | EmptyString => false
  | _ => String.prefix (FString_ToLower pre) (FString_ToLower s)
  end.

(** [S.IsEmpty()]. *)
Definition IsEmpty (s : string) : bool :=
  match s with EmptyString => true | _ => false end.

(** Whether the last character of a path is a separator. *)
Fixpoint EndsWithSeparator (s : string) : bool :=
  match s with
  | EmptyString => false
  | String c EmptyString => Ascii.eqb c "/" || Ascii.eqb c "\"
  | String _ s' => EndsWithSeparator s'
  end.

(** [FPaths::Combine(A, B)], which appends [B] as [FString::operator/=] does:
    one slash is put between the two parts unless [A] is empty, [A] ends with
    a separator or [B] starts with a slash; an empty [B] leaves [A] with a
    closing separator. *)
Definition PathCombine (a b : string) : string :=
  match b with
  | EmptyString => if IsEmpty a || EndsWithSeparator a then a else a +:+ "/"
  | String c _ =>
      if IsEmpty a || EndsWithSeparator a || Ascii.eqb c "/"
      then a +:+ b
      else a +:+ "/" +:+ b
  end.

(** ** JSON documents

    An [FJsonObject] keeps its fields in the order they were first set;
    setting a field that exists replaces its value in place. *)

Inductive FJsonValue :=
| JNull
| JString (s : string)
| JNumber (n : Z)
| JBoolean (b : bool)
| JArray (l : list FJsonValue)
| JObject (o : list (string * FJsonValue)).

Definition FJsonObject := list (string * FJsonValue).

Fixpoint SetField (k : string) (v : FJsonValue) (o : FJsonObject) : FJsonObject :=
  match o with
  | [] => [(k, v)]
  | (k', v') :: o' =>
      if String.eqb k' k then (k', v) :: o' else (k', v') :: SetField k v o'
  end.

Fixpoint GetField (k : string) (o : FJsonObject) : option FJsonValue :=
  match o with
  | [] => None
  | (k', v') :: o' => if String.eqb k' k then Some v' else GetField k o'
  end.

Definition HasField (k : string) (o : FJsonObject) : bool :=
  match GetField k o with Some _ => true | None => false end.

Definition SetStringField (k v : string) := SetField k (JString v).
Definition SetNumberField (k : string) (v : Z) := SetField k (JNumber v).
Definition SetBoolField (k : string) (v : bool) := SetField k (JBoolean v).
Definition SetArrayField (k : string) (v : list FJsonValue) := SetField k (JArray v).

(** [SetObjectField] with a possibly null object pointer. *)
Definition SetObjectField (k : string) (v : option FJsonObject) :=
  SetField k (match v with Some o => JObject o | None => JNull end).

(** [MakeShared<FJsonObject>()]. *)
Definition MakeJsonObject : FJsonObject := [].

(** Typed reads of a document, used to state properties of responses. *)
Definition GetArrayField (k : string) (o : FJsonObject) : list FJsonValue :=
  match GetField k o with Some (JArray l) => l | _ => [] end.

Definition AsObject (v : FJsonValue) : FJsonObject :=
  match v with JObject o => o | _ => [] end.

Definition AsString (v : FJsonValue) : option string :=
  match v with JString s => Some s | _ => None end.

(** The strings of an array field, in array order. *)
Definition GetStringArray (k : string) (o : FJsonObject) : list string :=
  omap AsString (GetArrayField k o).

(** The [Key] string field of every object of an array field, in array order. *)
Definition GetObjectArrayStrings (k key : string) (o : FJsonObject) : list string :=
  omap (fun v => GetField key (AsObject v) ≫= AsString) (GetArrayField k o).

(** Builder notation: [o |> f] applies the next [Set...Field] call to [o]. *)
Notation "o '|>' f" := (f o) (at level 45, left associativity, only parsing).

(** Optional field: the call is made only when the guard yields a value. *)
Definition SetWhen {A} (x : option A) (f : A -> FJsonObject -> FJsonObject)
  (o : FJsonObject) : FJsonObject :=
  match x with Some a => f a o | None => o end.

(** The request object, seen through the two accessors the handlers use:
    [TryGetStringField] and [TryGetBoolField] ([None] when the accessor
    reports that the field is missing or of another type). *)
Record FJsonParams := {
  TryGetStringField : string -> option string;
  TryGetBoolField : string -> option bool
}.

(** ** The graph model *)

(** Object pointers.  A null or stale pointer is an address the store does not
    map, so a failed lookup stands for a failed null check or a failed cast. *)
Definition addr := positive.

Record UClass := {
  ClassName : string;          (* GetName() *)
  ClassPathName : string       (* GetPathName() *)
}.

Record UFunction := {
  FunctionName : string;             (* GetName() *)
  OwnerClass : option UClass;        (* GetOwnerClass() *)
  FUNC_BlueprintPure : bool
}.

Inductive EEdGraphPinDirection := EGPD_Input | EGPD_Output.

Record FEdGraphPinType := {
  PinCategory : string;
  PinSubCategoryObject : option string;   (* name of the object, when valid *)
  IsArray : bool;
  bIsReference : bool;
  bIsConst : bool
}.

(** What the serializers read of a pin found in [LinkedTo]. *)
Record FLinkedPin := {
  OwningNodeGuid : option string;   (* GetOwningNode()->NodeGuid, when owned *)
  LinkedPinName : string
}.

Record UEdGraphPin := {
  PinName : string;
  Direction : EEdGraphPinDirection;
  PinType : FEdGraphPinType;
  DefaultValue : string;
  DefaultObject : option string;    (* GetPathName() of the object, if any *)
  DefaultTextValue : string;
  LinkedTo : list (option FLinkedPin)
}.

(** What is read of [GetMacroGraph()]: the graph and its [GetName()]. *)
Record FMacroGraph := {
  MacroGraphPtr : addr;
  MacroGraphName : string
}.

(** The node classes the handlers cast to, each with the members they read. *)
Inductive K2Node :=
| K2Node_CallFunction (TargetFunction : option UFunction) (bIsPureFunc : bool)
| K2Node_Event (EventMemberName : string) (EventMemberParentClass : option string)
| K2Node_VariableGet (VariableMemberName : string)
| K2Node_VariableSet (VariableMemberName : string)
| K2Node_InputAction (InputActionName : string)
| K2Node_Self
| K2Node_FunctionEntry
| K2Node_FunctionResult
| K2Node_MacroInstance (MacroGraph : option FMacroGraph)
| K2Node_Other.

Record UEdGraphNode := {
  NodeGuid : string;
  NodeClassName : string;           (* GetClass()->GetName() *)
  NodeTitle : string;               (* GetNodeTitle(FullTitle) *)
  NodePosX : Z;
  NodePosY : Z;
  NodeComment : string;
  bCommentBubbleVisible : bool;
  Pins : list (option UEdGraphPin);
  NodeKind : K2Node
}.

Record UEdGraph := {
  GraphName : string;
  GraphClassName : string;
  Nodes : list addr
}.

Inductive EBlueprintStatus := BS_UpToDate | BS_Dirty.

Record UBlueprint := {
  BlueprintName : string;
  BlueprintPathName : string;
  PackageName : string;
  ParentClass : option UClass;
  FunctionGraphs : list addr;
  MacroGraphs : list addr;
  UbergraphPages : list addr;
  Status : EBlueprintStatus
}.

(** [UBlueprint::GetAllGraphs]: the blueprint's function graphs, macro graphs
    and event graph pages, in that order.  Graphs nested in nodes and the
    delegate and interface graphs are left out of the model. *)
Definition GetAllGraphs (bp : UBlueprint) : list addr :=
  FunctionGraphs bp ++ MacroGraphs bp ++ UbergraphPages bp.

(** [Cast<UK2Node_CallFunction>(Node)] followed by [GetTargetFunction()]. *)
Definition GetTargetFunction (n : UEdGraphNode) : option UFunction :=
  match NodeKind n with
  | K2Node_CallFunction f _ => f
  | _ => None
  end.

(** ** Host and world *)

(** The mutable state the handlers act on. *)
Record World := {
  Blueprints : gmap addr UBlueprint;
  GraphStore : gmap addr UEdGraph;
  NodeStore : gmap addr UEdGraphNode;
  ExportDirExists : bool;
  Files : list (string * FJsonObject)      (* files written, latest first *)
}.

(** The services the handlers call, fixed during one command: the engine's,
    and the repository's own lookup helpers that live outside the migration
    sources ([FindBlueprint], [FindBlueprints],
    [ResolveParentClassForBlueprint]), taken as given. *)
Record Host := {
  LoadBlueprint : string -> option addr;            (* LoadObject<UBlueprint> *)
  FindBlueprint : string -> option addr;            (* FUnrealMCPCommonUtils::FindBlueprint *)
  FindBlueprints : string -> list string;           (* FAssetDiscoveryService::FindBlueprints *)
  FindClass : string -> option UClass;              (* FindObject<UClass> *)
  LoadClass : string -> option UClass;              (* LoadClass<UObject> *)
  ResolveParentClassForBlueprint : string -> option UClass;
  FindFunctionByName : UClass -> string -> option UFunction;
  GetDependencies : string -> list string;          (* IAssetRegistry::GetDependencies, package names *)
  GetAssetByObjectPath : string -> option string;   (* asset class name of valid asset data *)
  ProjectSavedDir : string;
  CreateDirectoryTree : string -> bool;             (* whether creating this directory succeeds *)
  SaveStringToFile : string -> bool;                (* whether writing this path succeeds *)
  ReconstructNode : UBlueprint -> UEdGraphNode -> UEdGraphNode;
                                                    (* the node its schema rebuilds in the blueprint *)
  NowStamp : string;                                (* FDateTime::Now().ToString("%Y%m%d_%H%M%S") *)
  NowText : string                                  (* FDateTime::Now().ToString() *)
}.

Definition with_NodeStore (w : World) (s : gmap addr UEdGraphNode) : World :=
  {| Blueprints := Blueprints w; GraphStore := GraphStore w; NodeStore := s;
     ExportDirExists := ExportDirExists w; Files := Files w |}.

Definition with_Blueprints (w : World) (s : gmap addr UBlueprint) : World :=
  {| Blueprints := s; GraphStore := GraphStore w; NodeStore := NodeStore w;
     ExportDirExists := ExportDirExists w; Files := Files w |}.

Definition with_GraphStore (w : World) (s : gmap addr UEdGraph) : World :=
  {| Blueprints := Blueprints w; GraphStore := s; NodeStore := NodeStore w;
     ExportDirExists := ExportDirExists w; Files := Files w |}.

(** Early return: bind the value of [e], or leave with [r]. *)
Notation "'let?' x ':=' e 'else' r 'in' k" :=
  (match e with Some x => k | None => r end)
  (at level 10, x pattern, e at level 100, r at level 100, k at level 200).

(** [A ? A : B] on pointers. *)
Definition or_else {A} (a b : option A) : option A :=
  match a with Some _ => a | None => b end.

(** [FString::Printf("%s::%s", A, B)]. *)
Definition QualifiedName (a b : string) : string := a +:+ "::" +:+ b.

(** [Function->GetOwnerClass() ? GetOwnerClass()->GetName() : "Unknown"],
    joined with the function name. *)
Definition FunctionKeyOf (f : UFunction) : string :=
  QualifiedName
    (match OwnerClass f with Some c => ClassName c | None => "Unknown" end)
    (FunctionName f).

(** The blueprint a pointer leads to, together with the pointer. *)
Definition LookupBlueprint (w : World) (a : addr) : option (addr * UBlueprint) :=
  bp ← Blueprints w !! a; Some (a, bp).

(** [FBlueprintEditorUtils::MarkBlueprintAsModified]. *)
Definition MarkBlueprintAsModified (a : addr) (w : World) : World :=
  with_Blueprints w
    (alter (fun bp =>
       {| BlueprintName := BlueprintName bp; BlueprintPathName := BlueprintPathName bp;
          PackageName := PackageName bp; ParentClass := ParentClass bp;
          FunctionGraphs := FunctionGraphs bp; MacroGraphs := MacroGraphs bp;
          UbergraphPages := UbergraphPages bp; Status := BS_Dirty |}) a (Blueprints w)).

(** [UK2Node_CallFunction::SetFromFunction]: the node now calls [f] and takes
    its purity from it. *)
Definition SetFromFunction (f : UFunction) (n : UEdGraphNode) : UEdGraphNode :=
  match NodeKind n with
  | K2Node_CallFunction _ _ =>
      {| NodeGuid := NodeGuid n; NodeClassName := NodeClassName n;
         NodeTitle := NodeTitle n; NodePosX := NodePosX n; NodePosY := NodePosY n;
         NodeComment := NodeComment n;
         bCommentBubbleVisible := bCommentBubbleVisible n; Pins := Pins n;
         NodeKind := K2Node_CallFunction (Some f) (FUNC_BlueprintPure f) |}
  | _ => n
  end.

(** ** Parts shared by the dispatcher and the per-operation commands *)

(** Modelled from the spec: [FUnrealMCPCommonUtils::CreateErrorResponse] is
    defined outside the migration sources; by the envelope rule a failure
    response carries only [success = false] and the [error] message. *)
Definition CommonUtils_CreateErrorResponse (Message : string) : FJsonObject :=
  MakeJsonObject
  |> SetBoolField "success" false
  |> SetStringField "error" Message.

(** [GetExportDirectory]: when the directory is missing its creation is
    attempted, and the result of the attempt is not looked at. *)
Definition GetExportDirectory (h : Host) (w : World) : string * World :=
  let ExportDir := PathCombine (PathCombine (ProjectSavedDir h) "UnrealMCP") "Exports" in
  (ExportDir,
   {| Blueprints := Blueprints w; GraphStore := GraphStore w;
      NodeStore := NodeStore w;
      ExportDirExists := ExportDirExists w || CreateDirectoryTree h ExportDir;
      Files := Files w |}).

(** [WriteJsonToTempFile]: the path written, or the empty string on failure.
    A file that has been written lies in the export directory, which
    therefore exists. *)
Definition WriteJsonToTempFile (h : Host) (FileName : string)
  (JsonContent : FJsonObject) (w : World) : string * World :=
  let '(ExportDir, w1) := GetExportDirectory h w in
  let FilePath := PathCombine ExportDir FileName in
  if SaveStringToFile h FilePath
  then (FilePath,
        {| Blueprints := Blueprints w1; GraphStore := GraphStore w1;
           NodeStore := NodeStore w1; ExportDirExists := true;
           Files := (FilePath, JsonContent) :: Files w1 |})
  else (EmptyString, w1).

Definition some_if {A} (b : bool) (a : A) : option A := if b then Some a else None.

(** Blueprint lookup of the dispatcher: by object path, then by name. *)
Definition ResolveBlueprint (h : Host) (w : World) (Path : string)
  : option (addr * UBlueprint) :=
  or_else (LoadBlueprint h Path ≫= LookupBlueprint w)
          (FindBlueprint h Path ≫= LookupBlueprint w).

(** Blueprint lookup of the per-operation commands: by object path, then the
    first hit of the asset discovery service. *)
Definition DiscoverBlueprint (h : Host) (w : World) (Path : string)
  : option (addr * UBlueprint) :=
  or_else (LoadBlueprint h Path ≫= LookupBlueprint w)
          (match FindBlueprints h Path with
           | First :: _ => LoadBlueprint h First ≫= LookupBlueprint w
           | [] => None
           end).

(** [CreateErrorResponse], defined alike by every per-operation command. *)
Definition CreateErrorResponse (ErrorMessage : string) : FJsonObject :=
  MakeJsonObject
  |> SetBoolField "success" false
  |> SetStringField "error" ErrorMessage.

(** ** Dependency analysis

    The two loops below appear verbatim in the dispatcher's
    [HandleGetBlueprintDependencies] and in
    [FGetBlueprintDependenciesCommand::Execute]. *)

(** [TSet<FString>::Add]: elements are kept in insertion order and compared as
    [FString]s; an element that is already present is replaced, in its
    place, by the one added. *)
Fixpoint TSet_Add (x : string) (s : list string) : list string :=
  match s with
  | [] => [x]
  | y :: s' => if FString_eqb y x then x :: s' else y :: TSet_Add x s'
  end.

(** [int32& Count = Map.FindOrAdd(Key); Count++;] on a [TMap<FString, int32>].
    A count is at most the number of nodes visited, which [TArray]'s [int32]
    sizes keep far below the range of [int32]. *)
Fixpoint TMap_Increment (k : string) (m : list (string * Z)) : list (string * Z) :=
  match m with
  | [] => [(k, 1)]
  | (k', c) :: m' =>
      if FString_eqb k' k then (k', c + 1) :: m' else (k', c) :: TMap_Increment k m'
  end.

Record FDependencySets := {
  AssetDependencies : list string;
  BlueprintDependencies : list string;
  NativeClasses : list string
}.

(** The body of the loop over the registry's dependencies. *)
Definition CategorizeDependency (h : Host) (bIncludeEngineClasses : bool)
  (acc : FDependencySets) (DepPath : string) : FDependencySets :=
  if negb bIncludeEngineClasses
     && (StartsWith DepPath "/Script/" || StartsWith DepPath "/Engine/")
  then acc
  else if StartsWith DepPath "/Script/"
  then {| AssetDependencies := AssetDependencies acc;
          BlueprintDependencies := BlueprintDependencies acc;
          NativeClasses := TSet_Add DepPath (NativeClasses acc) |}
  else
    match GetAssetByObjectPath h DepPath with
    | Some AssetClass =>
        if FString_eqb AssetClass "Blueprint"
        then {| AssetDependencies := AssetDependencies acc;
                BlueprintDependencies := TSet_Add DepPath (BlueprintDependencies acc);
                NativeClasses := NativeClasses acc |}
        else {| AssetDependencies := TSet_Add DepPath (AssetDependencies acc);
                BlueprintDependencies := BlueprintDependencies acc;
                NativeClasses := NativeClasses acc |}
    | None =>
        {| AssetDependencies := TSet_Add DepPath (AssetDependencies acc);
           BlueprintDependencies := BlueprintDependencies acc;
           NativeClasses := NativeClasses acc |}
    end.

Definition CollectDependencies (h : Host) (bIncludeEngineClasses : bool)
  (Blueprint : UBlueprint) : FDependencySets :=
  fold_left (CategorizeDependency h bIncludeEngineClasses)
    (GetDependencies h (PackageName Blueprint))
    {| AssetDependencies := []; BlueprintDependencies := []; NativeClasses := [] |}.

(** The test guarding the count of one call. *)
Definition CountsFunctionCall (bIncludeEngineClasses : bool) (Function : UFunction) : bool :=
  bIncludeEngineClasses
  || negb (StartsWith (FunctionKeyOf Function) "U")
  || match OwnerClass Function with
     | None => true
     | Some c => negb (StartsWith (ClassPathName c) "/Script/Engine")
     end.

(** The body of the loop over the nodes of one graph. *)
Definition CountNode (w : World) (bIncludeEngineClasses : bool)
  (FunctionCalls : list (string * Z)) (Node : addr) : list (string * Z) :=
  let? Function := NodeStore w !! Node ≫= GetTargetFunction else FunctionCalls in
  if CountsFunctionCall bIncludeEngineClasses Function
  then TMap_Increment (FunctionKeyOf Function) FunctionCalls
  else FunctionCalls.

Definition CountGraph (w : World) (bIncludeEngineClasses : bool)
  (FunctionCalls : list (string * Z)) (Graph : addr) : list (string * Z) :=
  let? Graph := GraphStore w !! Graph else FunctionCalls in
  fold_left (CountNode w bIncludeEngineClasses) (Nodes Graph) FunctionCalls.

Definition CollectFunctionCalls (w : World) (bIncludeEngineClasses : bool)
  (Blueprint : UBlueprint) : list (string * Z) :=
  fold_left (CountGraph w bIncludeEngineClasses) (GetAllGraphs Blueprint) [].

(** The part of the response both variants build alike. *)
Definition DependenciesJson (Blueprint : UBlueprint) (Deps : FDependencySets)
  (FunctionCalls : list (string * Z)) (ResultJson : FJsonObject) : FJsonObject :=
  ResultJson
  |> SetStringField "blueprint_path" (BlueprintPathName Blueprint)
  |> SetArrayField "assets" (map JString (AssetDependencies Deps))
  |> SetArrayField "blueprints" (map JString (BlueprintDependencies Deps))
  |> SetArrayField "native_classes" (map JString (NativeClasses Deps))
  |> SetArrayField "function_calls"
       (map (fun Pair : string * Z =>
               JObject (MakeJsonObject
                 |> SetStringField "function" (fst Pair)
                 |> SetNumberField "call_count" (snd Pair)))
            FunctionCalls).

(** ** Redirecting function calls

    From the scan for call nodes on, the dispatcher's
    [HandleRedirectFunctionCall] and [FRedirectFunctionCallCommand::Execute]
    run the same statements; they differ in the object the result starts
    from. *)

(** The body of the loop over the nodes of one graph: a call node whose target
    function is named [SourceFunction] is recorded with its change entry. *)
Definition ScanNode (w : World) (SourceFunction : string)
  (NewTargetClass : UClass) (NewFunction : UFunction) (Graph : UEdGraph)
  (acc : list addr * list FJsonValue) (Node : addr)
  : list addr * list FJsonValue :=
  let '(NodesToRedirect, ChangesArray) := acc in
  let? CallNode := NodeStore w !! Node else acc in
  let? Function := GetTargetFunction CallNode else acc in
  if FString_eqb (FunctionName Function) SourceFunction
  then
    (NodesToRedirect ++ [Node],
     ChangesArray ++ [JObject (MakeJsonObject
       |> SetStringField "graph" (GraphName Graph)
       |> SetStringField "node_guid" (NodeGuid CallNode)
       |> SetStringField "original_function" (FunctionKeyOf Function)
       |> SetStringField "new_function"
            (QualifiedName (ClassName NewTargetClass) (FunctionName NewFunction))
       |> SetNumberField "pos_x" (NodePosX CallNode)
       |> SetNumberField "pos_y" (NodePosY CallNode))])
  else acc.

Definition ScanGraph (w : World) (SourceFunction : string)
  (NewTargetClass : UClass) (NewFunction : UFunction)
  (acc : list addr * list FJsonValue) (Graph : addr)
  : list addr * list FJsonValue :=
  let? Graph := GraphStore w !! Graph else acc in
  fold_left (ScanNode w SourceFunction NewTargetClass NewFunction Graph) (Nodes Graph) acc.

(** [NodesToRedirect] and [ChangesArray] after the scan of all graphs. *)
Definition FindNodesToRedirect (w : World) (SourceBlueprint : UBlueprint)
  (SourceFunction : string) (NewTargetClass : UClass) (NewFunction : UFunction)
  : list addr * list FJsonValue :=
  fold_left (ScanGraph w SourceFunction NewTargetClass NewFunction)
    (GetAllGraphs SourceBlueprint) ([], []).

(** The body of the loop applying the redirects:
    [CallNode->SetFromFunction(NewFunction); RedirectedCount++;].  The counter
    is an [int32] that never exceeds [NodesToRedirect.Num()], itself an
    [int32], so it does not wrap. *)
Definition RedirectNode (NewFunction : UFunction) (acc : World * Z) (CallNode : addr)
  : World * Z :=
  let '(w, RedirectedCount) := acc in
  (with_NodeStore w (alter (SetFromFunction NewFunction) CallNode (NodeStore w)),
   RedirectedCount + 1).

Definition ApplyRedirects (NewFunction : UFunction) (NodesToRedirect : list addr)
  (w : World) : World * Z :=
  fold_left (RedirectNode NewFunction) NodesToRedirect (w, 0).

Definition RedirectBackupFileName (h : Host) (SourceBlueprint : UBlueprint) : string :=
  "backup_" +:+ BlueprintName SourceBlueprint +:+ "_" +:+ NowStamp h +:+ ".json".

(** Everything after the target function is resolved; [ResultJson] is the
    fresh result object of the dispatcher, or the one holding
    [success = true] of the command. *)
Definition RedirectResolved (h : Host) (ResultJson : FJsonObject)
  (bDryRun bBackup : bool) (SourceBlueprintPtr : addr) (SourceBlueprint : UBlueprint)
  (SourceFunction : string) (NewTargetClass : UClass) (NewFunction : UFunction)
  (w : World) : FJsonObject * World :=
  let '(NodesToRedirect, ChangesArray) :=
    FindNodesToRedirect w SourceBlueprint SourceFunction NewTargetClass NewFunction in
  let Num := Z.of_nat (length NodesToRedirect) in
  let ResultJson := ResultJson
    |> SetStringField "source_blueprint" (BlueprintPathName SourceBlueprint)
    |> SetBoolField "dry_run" bDryRun
    |> SetNumberField "nodes_found" Num
    |> SetArrayField "changes" ChangesArray in
  if Num =? 0 then
    (ResultJson
     |> SetStringField "message" "No matching function calls found to redirect", w)
  else if bDryRun then
    (ResultJson
     |> SetStringField "message"
          ("Dry run: Found " +:+ pretty Num +:+ " function calls to redirect"), w)
  else
    let '(ResultJson, w) :=
      if bBackup then
        let BackupJson := MakeJsonObject
          |> SetStringField "blueprint_path" (BlueprintPathName SourceBlueprint)
          |> SetStringField "backup_time" (NowText h)
          |> SetArrayField "original_state" ChangesArray in
        let '(BackupPath, w) :=
          WriteJsonToTempFile h (RedirectBackupFileName h SourceBlueprint) BackupJson w in
        (ResultJson |> SetStringField "backup_path" BackupPath, w)
      else (ResultJson, w) in
    let '(w, RedirectedCount) := ApplyRedirects NewFunction NodesToRedirect w in
    let w := MarkBlueprintAsModified SourceBlueprintPtr w in
    (ResultJson
     |> SetNumberField "nodes_redirected" RedirectedCount
     |> SetStringField "message"
          ("Successfully redirected " +:+ pretty RedirectedCount +:+ " function calls")
     |> SetBoolField "requires_compile" true, w).

(** ** Deleting a function graph *)

(** [for (Graph : Graphs) if (Graph && Graph->GetName() == FunctionName)
    { GraphToDelete = Graph; break; }]. *)
Fixpoint FindGraphByName (w : World) (Graphs : list addr) (FunctionName : string)
  : option (addr * UEdGraph) :=
  match Graphs with
  | [] => None
  | GraphPtr :: Graphs' =>
      match GraphStore w !! GraphPtr with
      | Some Graph =>
          if FString_eqb (GraphName Graph) FunctionName
          then Some (GraphPtr, Graph)
          else FindGraphByName w Graphs' FunctionName
      | None => FindGraphByName w Graphs' FunctionName
      end
  end.

(** The graph to delete: searched in all graphs, then in [FunctionGraphs]. *)
Definition FindGraphToDelete (w : World) (Blueprint : UBlueprint) (FunctionName : string)
  : option (addr * UEdGraph) :=
  or_else (FindGraphByName w (GetAllGraphs Blueprint) FunctionName)
          (FindGraphByName w (FunctionGraphs Blueprint) FunctionName).

(** Whether the pin behind a link belongs to one of the nodes [Guids]. *)
Definition LinksTo (Guids : list string) (l : option FLinkedPin) : bool :=
  match l with
  | Some LinkedPin =>
      match OwningNodeGuid LinkedPin with
      | Some Guid => existsb (String.eqb Guid) Guids
      | None => false
      end
  | None => false
  end.

(** [BreakNodeLinks], seen from a neighbour: its pins lose their links to the
    pins of the nodes [Guids]. *)
Definition BreakLinksTo (Guids : list string) (Node : UEdGraphNode) : UEdGraphNode :=
  {| NodeGuid := NodeGuid Node; NodeClassName := NodeClassName Node;
     NodeTitle := NodeTitle Node; NodePosX := NodePosX Node; NodePosY := NodePosY Node;
     NodeComment := NodeComment Node;
     bCommentBubbleVisible := bCommentBubbleVisible Node;
     Pins := map (fmap (fun Pin : UEdGraphPin =>
               {| PinName := PinName Pin; Direction := Direction Pin;
                  PinType := PinType Pin; DefaultValue := DefaultValue Pin;
                  DefaultObject := DefaultObject Pin;
                  DefaultTextValue := DefaultTextValue Pin;
                  LinkedTo := List.filter (fun l => negb (LinksTo Guids l)) (LinkedTo Pin) |}))
               (Pins Node);
     NodeKind := NodeKind Node |}.

(** [Cast<UK2Node_MacroInstance>(Node)] with [GetMacroGraph() == GraphToRemove]. *)
Definition IsMacroInstanceOf (w : World) (GraphToRemove : addr) (Node : addr) : bool :=
  match NodeKind <$> NodeStore w !! Node with
  | Some (K2Node_MacroInstance (Some MacroGraph)) =>
      Pos.eqb (MacroGraphPtr MacroGraph) GraphToRemove
  | _ => false
  end.

(** [FBlueprintEditorUtils::RemoveNode] on the instances that one graph holds
    of the removed macro graph: their links are broken, they leave [Nodes]
    and they are destroyed. *)
Definition RemoveMacroInstances (GraphToRemove : addr) (w : World) (GraphPtr : addr)
  : World :=
  let? Graph := GraphStore w !! GraphPtr else w in
  let Instances := List.filter (IsMacroInstanceOf w GraphToRemove) (Nodes Graph) in
  let Guids := omap (fun Node : addr => NodeGuid <$> NodeStore w !! Node) Instances in
  let Kept := List.filter (fun Node => negb (IsMacroInstanceOf w GraphToRemove Node))
                (Nodes Graph) in
  let Unlinked :=
    fold_left (fun Store Node => alter (BreakLinksTo Guids) Node Store) Kept (NodeStore w) in
  with_NodeStore
    (with_GraphStore w
       (<[GraphPtr := {| GraphName := GraphName Graph; GraphClassName := GraphClassName Graph;
                         Nodes := Kept |}]> (GraphStore w)))
    (fold_left (fun Store Node => delete Node Store) Instances Unlinked).

(** [FBlueprintEditorUtils::RemoveGraph]: the graph leaves every graph list of
    the blueprint; when it was one of the macro graphs, the instances of it in
    the graphs the blueprint keeps are removed; the graph is discarded.
    Timelines and the graphs nested in nodes, which the engine discards with
    the graph, are not among the objects of the model. *)
Definition RemoveGraph (BlueprintPtr GraphToRemove : addr) (w : World) : World :=
  let keep := filter (fun g : addr => g ≠ GraphToRemove) in
  let w1 :=
    with_GraphStore
      (with_Blueprints w
         (alter (fun bp =>
            {| BlueprintName := BlueprintName bp; BlueprintPathName := BlueprintPathName bp;
               PackageName := PackageName bp; ParentClass := ParentClass bp;
               FunctionGraphs := keep (FunctionGraphs bp);
               MacroGraphs := keep (MacroGraphs bp);
               UbergraphPages := keep (UbergraphPages bp);
               Status := Status bp |}) BlueprintPtr (Blueprints w)))
      (delete GraphToRemove (GraphStore w)) in
  match Blueprints w !! BlueprintPtr with
  | Some Blueprint =>
      if bool_decide (GraphToRemove ∈ MacroGraphs Blueprint)
      then fold_left (RemoveMacroInstances GraphToRemove)
             (keep (GetAllGraphs Blueprint)) w1
      else w1
  | None => w1
  end.

Definition DeleteBackupFileName (h : Host) (Blueprint : UBlueprint) (FunctionName : string)
  : string :=
  "backup_func_" +:+ BlueprintName Blueprint +:+ "_" +:+ FunctionName +:+ "_"
  +:+ NowStamp h +:+ ".json".

(** Everything after the graph is found; [SerializeGraph] is the serializer of
    the class the handler belongs to. *)
Definition DeleteFound
  (SerializeGraph : World -> option UEdGraph -> bool -> option FJsonObject)
  (h : Host) (bBackup : bool) (BlueprintPtr : addr) (Blueprint : UBlueprint)
  (FunctionName : string) (GraphPtr : addr) (GraphToDelete : UEdGraph)
  (w : World) : FJsonObject * World :=
  let '(BackupPath, w) :=
    if bBackup then
      let BackupJson := MakeJsonObject
        |> SetStringField "blueprint_path" (BlueprintPathName Blueprint)
        |> SetStringField "function_name" FunctionName
        |> SetStringField "backup_time" (NowText h)
        |> SetObjectField "graph_data" (SerializeGraph w (Some GraphToDelete) true) in
      WriteJsonToTempFile h (DeleteBackupFileName h Blueprint FunctionName) BackupJson w
    else (EmptyString, w) in
  let NodeCount := Z.of_nat (length (Nodes GraphToDelete)) in
  let w := RemoveGraph BlueprintPtr GraphPtr w in
  let w := MarkBlueprintAsModified BlueprintPtr w in
  (MakeJsonObject
   |> SetBoolField "success" true
   |> SetStringField "blueprint_path" (BlueprintPathName Blueprint)
   |> SetStringField "function_name" FunctionName
   |> SetNumberField "nodes_removed" NodeCount
   |> SetWhen (some_if (negb (IsEmpty BackupPath)) BackupPath) (SetStringField "backup_path")
   |> SetBoolField "requires_compile" true
   |> SetStringField "message"
        ("Successfully deleted function '" +:+ FunctionName +:+ "' ("
         +:+ pretty NodeCount +:+ " nodes)"), w).

(** ** Changing the parent class *)

(** [Blueprint->ParentClass = NewParentClass]. *)
Definition SetParentClass (BlueprintPtr : addr) (NewParentClass : UClass) (w : World)
  : World :=
  with_Blueprints w
    (alter (fun bp =>
       {| BlueprintName := BlueprintName bp; BlueprintPathName := BlueprintPathName bp;
          PackageName := PackageName bp; ParentClass := Some NewParentClass;
          FunctionGraphs := FunctionGraphs bp; MacroGraphs := MacroGraphs bp;
          UbergraphPages := UbergraphPages bp; Status := Status bp |})
       BlueprintPtr (Blueprints w)).

Definition ReparentBackupFileName (h : Host) (Blueprint : UBlueprint) : string :=
  "backup_reparent_" +:+ BlueprintName Blueprint +:+ "_" +:+ NowStamp h +:+ ".json".

(** [FBlueprintEditorUtils::RefreshAllNodes]: every node of every graph of the
    blueprint is reconstructed by its schema, in the blueprint as it is then.
    What the reconstruction makes of a node is the engine's
    ([ReconstructNode] of the host); graphs and blueprints are not touched. *)
Definition RefreshAllNodes (h : Host) (BlueprintPtr : addr) (w : World) : World :=
  let? Blueprint := Blueprints w !! BlueprintPtr else w in
  with_NodeStore w
    (fold_left (fun Store Node => alter (ReconstructNode h Blueprint) Node Store)
       (Graph ← omap (fun g : addr => GraphStore w !! g) (GetAllGraphs Blueprint);
        Nodes Graph)
       (NodeStore w)).

(** Everything after the new parent class is resolved.  The compatibility
    check that precedes the backup only writes a log line. *)
Definition ReparentResolved (h : Host) (bBackup : bool) (BlueprintPtr : addr)
  (Blueprint : UBlueprint) (NewParentClass : UClass) (w : World)
  : FJsonObject * World :=
  let OldParentClassName :=
    match ParentClass Blueprint with Some c => ClassName c | None => "None" end in
  let OldParentClassPath :=
    match ParentClass Blueprint with Some c => ClassPathName c | None => "" end in
  let '(BackupPath, w) :=
    if bBackup then
      let BackupJson := MakeJsonObject
        |> SetStringField "blueprint_path" (BlueprintPathName Blueprint)
        |> SetStringField "old_parent_class" OldParentClassName
        |> SetStringField "old_parent_class_path" OldParentClassPath
        |> SetStringField "new_parent_class" (ClassName NewParentClass)
        |> SetStringField "backup_time" (NowText h) in
      WriteJsonToTempFile h (ReparentBackupFileName h Blueprint) BackupJson w
    else (EmptyString, w) in
  let w := SetParentClass BlueprintPtr NewParentClass w in
  let w := RefreshAllNodes h BlueprintPtr w in
  let w := MarkBlueprintAsModified BlueprintPtr w in
  (MakeJsonObject
   |> SetBoolField "success" true
   |> SetStringField "blueprint_path" (BlueprintPathName Blueprint)
   |> SetStringField "old_parent_class" OldParentClassName
   |> SetStringField "new_parent_class" (ClassName NewParentClass)
   |> SetStringField "new_parent_class_path" (ClassPathName NewParentClass)
   |> SetWhen (some_if (negb (IsEmpty BackupPath)) BackupPath) (SetStringField "backup_path")
   |> SetBoolField "requires_compile" true
   |> SetStringField "message"
        ("Successfully reparented Blueprint from '" +:+ OldParentClassName
         +:+ "' to '" +:+ ClassName NewParentClass +:+ "'"), w).

(** ** The monolithic dispatcher: [FUnrealMCPBlueprintMigrationCommands] *)

Module Monolithic.

(** One entry of a pin's [connections]; links without a pin or without an
    owning node are skipped. *)
Definition SerializeConnection (l : option FLinkedPin) : option FJsonValue :=
  LinkedPin ← l;
  guid ← OwningNodeGuid LinkedPin;
  Some (JObject (MakeJsonObject
    |> SetStringField "node_guid" guid
    |> SetStringField "pin_name" (LinkedPinName LinkedPin))).

Definition SerializePin (Pin : option UEdGraphPin) (bIncludeConnections : bool)
  : option FJsonObject :=
  let? Pin := Pin else None in
  Some (MakeJsonObject
    |> SetStringField "name" (PinName Pin)
    |> SetStringField "direction"
         (match Direction Pin with EGPD_Input => "Input" | EGPD_Output => "Output" end)
    |> SetStringField "category" (PinCategory (PinType Pin))
    |> SetWhen (PinSubCategoryObject (PinType Pin)) (SetStringField "subcategory")
    |> SetBoolField "is_array" (IsArray (PinType Pin))
    |> SetBoolField "is_reference" (bIsReference (PinType Pin))
    |> SetBoolField "is_const" (bIsConst (PinType Pin))
    |> SetWhen (some_if (negb (IsEmpty (DefaultValue Pin))) (DefaultValue Pin))
         (SetStringField "default_value")
    |> SetWhen (DefaultObject Pin) (SetStringField "default_object")
    |> SetWhen (some_if (negb (IsEmpty (DefaultTextValue Pin))) (DefaultTextValue Pin))
         (SetStringField "default_text")
    |> SetWhen (some_if (bIncludeConnections && (0 <? Z.of_nat (length (LinkedTo Pin))))
                  (omap SerializeConnection (LinkedTo Pin)))
         (SetArrayField "connections")).

(** The kind-specific fields: the first cast that succeeds decides. *)
Definition SerializeNodeKind (k : K2Node) (NodeJson : FJsonObject) : FJsonObject :=
  match k with
  | K2Node_CallFunction TargetFunction bIsPure =>
      NodeJson
      |> SetStringField "node_type" "CallFunction"
      |> SetWhen TargetFunction (fun Function o =>
           o |> SetStringField "function_name" (FunctionName Function)
             |> SetWhen (OwnerClass Function) (fun c o' =>
                  o' |> SetStringField "function_class" (ClassName c)
                     |> SetStringField "function_class_path" (ClassPathName c)))
      |> SetBoolField "is_pure" bIsPure
  | K2Node_Event name cls =>
      NodeJson
      |> SetStringField "node_type" "Event"
      |> SetStringField "event_name" name
      |> SetWhen cls (SetStringField "event_class")
  | K2Node_VariableGet name =>
      NodeJson
      |> SetStringField "node_type" "VariableGet"
      |> SetStringField "variable_name" name
  | K2Node_VariableSet name =>
      NodeJson
      |> SetStringField "node_type" "VariableSet"
      |> SetStringField "variable_name" name
  | K2Node_InputAction name =>
      NodeJson
      |> SetStringField "node_type" "InputAction"
      |> SetStringField "action_name" name
  | K2Node_Self => NodeJson |> SetStringField "node_type" "Self"
  | K2Node_FunctionEntry => NodeJson |> SetStringField "node_type" "FunctionEntry"
  | K2Node_FunctionResult => NodeJson |> SetStringField "node_type" "FunctionResult"
  | K2Node_MacroInstance macro =>
      NodeJson
      |> SetStringField "node_type" "MacroInstance"
      |> SetWhen macro (fun MacroGraph => SetStringField "macro_name" (MacroGraphName MacroGraph))
  | K2Node_Other => NodeJson |> SetStringField "node_type" "Other"
  end.

(** The body of the pin loop: a serialized pin is appended to the array of
    its direction. *)
Definition AddPin (acc : list FJsonValue * list FJsonValue) (Pin : option UEdGraphPin)
  : list FJsonValue * list FJsonValue :=
  let '(InputPinsArray, OutputPinsArray) := acc in
  let? p := Pin else acc in
  let? PinJson := SerializePin (Some p) true else acc in
  match Direction p with
  | EGPD_Input => (InputPinsArray ++ [JObject PinJson], OutputPinsArray)
  | EGPD_Output => (InputPinsArray, OutputPinsArray ++ [JObject PinJson])
  end.

Definition SerializePins (pins : list (option UEdGraphPin))
  : list FJsonValue * list FJsonValue :=
  fold_left AddPin pins ([], []).

Definition SerializeNode (Node : option UEdGraphNode) : option FJsonObject :=
  let? Node := Node else None in
  let '(InputPinsArray, OutputPinsArray) := SerializePins (Pins Node) in
  Some (MakeJsonObject
    |> SetStringField "guid" (NodeGuid Node)
    |> SetStringField "class" (NodeClassName Node)
    |> SetStringField "title" (NodeTitle Node)
    |> SetNumberField "pos_x" (NodePosX Node)
    |> SetNumberField "pos_y" (NodePosY Node)
    |> SetStringField "comment" (NodeComment Node)
    |> SetBoolField "comment_bubble_visible" (bCommentBubbleVisible Node)
    |> SerializeNodeKind (NodeKind Node)
    |> SetArrayField "input_pins" InputPinsArray
    |> SetArrayField "output_pins" OutputPinsArray).

Definition SerializeGraph (w : World) (Graph : option UEdGraph) (bIncludeDefaults : bool)
  : option FJsonObject :=
  let? Graph := Graph else None in
  Some (MakeJsonObject
    |> SetStringField "name" (GraphName Graph)
    |> SetStringField "class" (GraphClassName Graph)
    |> SetNumberField "node_count" (Z.of_nat (length (Nodes Graph)))
    |> SetArrayField "nodes"
         (omap (fun Node : addr =>
                  NodeJson ← SerializeNode (NodeStore w !! Node);
                  Some (JObject NodeJson)) (Nodes Graph))).


Definition HandleGetBlueprintDependencies (h : Host) (Params : FJsonParams) (w : World)
  : FJsonObject * World :=
  let? BlueprintPath := TryGetStringField Params "blueprint_path"
    else (CommonUtils_CreateErrorResponse "Missing 'blueprint_path' parameter", w) in
  let? (_, Blueprint) := ResolveBlueprint h w BlueprintPath
    else (CommonUtils_CreateErrorResponse ("Blueprint not found: " +:+ BlueprintPath), w) in
  let bIncludeEngineClasses := default false (TryGetBoolField Params "include_engine_classes") in
  let bRecursive := default true (TryGetBoolField Params "recursive") in
  let Deps := CollectDependencies h bIncludeEngineClasses Blueprint in
  let FunctionCalls := CollectFunctionCalls w bIncludeEngineClasses Blueprint in
  (MakeJsonObject |> DependenciesJson Blueprint Deps FunctionCalls, w).


Definition HandleRedirectFunctionCall (h : Host) (Params : FJsonParams) (w : World)
  : FJsonObject * World :=
  let? SourceBlueprintPath := TryGetStringField Params "source_blueprint"
    else (CommonUtils_CreateErrorResponse "Missing 'source_blueprint' parameter", w) in
  let? SourceFunction := TryGetStringField Params "source_function"
    else (CommonUtils_CreateErrorResponse "Missing 'source_function' parameter", w) in
  let? TargetClass := TryGetStringField Params "target_class"
    else (CommonUtils_CreateErrorResponse "Missing 'target_class' parameter", w) in
  let? TargetFunction := TryGetStringField Params "target_function"
    else (CommonUtils_CreateErrorResponse "Missing 'target_function' parameter", w) in
  let bDryRun := default true (TryGetBoolField Params "dry_run") in
  let bBackup := default true (TryGetBoolField Params "backup") in
  let? (SourceBlueprintPtr, SourceBlueprint) := ResolveBlueprint h w SourceBlueprintPath
    else (CommonUtils_CreateErrorResponse
            ("Source Blueprint not found: " +:+ SourceBlueprintPath), w) in
  let? NewTargetClass := or_else (FindClass h TargetClass) (LoadClass h TargetClass)
    else (CommonUtils_CreateErrorResponse ("Target class not found: " +:+ TargetClass), w) in
  let? NewFunction := FindFunctionByName h NewTargetClass TargetFunction
    else (CommonUtils_CreateErrorResponse
            ("Target function not found: " +:+ QualifiedName TargetClass TargetFunction), w) in
  RedirectResolved h MakeJsonObject bDryRun bBackup SourceBlueprintPtr SourceBlueprint
    SourceFunction NewTargetClass NewFunction w.

Definition HandleDeleteBlueprintFunction (h : Host) (Params : FJsonParams) (w : World)
  : FJsonObject * World :=
  let? BlueprintPath := TryGetStringField Params "blueprint_path"
    else (CommonUtils_CreateErrorResponse "Missing 'blueprint_path' parameter", w) in
  let? FunctionName := TryGetStringField Params "function_name"
    else (CommonUtils_CreateErrorResponse "Missing 'function_name' parameter", w) in
  let bBackup := default true (TryGetBoolField Params "backup") in
  let? (BlueprintPtr, Blueprint) := ResolveBlueprint h w BlueprintPath
    else (CommonUtils_CreateErrorResponse ("Blueprint not found: " +:+ BlueprintPath), w) in
  let? (GraphPtr, GraphToDelete) := FindGraphToDelete w Blueprint FunctionName
    else (CommonUtils_CreateErrorResponse
            ("Function graph not found: " +:+ FunctionName), w) in
  DeleteFound SerializeGraph h bBackup BlueprintPtr Blueprint FunctionName
    GraphPtr GraphToDelete w.

Definition HandleSetBlueprintParentClass (h : Host) (Params : FJsonParams) (w : World)
  : FJsonObject * World :=
  let? BlueprintPath := TryGetStringField Params "blueprint_path"
    else (CommonUtils_CreateErrorResponse "Missing 'blueprint_path' parameter", w) in
  let? NewParentClassName := TryGetStringField Params "new_parent_class"
    else (CommonUtils_CreateErrorResponse "Missing 'new_parent_class' parameter", w) in
  let bBackup := default true (TryGetBoolField Params "backup") in
  let? (BlueprintPtr, Blueprint) := ResolveBlueprint h w BlueprintPath
    else (CommonUtils_CreateErrorResponse ("Blueprint not found: " +:+ BlueprintPath), w) in
  let? NewParentClass :=
    or_else (FindClass h NewParentClassName)
      (or_else (LoadClass h NewParentClassName)
         (or_else (FindClass h ("A" +:+ NewParentClassName))
            (FindClass h ("U" +:+ NewParentClassName))))
    else (CommonUtils_CreateErrorResponse
            ("Parent class not found: " +:+ NewParentClassName), w) in
  ReparentResolved h bBackup BlueprintPtr Blueprint NewParentClass w.

End Monolithic.

(** ** The per-operation commands

    [Parameters] is the request after [FJsonSerializer::Deserialize], [None]
    when the text does not parse; the result is the object handed to the JSON
    writer. *)

Module FGetBlueprintDependenciesCommand.

Definition Execute (h : Host) (Parameters : option FJsonParams) (w : World)
  : FJsonObject * World :=
  let? JsonObject := Parameters
    else (CreateErrorResponse "Invalid JSON parameters", w) in
  let? BlueprintPath := TryGetStringField JsonObject "blueprint_path"
    else (CreateErrorResponse "Missing 'blueprint_path' parameter", w) in
  let? (_, Blueprint) := DiscoverBlueprint h w BlueprintPath
    else (CreateErrorResponse ("Blueprint not found: " +:+ BlueprintPath), w) in
  let bIncludeEngineClasses := default false (TryGetBoolField JsonObject "include_engine_classes") in
  let bRecursive := default true (TryGetBoolField JsonObject "recursive") in
  let Deps := CollectDependencies h bIncludeEngineClasses Blueprint in
  let FunctionCalls := CollectFunctionCalls w bIncludeEngineClasses Blueprint in
  (MakeJsonObject
   |> SetBoolField "success" true
   |> DependenciesJson Blueprint Deps FunctionCalls, w).

End FGetBlueprintDependenciesCommand.

Module FRedirectFunctionCallCommand.

Definition Execute (h : Host) (Parameters : option FJsonParams) (w : World)
  : FJsonObject * World :=
  let? JsonObject := Parameters
    else (CreateErrorResponse "Invalid JSON parameters", w) in
  let? SourceBlueprintPath := TryGetStringField JsonObject "source_blueprint"
    else (CreateErrorResponse "Missing 'source_blueprint' parameter", w) in
  let? SourceFunction := TryGetStringField JsonObject "source_function"
    else (CreateErrorResponse "Missing 'source_function' parameter", w) in
  let? TargetClass := TryGetStringField JsonObject "target_class"
    else (CreateErrorResponse "Missing 'target_class' parameter", w) in
  let? TargetFunction := TryGetStringField JsonObject "target_function"
    else (CreateErrorResponse "Missing 'target_function' parameter", w) in
  let bDryRun := default true (TryGetBoolField JsonObject "dry_run") in
  let bBackup := default true (TryGetBoolField JsonObject "backup") in
  let? (SourceBlueprintPtr, SourceBlueprint) := DiscoverBlueprint h w SourceBlueprintPath
    else (CreateErrorResponse ("Source Blueprint not found: " +:+ SourceBlueprintPath), w) in
  let? NewTargetClass := or_else (FindClass h TargetClass) (LoadClass h TargetClass)
    else (CreateErrorResponse ("Target class not found: " +:+ TargetClass), w) in
  let? NewFunction := FindFunctionByName h NewTargetClass TargetFunction
    else (CreateErrorResponse
            ("Target function not found: " +:+ QualifiedName TargetClass TargetFunction), w) in
  RedirectResolved h (MakeJsonObject |> SetBoolField "success" true)
    bDryRun bBackup SourceBlueprintPtr SourceBlueprint
    SourceFunction NewTargetClass NewFunction w.

End FRedirectFunctionCallCommand.

Module FDeleteBlueprintFunctionCommand.

Definition SerializeConnection (l : option FLinkedPin) : option FJsonValue :=
  LinkedPin ← l;
  guid ← OwningNodeGuid LinkedPin;
  Some (JObject (MakeJsonObject
    |> SetStringField "node_guid" guid
    |> SetStringField "pin_name" (LinkedPinName LinkedPin))).

Definition SerializePin (Pin : option UEdGraphPin) (bIncludeConnections : bool)
  : option FJsonObject :=
  let? Pin := Pin else None in
  Some (MakeJsonObject
    |> SetStringField "name" (PinName Pin)
    |> SetStringField "direction"
         (match Direction Pin with EGPD_Input => "Input" | EGPD_Output => "Output" end)
    |> SetStringField "category" (PinCategory (PinType Pin))
    |> SetWhen (PinSubCategoryObject (PinType Pin)) (SetStringField "subcategory")
    |> SetWhen (some_if (negb (IsEmpty (DefaultValue Pin))) (DefaultValue Pin))
         (SetStringField "default_value")
    |> SetWhen (some_if (bIncludeConnections && (0 <? Z.of_nat (length (LinkedTo Pin))))
                  (omap SerializeConnection (LinkedTo Pin)))
         (SetArrayField "connections")).

Definition SerializeNode (Node : option UEdGraphNode) : option FJsonObject :=
  let? Node := Node else None in
  Some (MakeJsonObject
    |> SetStringField "guid" (NodeGuid Node)
    |> SetStringField "class" (NodeClassName Node)
    |> SetStringField "title" (NodeTitle Node)
    |> SetNumberField "pos_x" (NodePosX Node)
    |> SetNumberField "pos_y" (NodePosY Node)
    |> SetArrayField "pins"
         (omap (fun Pin : option UEdGraphPin =>
                  p ← Pin;
                  PinJson ← SerializePin (Some p) true;
                  Some (JObject PinJson)) (Pins Node))).

Definition SerializeGraph (w : World) (Graph : option UEdGraph) (bIncludeDefaults : bool)
  : option FJsonObject :=
  let? Graph := Graph else None in
  Some (MakeJsonObject
    |> SetStringField "name" (GraphName Graph)
    |> SetStringField "class" (GraphClassName Graph)
    |> SetNumberField "node_count" (Z.of_nat (length (Nodes Graph)))
    |> SetArrayField "nodes"
         (omap (fun Node : addr =>
                  NodeJson ← SerializeNode (NodeStore w !! Node);
                  Some (JObject NodeJson)) (Nodes Graph))).

Definition Execute (h : Host) (Parameters : option FJsonParams) (w : World)
  : FJsonObject * World :=
  let? JsonObject := Parameters
    else (CreateErrorResponse "Invalid JSON parameters", w) in
  let? BlueprintPath := TryGetStringField JsonObject "blueprint_path"
    else (CreateErrorResponse "Missing 'blueprint_path' parameter", w) in
  let? FunctionName := TryGetStringField JsonObject "function_name"
    else (CreateErrorResponse "Missing 'function_name' parameter", w) in
  let bBackup := default true (TryGetBoolField JsonObject "backup") in
  let? (BlueprintPtr, Blueprint) := DiscoverBlueprint h w BlueprintPath
    else (CreateErrorResponse ("Blueprint not found: " +:+ BlueprintPath), w) in
  let? (GraphPtr, GraphToDelete) := FindGraphToDelete w Blueprint FunctionName
    else (CreateErrorResponse ("Function graph not found: " +:+ FunctionName), w) in
  DeleteFound SerializeGraph h bBackup BlueprintPtr Blueprint FunctionName
    GraphPtr GraphToDelete w.

End FDeleteBlueprintFunctionCommand.

Module FSetBlueprintParentClassCommand.

Definition Execute (h : Host) (Parameters : option FJsonParams) (w : World)
  : FJsonObject * World :=
  let? JsonObject := Parameters
    else (CreateErrorResponse "Invalid JSON parameters", w) in
  let? BlueprintPath := TryGetStringField JsonObject "blueprint_path"
    else (CreateErrorResponse "Missing 'blueprint_path' parameter", w) in
  let? NewParentClassName := TryGetStringField JsonObject "new_parent_class"
    else (CreateErrorResponse "Missing 'new_parent_class' parameter", w) in
  let bBackup := default true (TryGetBoolField JsonObject "backup") in
  let? (BlueprintPtr, Blueprint) := DiscoverBlueprint h w BlueprintPath
    else (CreateErrorResponse ("Blueprint not found: " +:+ BlueprintPath), w) in
  let? NewParentClass :=
    or_else (ResolveParentClassForBlueprint h NewParentClassName)
      (or_else (FindClass h NewParentClassName)
         (or_else (LoadClass h NewParentClassName)
            (or_else (FindClass h ("A" +:+ NewParentClassName))
               (FindClass h ("U" +:+ NewParentClassName)))))
    else (CreateErrorResponse ("Parent class not found: " +:+ NewParentClassName), w) in
  ReparentResolved h bBackup BlueprintPtr Blueprint NewParentClass w.

End FSetBlueprintParentClassCommand.

(** ** A sample project

    A blueprint [BP_Hero] with a function graph [DoWork] and an event graph;
    two of its nodes call [OldFunc], one calls the engine's [PrintString]. *)

Module Sample.

Definition KismetSystemLibrary : UClass :=
  {| ClassName := "KismetSystemLibrary";
     ClassPathName := "/Script/Engine.KismetSystemLibrary" |}.
Definition BP_Hero_C : UClass :=
  {| ClassName := "BP_Hero_C"; ClassPathName := "/Game/BP_Hero.BP_Hero_C" |}.
Definition NewClass : UClass :=
  {| ClassName := "NewClass"; ClassPathName := "/Script/MyGame.NewClass" |}.

Definition PrintString : UFunction :=
  {| FunctionName := "PrintString"; OwnerClass := Some KismetSystemLibrary;
     FUNC_BlueprintPure := false |}.
Definition OldFunc : UFunction :=
  {| FunctionName := "OldFunc"; OwnerClass := Some BP_Hero_C;
     FUNC_BlueprintPure := false |}.
Definition NewFunc : UFunction :=
  {| FunctionName := "NewFunc"; OwnerClass := Some NewClass;
     FUNC_BlueprintPure := false |}.
(** The native function that keeps the name of the blueprint function it
    replaces. *)
Definition NativeOldFunc : UFunction :=
  {| FunctionName := "OldFunc"; OwnerClass := Some NewClass;
     FUNC_BlueprintPure := false |}.

Definition ExecType : FEdGraphPinType :=
  {| PinCategory := "exec"; PinSubCategoryObject := None; IsArray := false;
     bIsReference := false; bIsConst := false |}.
Definition TextType : FEdGraphPinType :=
  {| PinCategory := "text"; PinSubCategoryObject := None; IsArray := false;
     bIsReference := true; bIsConst := true |}.

Definition ThenPin (peer : string) : UEdGraphPin :=
  {| PinName := "then"; Direction := EGPD_Output; PinType := ExecType;
     DefaultValue := ""; DefaultObject := None; DefaultTextValue := "";
     LinkedTo := [Some {| OwningNodeGuid := Some peer; LinkedPinName := "execute" |}] |}.
Definition ExecPin (peer : string) : UEdGraphPin :=
  {| PinName := "execute"; Direction := EGPD_Input; PinType := ExecType;
     DefaultValue := ""; DefaultObject := None; DefaultTextValue := "";
     LinkedTo := [Some {| OwningNodeGuid := Some peer; LinkedPinName := "then" |}] |}.
Definition MessagePin : UEdGraphPin :=
  {| PinName := "InText"; Direction := EGPD_Input; PinType := TextType;
     DefaultValue := ""; DefaultObject := Some "/Game/Fonts/F_Main.F_Main";
     DefaultTextValue := "Hello"; LinkedTo := [] |}.

Definition EntryNode : UEdGraphNode :=
  {| NodeGuid := "G1"; NodeClassName := "K2Node_FunctionEntry"; NodeTitle := "Do Work";
     NodePosX := 0; NodePosY := 0; NodeComment := ""; bCommentBubbleVisible := false;
     Pins := [Some (ThenPin "G2")]; NodeKind := K2Node_FunctionEntry |}.
Definition CallOld1 : UEdGraphNode :=
  {| NodeGuid := "G2"; NodeClassName := "K2Node_CallFunction"; NodeTitle := "Old Func";
     NodePosX := 200; NodePosY := 0; NodeComment := "to migrate";
     bCommentBubbleVisible := true;
     Pins := [Some (ThenPin "G3"); None; Some (ExecPin "G1")];
     NodeKind := K2Node_CallFunction (Some OldFunc) false |}.
Definition CallPrint : UEdGraphNode :=
  {| NodeGuid := "G3"; NodeClassName := "K2Node_CallFunction"; NodeTitle := "Print String";
     NodePosX := 400; NodePosY := -16; NodeComment := ""; bCommentBubbleVisible := false;
     Pins := [Some (ExecPin "G2"); Some MessagePin];
     NodeKind := K2Node_CallFunction (Some PrintString) false |}.
Definition BeginPlay : UEdGraphNode :=
  {| NodeGuid := "G5"; NodeClassName := "K2Node_Event"; NodeTitle := "Event BeginPlay";
     NodePosX := 0; NodePosY := 0; NodeComment := ""; bCommentBubbleVisible := false;
     Pins := [Some (ThenPin "G4")];
     NodeKind := K2Node_Event "ReceiveBeginPlay" (Some "Actor") |}.
Definition UserInterfaceSettings : UClass :=
  {| ClassName := "UserInterfaceSettings";
     ClassPathName := "/Script/Engine.UserInterfaceSettings" |}.
Definition GetDPIScale : UFunction :=
  {| FunctionName := "GetDPIScaleBasedOnSize"; OwnerClass := Some UserInterfaceSettings;
     FUNC_BlueprintPure := true |}.
Definition CallDPIScale : UEdGraphNode :=
  {| NodeGuid := "G6"; NodeClassName := "K2Node_CallFunction";
     NodeTitle := "Get DPIScale Based On Size";
     NodePosX := 500; NodePosY := 120; NodeComment := ""; bCommentBubbleVisible := false;
     Pins := []; NodeKind := K2Node_CallFunction (Some GetDPIScale) true |}.
Definition CallOld2 : UEdGraphNode :=
  {| NodeGuid := "G4"; NodeClassName := "K2Node_CallFunction"; NodeTitle := "Old Func";
     NodePosX := 250; NodePosY := 0; NodeComment := ""; bCommentBubbleVisible := false;
     Pins := [Some (ExecPin "G5")];
     NodeKind := K2Node_CallFunction (Some OldFunc) false |}.

Definition DoWork : UEdGraph :=
  {| GraphName := "DoWork"; GraphClassName := "EdGraph"; Nodes := [1; 2; 3]%positive |}.
Definition EventGraph : UEdGraph :=
  {| GraphName := "EventGraph"; GraphClassName := "EdGraph";
     Nodes := [5; 9; 4; 6]%positive |}.

Definition BP_Hero : UBlueprint :=
  {| BlueprintName := "BP_Hero"; BlueprintPathName := "/Game/BP_Hero.BP_Hero";
     PackageName := "/Game/BP_Hero"; ParentClass := None;
     FunctionGraphs := [10%positive]; MacroGraphs := [];
     UbergraphPages := [11%positive]; Status := BS_UpToDate |}.

Definition world : World :=
  {| Blueprints := {[ 100%positive := BP_Hero ]};
     GraphStore := {[ 10%positive := DoWork; 11%positive := EventGraph ]};
     NodeStore := {[ 1%positive := EntryNode; 2%positive := CallOld1;
                     3%positive := CallPrint; 4%positive := CallOld2;
                     5%positive := BeginPlay; 6%positive := CallDPIScale ]};
     ExportDirExists := false;
     Files := [] |}.

(** A reconstruction that rebuilds the pins, so that null entries are gone. *)
Definition RebuildPins (Blueprint : UBlueprint) (Node : UEdGraphNode) : UEdGraphNode :=
  {| NodeGuid := NodeGuid Node; NodeClassName := NodeClassName Node;
     NodeTitle := NodeTitle Node; NodePosX := NodePosX Node; NodePosY := NodePosY Node;
     NodeComment := NodeComment Node;
     bCommentBubbleVisible := bCommentBubbleVisible Node;
     Pins := Some <$> omap id (Pins Node);
     NodeKind := NodeKind Node |}.

Definition host (CanWrite : bool) : Host :=
  {| LoadBlueprint := fun p =>
       if String.eqb p "/Game/BP_Hero.BP_Hero" then Some 100%positive else None;
     FindBlueprint := fun _ => None;
     FindBlueprints := fun _ => [];
     FindClass := fun c => if String.eqb c "NewClass" then Some NewClass else None;
     LoadClass := fun _ => None;
     ResolveParentClassForBlueprint := fun _ => None;
     FindFunctionByName := fun c f =>
       if String.eqb (ClassName c) "NewClass" then
         if String.eqb f "NewFunc" then Some NewFunc
         else if String.eqb f "OldFunc" then Some NativeOldFunc else None
       else None;
     GetDependencies := fun p =>
       if String.eqb p "/Game/BP_Hero"
       then ["/Script/MyGame"; "/Game/BP_Base"; "/Game/T_Icon"; "/Game/BP_Base";
             "/Script/Engine"; "/Engine/BasicShapes/Cube"; "/Game/T_Icon"]
       else [];
     GetAssetByObjectPath := fun p =>
       if String.eqb p "/Game/BP_Base" then Some "Blueprint"
       else if String.eqb p "/Game/T_Icon" then Some "Texture2D" else None;
     ProjectSavedDir := "Saved";
     CreateDirectoryTree := fun _ => CanWrite;
     SaveStringToFile := fun _ => CanWrite;
     ReconstructNode := RebuildPins;
     NowStamp := "20240101_120000";
     NowText := "2024.01.01-12.00.00" |}.

Definition request (strings : list (string * string)) (bools : list (string * bool))
  : FJsonParams :=
  {| TryGetStringField := fun k =>
       snd <$> find (fun e => String.eqb (fst e) k) strings;
     TryGetBoolField := fun k =>
       snd <$> find (fun e => String.eqb (fst e) k) bools |}.

Definition redirect_request (target : string) (dry_run : bool) : FJsonParams :=
  request [("source_blueprint", "/Game/BP_Hero.BP_Hero"); ("source_function", "OldFunc");
           ("target_class", "NewClass"); ("target_function", target)]
          [("dry_run", dry_run)].

Definition dependencies_request : FJsonParams :=
  request [("blueprint_path", "/Game/BP_Hero.BP_Hero")] [].

Definition delete_request (name : string) : FJsonParams :=
  request [("blueprint_path", "/Game/BP_Hero.BP_Hero"); ("function_name", name)] [].

Definition reparent_request : FJsonParams :=
  request [("blueprint_path", "/Game/BP_Hero.BP_Hero"); ("new_parent_class", "NewClass")] [].

End Sample.

(** ** Readings of documents and stores used to state the properties *)

#[global] Instance EEdGraphPinDirection_eq_dec : EqDecision EEdGraphPinDirection.
Proof. solve_decision. Defined.

Definition DocString (k : string) (o : FJsonObject) : option string :=
  GetField k o ≫= AsString.

Definition DocObjects (k : string) (o : FJsonObject) : list FJsonObject :=
  map AsObject (GetArrayField k o).

(** The (node guid, pin name) pairs of a pin document's [connections]. *)
Definition DocConnections (PinJson : FJsonObject) : list (string * string) :=
  omap (fun v =>
          guid ← DocString "node_guid" (AsObject v);
          name ← DocString "pin_name" (AsObject v);
          Some (guid, name))
       (GetArrayField "connections" PinJson).

(** The nodes a graph holds, in the order of its [Nodes] array. *)
Definition LiveNodes (w : World) (Graph : UEdGraph) : list UEdGraphNode :=
  omap (fun Node : addr => NodeStore w !! Node) (Nodes Graph).

(** The pins of one direction, in the order of the node's [Pins] array. *)
Definition PinsOf (d : EEdGraphPinDirection) (Node : UEdGraphNode) : list UEdGraphPin :=
  filter (fun Pin => Direction Pin = d) (omap id (Pins Node)).

(** The links of a pin that lead to an owned pin, in [LinkedTo] order. *)
Definition LinksOf (Pin : UEdGraphPin) : list (string * string) :=
  omap (fun l : option FLinkedPin =>
          LinkedPin ← l;
          guid ← OwningNodeGuid LinkedPin;
          Some (guid, LinkedPinName LinkedPin))
       (LinkedTo Pin).

Definition PinDocFollows (PinJson : FJsonObject) (Pin : UEdGraphPin) : Prop :=
  DocString "name" PinJson = Some (PinName Pin)
  ∧ DocConnections PinJson = LinksOf Pin.

Definition NodeDocFollows (NodeJson : FJsonObject) (Node : UEdGraphNode) : Prop :=
  DocString "guid" NodeJson = Some (NodeGuid Node)
  ∧ Forall2 PinDocFollows (DocObjects "input_pins" NodeJson) (PinsOf EGPD_Input Node)
  ∧ Forall2 PinDocFollows (DocObjects "output_pins" NodeJson) (PinsOf EGPD_Output Node).

(** The target functions of the call nodes of a blueprint, graph by graph. *)
Definition CalledFunctions (w : World) (Blueprint : UBlueprint) : list UFunction :=
  Graph ← omap (fun g : addr => GraphStore w !! g) (GetAllGraphs Blueprint);
  omap (fun Node : addr => NodeStore w !! Node ≫= GetTargetFunction) (Nodes Graph).

(** The keys of a response's [function_calls], and whether one of them equals
    [K] as the map compares keys. *)
Definition FunctionCallKeys (Response : FJsonObject) : list string :=
  GetObjectArrayStrings "function_calls" "function" Response.

Definition KeyListed (K : string) (keys : list string) : bool :=
  existsb (fun k => FString_eqb k K) keys.

(** The engine guard of the call count. *)
Definition EngineGuarded (Function : UFunction) : bool :=
  StartsWith (FunctionKeyOf Function) "U"
  && match OwnerClass Function with
     | Some c => StartsWith (ClassPathName c) "/Script/Engine"
     | None => false
     end.

(** The target a redirect request resolves to. *)
Definition ResolvedTarget (h : Host) (p : FJsonParams) : option (UClass * UFunction) :=
  TargetClass ← TryGetStringField p "target_class";
  TargetFunction ← TryGetStringField p "target_function";
  NewTargetClass ← or_else (FindClass h TargetClass) (LoadClass h TargetClass);
  NewFunction ← FindFunctionByName h NewTargetClass TargetFunction;
  Some (NewTargetClass, NewFunction).

(** The host at another time. *)
Definition AtTime (stamp text : string) (h : Host) : Host :=
  {| LoadBlueprint := LoadBlueprint h; FindBlueprint := FindBlueprint h;
     FindBlueprints := FindBlueprints h; FindClass := FindClass h;
     LoadClass := LoadClass h;
     ResolveParentClassForBlueprint := ResolveParentClassForBlueprint h;
     FindFunctionByName := FindFunctionByName h;
     GetDependencies := GetDependencies h;
     GetAssetByObjectPath := GetAssetByObjectPath h;
     ProjectSavedDir := ProjectSavedDir h;
     CreateDirectoryTree := CreateDirectoryTree h;
     SaveStringToFile := SaveStringToFile h;
     ReconstructNode := ReconstructNode h;
     NowStamp := stamp; NowText := text |}.

(** The fields of the full documents that the delete command's backup keeps. *)
Definition RestrictFields (keys : list string) (o : FJsonObject) : FJsonObject :=
  List.filter (fun e => existsb (String.eqb (fst e)) keys) o.

Definition BackupGraphFields : list string := ["name"; "class"; "node_count"].
Definition BackupNodeFields : list string := ["guid"; "class"; "title"; "pos_x"; "pos_y"].
Definition BackupPinFields : list string :=
  ["name"; "direction"; "category"; "subcategory"; "default_value"; "connections"].

Definition HasDirection (d : string) (PinJson : FJsonObject) : bool :=
  match DocString "direction" PinJson with
  | Some s => String.eqb s d
  | None => false
  end.

(** How a node of the backup document relates to the node of the full one. *)
Definition BackupNodeAgrees (FullNode BackupNode : FJsonObject) : Prop :=
  RestrictFields BackupNodeFields FullNode = RestrictFields BackupNodeFields BackupNode
  ∧ map (RestrictFields BackupPinFields) (DocObjects "input_pins" FullNode)
    = List.filter (HasDirection "Input") (DocObjects "pins" BackupNode)
  ∧ map (RestrictFields BackupPinFields) (DocObjects "output_pins" FullNode)
    = List.filter (HasDirection "Output") (DocObjects "pins" BackupNode).

(** The pin documents of one direction, in the order of the [Pins] array. *)
Definition PinDocs (d : EEdGraphPinDirection) (pins : list (option UEdGraphPin))
  : list FJsonValue :=
  omap (fun p => JObject <$> Monolithic.SerializePin (Some p) true)
       (filter (fun p => Direction p = d) (omap id pins)).

(** The fields [SerializeNodeKind] may set. *)
Definition NodeKindFields : list string :=
  ["node_type"; "function_name"; "function_class"; "function_class_path"; "is_pure";
   "event_name"; "event_class"; "variable_name"; "action_name"; "macro_name"].

Definition DirectionName (d : EEdGraphPinDirection) : string :=
  match d with EGPD_Input => "Input" | EGPD_Output => "Output" end.

(** Whether the registry knows [DepPath] as a blueprint asset. *)
Definition IsBlueprintAsset (h : Host) (DepPath : string) : bool :=
  match GetAssetByObjectPath h DepPath with
  | Some AssetClass => FString_eqb AssetClass "Blueprint"
  | None => false
  end.

(** No two keys are equal as [FString]s. *)
Fixpoint DistinctKeys (keys : list string) : Prop :=
  match keys with
  | [] => True
  | k :: keys' => existsb (FString_eqb k) keys' = false ∧ DistinctKeys keys'
  end.

(** The invariant of the loop over the dependencies: no set holds two
    elements that are equal as [FString]s, and each set holds identifiers of
    its own category only. *)
Definition Categorized (h : Host) (D : FDependencySets) : Prop :=
  DistinctKeys (AssetDependencies D) ∧ DistinctKeys (BlueprintDependencies D)
  ∧ DistinctKeys (NativeClasses D)
  ∧ (∀ x, x ∈ AssetDependencies D →
       StartsWith x "/Script/" = false ∧ IsBlueprintAsset h x = false)
  ∧ (∀ x, x ∈ BlueprintDependencies D →
       StartsWith x "/Script/" = false ∧ IsBlueprintAsset h x = true)
  ∧ (∀ x, x ∈ NativeClasses D → StartsWith x "/Script/" = true).

(** The three dependency arrays of a response are duplicate free and pairwise
    disjoint. *)
Definition DisjointDeduplicated (Response : FJsonObject) : Prop :=
  let A := GetStringArray "assets" Response in
  let B := GetStringArray "blueprints" Response in
  let N := GetStringArray "native_classes" Response in
  NoDup A ∧ NoDup B ∧ NoDup N ∧ A ## B ∧ A ## N ∧ B ## N.

(** Whether a call of [Function] is counted under the key [K]. *)
Definition CountedAs (bIncludeEngineClasses : bool) (K : string) (Function : UFunction)
  : bool :=
  CountsFunctionCall bIncludeEngineClasses Function
  && FString_eqb (FunctionKeyOf Function) K.

(** Whether the node at [Node] is a call of a function named [SourceFunction]. *)
Definition CallsFunction (w : World) (SourceFunction : string) (Node : addr) : bool :=
  match NodeStore w !! Node ≫= GetTargetFunction with
  | Some Function => FString_eqb (FunctionName Function) SourceFunction
  | None => false
  end.

(** The call nodes of that function, graph by graph, in stored order. *)
Definition NodesCalling (w : World) (Blueprint : UBlueprint) (SourceFunction : string)
  : list addr :=
  Graph ← omap (fun g : addr => GraphStore w !! g) (GetAllGraphs Blueprint);
  List.filter (CallsFunction w SourceFunction) (Nodes Graph).

Definition SameGraphs (bp' bp : UBlueprint) : Prop :=
  GetAllGraphs bp' = GetAllGraphs bp.

(** Every blueprint of [w] is still there in [w'], with the same graphs. *)
Definition BlueprintsRetouched (w' w : World) : Prop :=
  ∀ a, ∃ f, (∀ bp, SameGraphs (f bp) bp) ∧ Blueprints w' !! a = f <$> Blueprints w !! a.

(** Two worlds hold the same blueprints, graphs and nodes. *)
Definition SameObjects (w1 w2 : World) : Prop :=
  Blueprints w1 = Blueprints w2 ∧ GraphStore w1 = GraphStore w2
  ∧ NodeStore w1 = NodeStore w2.



(** The envelope: a boolean [success], and on failure nothing but
    [success = false] and the [error] message. *)
Definition IsFailure (Response : FJsonObject) : Prop :=
  ∃ msg, Response = [("success", JBoolean false); ("error", JString msg)].

Definition ConformsToEnvelope (Response : FJsonObject) : Prop :=
  GetField "success" Response = Some (JBoolean true) ∧ GetField "error" Response = None
  ∨ IsFailure Response.

(** ** The remaining operations: export, reference search, function listing

    What these read beyond the records above: the clock as a date, the
    components and variables of a blueprint, and the registry's referencers. *)

(** The search under [FString::Contains]: whether [sub] starts at some
    position of [s]. *)
Fixpoint StrFind (s sub : string) : bool :=
  String.prefix sub s
  || match s with
     | EmptyString => false
     | String _ s' => StrFind s' sub
     end.

(** [S.Contains(SubStr)]: the search ignores case and never finds an empty
    [SubStr]. *)
Definition Contains (s SubStr : string) : bool :=
  match SubStr with
  | EmptyString => false
  | _ => StrFind (FString_ToLower s) (FString_ToLower SubStr)
  end.

(** The value an [int32] takes after an addition: the sum, wrapped to 32 bits
    in two's complement. *)
Definition Int32 (z : Z) : Z := (z + 2147483648) mod 4294967296 - 2147483648.

Fixpoint Zeros (n : nat) : string :=
  match n with
  | O => EmptyString
  | S n' => String "0" (Zeros n')
  end.

(** [%0<Width>d] of [FString::Printf]: the decimal numeral, with zeros put
    between the sign and the digits until it is [Width] characters long. *)
Definition Printf_0d (Width : nat) (n : Z) : string :=
  if n <? 0
  then "-" +:+ Zeros (Width - 1 - String.length (pretty (- n))) +:+ pretty (- n)
  else Zeros (Width - String.length (pretty n)) +:+ pretty n.

(** [FDateTime], through the getters the export reads. *)
Record FDateTime := {
  GetYear : Z;
  GetMonth : Z;
  GetDay : Z;
  GetHour : Z;
  GetMinute : Z;
  GetSecond : Z
}.

(** A node of the construction script, as the export reads it. *)
Record USCS_Node := {
  SCSVariableName : string;                        (* GetVariableName() *)
  ComponentTemplate : option string;               (* its class name, when a template is set *)
  ParentComponentOrVariableName : option string    (* None stands for NAME_None *)
}.

Record FBPVariableDescription := {
  VarName : string;
  VarType : FEdGraphPinType;
  PropertyFlags : N
}.

Definition CPF_Edit : N := 1.

(** The members of a [UBlueprint] that only the export reads. *)
Record FBlueprintMembers := {
  SimpleConstructionScript : option (list (option USCS_Node));   (* GetAllNodes(), when the script exists *)
  NewVariables : list FBPVariableDescription
}.

(** The editor as the dispatcher sees it: the services of [Host], the members
    above of each blueprint, [FDateTime::Now()] and
    [IAssetRegistry::GetReferencers] (package names). *)
Record Editor := {
  Services : Host;
  Members : addr -> FBlueprintMembers;
  Now : FDateTime;
  GetReferencers : string -> list string
}.

(** [GenerateExportFileName], the same in the dispatcher and in the export
    command. *)
Definition GenerateExportFileName (Now : FDateTime) (BlueprintName : string) : string :=
  "export_" +:+ BlueprintName +:+ "_"
  +:+ Printf_0d 4 (GetYear Now) +:+ Printf_0d 2 (GetMonth Now) +:+ Printf_0d 2 (GetDay Now)
  +:+ "_"
  +:+ Printf_0d 2 (GetHour Now) +:+ Printf_0d 2 (GetMinute Now)
  +:+ Printf_0d 2 (GetSecond Now) +:+ ".json".

(** *** Export

    From the optional parameters on, the dispatcher's
    [HandleExportBlueprintGraph] and [FExportBlueprintGraphCommand::Execute]
    run the same statements, each with the serializer of its own class. *)

(** The body of the loop over all graphs.  [GraphCount] never exceeds the
    number of graphs; [TotalNodeCount] is a sum of array sizes. *)
Definition ExportGraph
  (SerializeGraph : World -> option UEdGraph -> bool -> option FJsonObject)
  (w : World) (GraphNameArg : string) (bIncludeDefaults : bool)
  (acc : list FJsonValue * Z * Z) (GraphPtr : addr) : list FJsonValue * Z * Z :=
  let '(GraphsArray, TotalNodeCount, GraphCount) := acc in
  let? Graph := GraphStore w !! GraphPtr else acc in
  if negb (IsEmpty GraphNameArg) && negb (Contains (GraphName Graph) GraphNameArg)
  then acc
  else
    let? GraphJson := SerializeGraph w (Some Graph) bIncludeDefaults else acc in
    (GraphsArray ++ [JObject GraphJson],
     Int32 (TotalNodeCount + Z.of_nat (length (Nodes Graph))),
     GraphCount + 1).

(** One entry of [components]; nodes without a component template are
    skipped. *)
Definition ComponentJson (Node : option USCS_Node) : option FJsonValue :=
  Node ← Node;
  Class ← ComponentTemplate Node;
  Some (JObject (MakeJsonObject
    |> SetStringField "name" (SCSVariableName Node)
    |> SetStringField "class" Class
    |> SetWhen (ParentComponentOrVariableName Node) (SetStringField "parent"))).

(** One entry of [variables]. *)
Definition VariableJson (Var : FBPVariableDescription) : FJsonValue :=
  JObject (MakeJsonObject
    |> SetStringField "name" (VarName Var)
    |> SetStringField "type" (PinCategory (VarType Var))
    |> SetWhen (PinSubCategoryObject (VarType Var)) (SetStringField "subtype")
    |> SetBoolField "is_exposed" (negb (N.land (PropertyFlags Var) CPF_Edit =? 0)%N)).

(** The export document with the two counters. *)
Definition BuildExportJson
  (SerializeGraph : World -> option UEdGraph -> bool -> option FJsonObject)
  (BlueprintMembers : FBlueprintMembers) (GraphNameArg : string)
  (bIncludeComponents bIncludeDefaults : bool) (Blueprint : UBlueprint) (w : World)
  : FJsonObject * Z * Z :=
  let '(GraphsArray, TotalNodeCount, GraphCount) :=
    fold_left (ExportGraph SerializeGraph w GraphNameArg bIncludeDefaults)
      (GetAllGraphs Blueprint) ([], 0, 0) in
  (MakeJsonObject
   |> SetStringField "blueprint_name" (BlueprintName Blueprint)
   |> SetStringField "blueprint_path" (BlueprintPathName Blueprint)
   |> SetWhen (ParentClass Blueprint) (fun c o =>
        o |> SetStringField "parent_class" (ClassName c)
          |> SetStringField "parent_class_path" (ClassPathName c))
   |> SetArrayField "graphs" GraphsArray
   |> SetWhen (if bIncludeComponents then SimpleConstructionScript BlueprintMembers else None)
        (fun AllNodes => SetArrayField "components" (omap ComponentJson AllNodes))
   |> SetArrayField "variables" (map VariableJson (NewVariables BlueprintMembers)),
   TotalNodeCount, GraphCount).

(** Everything from the optional parameters to the write of the file: the
    path written (empty on failure) and the two counters. *)
Definition ExportToFile
  (SerializeGraph : World -> option UEdGraph -> bool -> option FJsonObject)
  (e : Editor) (Params : FJsonParams) (BlueprintPtr : addr) (Blueprint : UBlueprint)
  (w : World) : string * Z * Z * World :=
  let GraphNameArg := default EmptyString (TryGetStringField Params "graph_name") in
  let bIncludeComponents := default true (TryGetBoolField Params "include_components") in
  let bIncludeDefaults := default false (TryGetBoolField Params "include_defaults") in
  let '(ExportJson, TotalNodeCount, GraphCount) :=
    BuildExportJson SerializeGraph (Members e BlueprintPtr) GraphNameArg
      bIncludeComponents bIncludeDefaults Blueprint w in
  let FileName := GenerateExportFileName (Now e) (BlueprintName Blueprint) in
  let '(FilePath, w) := WriteJsonToTempFile (Services e) FileName ExportJson w in
  (FilePath, TotalNodeCount, GraphCount, w).

(** *** Reference search

    The loops of [HandleFindBlueprintReferences] and of
    [FFindBlueprintReferencesCommand::Execute] are the same text. *)

(** The body of the loop over the nodes of one graph of a referencer. *)
Definition LocateNode (w : World) (TargetFunction : string) (Graph : UEdGraph)
  (LocationsArray : list FJsonValue) (NodePtr : addr) : list FJsonValue :=
  let? Node := NodeStore w !! NodePtr else LocationsArray in
  let? Function := GetTargetFunction Node else LocationsArray in
  if FString_eqb (FunctionName Function) TargetFunction
  then
    LocationsArray ++ [JObject (MakeJsonObject
      |> SetStringField "graph" (GraphName Graph)
      |> SetStringField "node_guid" (NodeGuid Node)
      |> SetStringField "node_title" (NodeTitle Node)
      |> SetNumberField "pos_x" (NodePosX Node)
      |> SetNumberField "pos_y" (NodePosY Node))]
  else LocationsArray.

Definition LocateGraph (w : World) (TargetFunction : string)
  (LocationsArray : list FJsonValue) (GraphPtr : addr) : list FJsonValue :=
  let? Graph := GraphStore w !! GraphPtr else LocationsArray in
  fold_left (LocateNode w TargetFunction Graph) (Nodes Graph) LocationsArray.

(** [LocationsArray] after the scan of all graphs of a referencer. *)
Definition ReferenceLocations (w : World) (ReferencerBP : UBlueprint)
  (TargetFunction : string) : list FJsonValue :=
  fold_left (LocateGraph w TargetFunction) (GetAllGraphs ReferencerBP) [].

(** The body of the loop over the referencers. *)
Definition AddReferencer (h : Host) (w : World) (TargetFunction : string)
  (ReferencersArray : list FJsonValue) (RefPath : string) : list FJsonValue :=
  if StartsWith RefPath "/Script/" || StartsWith RefPath "/Engine/"
  then ReferencersArray
  else
    let RefJson := MakeJsonObject |> SetStringField "referencer_path" RefPath in
    let RefJson :=
      match LoadBlueprint h RefPath ≫= LookupBlueprint w with
      | Some (_, ReferencerBP) =>
          RefJson
          |> SetStringField "referencer_name" (BlueprintName ReferencerBP)
          |> SetStringField "type" "Blueprint"
          |> SetWhen (some_if (negb (IsEmpty TargetFunction))
                        (ReferenceLocations w ReferencerBP TargetFunction))
               (SetArrayField "reference_locations")
      | None => RefJson |> SetStringField "type" "Asset"
      end in
    ReferencersArray ++ [JObject RefJson].

(** Everything after the target blueprint is looked up; [ResultJson] is the
    fresh result object of the dispatcher, or the one holding
    [success = true] of the command. *)
Definition FindReferences (e : Editor) (Params : FJsonParams) (TargetPath : string)
  (TargetBlueprint : option (addr * UBlueprint)) (ResultJson : FJsonObject) (w : World)
  : FJsonObject :=
  let TargetFunction := default EmptyString (TryGetStringField Params "target_function") in
  let SearchScope := default "project" (TryGetStringField Params "search_scope") in
  let bIncludeSoftReferences :=
    default true (TryGetBoolField Params "include_soft_references") in
  let TargetId :=
    match TargetBlueprint with
    | Some (_, Blueprint) => PackageName Blueprint
    | None => TargetPath
    end in
  let ReferencersArray :=
    fold_left (AddReferencer (Services e) w TargetFunction) (GetReferencers e TargetId) [] in
  ResultJson
  |> SetStringField "target_path" TargetPath
  |> SetWhen (some_if (negb (IsEmpty TargetFunction)) TargetFunction)
       (SetStringField "target_function")
  |> SetNumberField "referencer_count" (Z.of_nat (length ReferencersArray))
  |> SetArrayField "referencers" ReferencersArray.

(** *** Function listing

    [HandleGetBlueprintFunctions] and [FGetBlueprintFunctionsCommand::Execute]
    differ in the lookup of the blueprint only. *)

(** The loop that decides [bIsOverride]: the first function entry node ends
    it. *)
Fixpoint FindIsOverride (h : Host) (w : World) (Blueprint : UBlueprint) (Graph : UEdGraph)
  (GraphNodes : list addr) : bool :=
  match GraphNodes with
  | [] => false
  | NodePtr :: GraphNodes' =>
      match NodeKind <$> NodeStore w !! NodePtr with
      | Some K2Node_FunctionEntry =>
          match ParentClass Blueprint with
          | Some Parent =>
              match FindFunctionByName h Parent (GraphName Graph) with
              | Some _ => true
              | None => false
              end
          | None => false
          end
      | _ => FindIsOverride h w Blueprint Graph GraphNodes'
      end
  end.

(** The entry of one function graph. *)
Definition FunctionGraphJson (h : Host) (w : World) (Blueprint : UBlueprint)
  (GraphPtr : addr) : option FJsonValue :=
  Graph ← GraphStore w !! GraphPtr;
  Some (JObject (MakeJsonObject
    |> SetStringField "name" (GraphName Graph)
    |> SetStringField "graph_name" (GraphName Graph)
    |> SetNumberField "node_count" (Z.of_nat (length (Nodes Graph)))
    |> SetBoolField "is_event" false
    |> SetStringField "type" "Function"
    |> SetBoolField "is_override" (FindIsOverride h w Blueprint Graph (Nodes Graph)))).

(** The entry of one event node of an event graph page. *)
Definition EventNodeJson (w : World) (Graph : UEdGraph) (NodePtr : addr)
  : option FJsonValue :=
  Node ← NodeStore w !! NodePtr;
  match NodeKind Node with
  | K2Node_Event EventMemberName EventMemberParentClass =>
      Some (JObject (MakeJsonObject
        |> SetStringField "name" EventMemberName
        |> SetStringField "graph_name" (GraphName Graph)
        |> SetNumberField "node_count" (Z.of_nat (length (Nodes Graph)))
        |> SetBoolField "is_event" true
        |> SetStringField "type" "Event"
        |> SetWhen EventMemberParentClass (SetStringField "event_class")))
  | _ => None
  end.

(** The entries of one event graph page: its events, then the page itself. *)
Definition UbergraphPageJson (w : World) (GraphPtr : addr) : list FJsonValue :=
  let? Graph := GraphStore w !! GraphPtr else [] in
  omap (EventNodeJson w Graph) (Nodes Graph)
  ++ [JObject (MakeJsonObject
        |> SetStringField "name" (GraphName Graph)
        |> SetStringField "graph_name" (GraphName Graph)
        |> SetNumberField "node_count" (Z.of_nat (length (Nodes Graph)))
        |> SetBoolField "is_event" false
        |> SetStringField "type" "EventGraph")].

(** The entry of one macro graph. *)
Definition MacroGraphJson (w : World) (GraphPtr : addr) : option FJsonValue :=
  Graph ← GraphStore w !! GraphPtr;
  Some (JObject (MakeJsonObject
    |> SetStringField "name" (GraphName Graph)
    |> SetStringField "graph_name" (GraphName Graph)
    |> SetNumberField "node_count" (Z.of_nat (length (Nodes Graph)))
    |> SetBoolField "is_event" false
    |> SetStringField "type" "Macro")).

(** [FunctionsArray] after the three loops. *)
Definition CollectFunctions (h : Host) (w : World) (Blueprint : UBlueprint)
  : list FJsonValue :=
  omap (FunctionGraphJson h w Blueprint) (FunctionGraphs Blueprint)
  ++ (UbergraphPages Blueprint ≫= UbergraphPageJson w)
  ++ omap (MacroGraphJson w) (MacroGraphs Blueprint).

(** Everything after the blueprint is resolved. *)
Definition FunctionsResolved (h : Host) (Blueprint : UBlueprint) (w : World)
  : FJsonObject :=
  let FunctionsArray := CollectFunctions h w Blueprint in
  MakeJsonObject
  |> SetBoolField "success" true
  |> SetStringField "blueprint_path" (BlueprintPathName Blueprint)
  |> SetStringField "blueprint_name" (BlueprintName Blueprint)
  |> SetNumberField "function_count" (Z.of_nat (length FunctionsArray))
  |> SetArrayField "functions" FunctionsArray
  |> SetWhen (ParentClass Blueprint) (fun c => SetStringField "parent_class" (ClassName c)).

(** *** The dispatcher's remaining handlers and [HandleCommand] *)

Module FUnrealMCPBlueprintMigrationCommands.

Definition HandleExportBlueprintGraph (e : Editor) (Params : FJsonParams) (w : World)
  : FJsonObject * World :=
  let? BlueprintPath := TryGetStringField Params "blueprint_path"
    else (CommonUtils_CreateErrorResponse "Missing 'blueprint_path' parameter", w) in
  let? (BlueprintPtr, Blueprint) := ResolveBlueprint (Services e) w BlueprintPath
    else (CommonUtils_CreateErrorResponse ("Blueprint not found: " +:+ BlueprintPath), w) in
  let '(FilePath, TotalNodeCount, GraphCount, w) :=
    ExportToFile Monolithic.SerializeGraph e Params BlueprintPtr Blueprint w in
  if IsEmpty FilePath
  then (CommonUtils_CreateErrorResponse "Failed to write export file", w)
  else
    (MakeJsonObject
     |> SetBoolField "success" true
     |> SetStringField "file_path" FilePath
     |> SetNumberField "graph_count" GraphCount
     |> SetNumberField "node_count" TotalNodeCount, w).

Definition HandleFindBlueprintReferences (e : Editor) (Params : FJsonParams) (w : World)
  : FJsonObject * World :=
  let? TargetPath := TryGetStringField Params "target_path"
    else (CommonUtils_CreateErrorResponse "Missing 'target_path' parameter", w) in
  (FindReferences e Params TargetPath (ResolveBlueprint (Services e) w TargetPath)
     MakeJsonObject w, w).

Definition HandleGetBlueprintFunctions (e : Editor) (Params : FJsonParams) (w : World)
  : FJsonObject * World :=
  let? BlueprintPath := TryGetStringField Params "blueprint_path"
    else (CommonUtils_CreateErrorResponse "Missing 'blueprint_path' parameter", w) in
  let bIncludeInherited := default false (TryGetBoolField Params "include_inherited") in
  let? (_, Blueprint) := ResolveBlueprint (Services e) w BlueprintPath
    else (CommonUtils_CreateErrorResponse ("Blueprint not found: " +:+ BlueprintPath), w) in
  (FunctionsResolved (Services e) Blueprint w, w).

Definition HandleCommand (e : Editor) (CommandType : string) (Params : FJsonParams)
  (w : World) : FJsonObject * World :=
  if FString_eqb CommandType "export_blueprint_graph"
  then HandleExportBlueprintGraph e Params w
  else if FString_eqb CommandType "get_blueprint_dependencies"
  then Monolithic.HandleGetBlueprintDependencies (Services e) Params w
  else if FString_eqb CommandType "find_blueprint_references"
  then HandleFindBlueprintReferences e Params w
  else if FString_eqb CommandType "redirect_function_call"
  then Monolithic.HandleRedirectFunctionCall (Services e) Params w
  else if FString_eqb CommandType "delete_blueprint_function"
  then Monolithic.HandleDeleteBlueprintFunction (Services e) Params w
  else if FString_eqb CommandType "set_blueprint_parent_class"
  then Monolithic.HandleSetBlueprintParentClass (Services e) Params w
  else if FString_eqb CommandType "get_blueprint_functions"
  then HandleGetBlueprintFunctions e Params w
  else (CommonUtils_CreateErrorResponse ("Unknown migration command: " +:+ CommandType), w).

End FUnrealMCPBlueprintMigrationCommands.

(** *** The remaining per-operation commands *)

Module FExportBlueprintGraphCommand.

(** The command's [SerializePin], [SerializeNode] and [SerializeGraph] repeat
    the dispatcher's statement for statement. *)
Definition SerializeGraph := Monolithic.SerializeGraph.

Definition CreateSuccessResponse (FilePath : string) (GraphCount NodeCount : Z)
  : FJsonObject :=
  MakeJsonObject
  |> SetBoolField "success" true
  |> SetStringField "file_path" FilePath
  |> SetNumberField "graph_count" GraphCount
  |> SetNumberField "node_count" NodeCount.

Definition Execute (e : Editor) (Parameters : option FJsonParams) (w : World)
  : FJsonObject * World :=
  let? JsonObject := Parameters
    else (CreateErrorResponse "Invalid JSON parameters", w) in
  let? BlueprintPath := TryGetStringField JsonObject "blueprint_path"
    else (CreateErrorResponse "Missing 'blueprint_path' parameter", w) in
  let? (BlueprintPtr, Blueprint) := DiscoverBlueprint (Services e) w BlueprintPath
    else (CreateErrorResponse ("Blueprint not found: " +:+ BlueprintPath), w) in
  let '(FilePath, TotalNodeCount, GraphCount, w) :=
    ExportToFile SerializeGraph e JsonObject BlueprintPtr Blueprint w in
  if IsEmpty FilePath
  then (CreateErrorResponse "Failed to write export file", w)
  else (CreateSuccessResponse FilePath GraphCount TotalNodeCount, w).

End FExportBlueprintGraphCommand.

Module FFindBlueprintReferencesCommand.

Definition Execute (e : Editor) (Parameters : option FJsonParams) (w : World)
  : FJsonObject * World :=
  let? JsonObject := Parameters
    else (CreateErrorResponse "Invalid JSON parameters", w) in
  let? TargetPath := TryGetStringField JsonObject "target_path"
    else (CreateErrorResponse "Missing 'target_path' parameter", w) in
  (FindReferences e JsonObject TargetPath (DiscoverBlueprint (Services e) w TargetPath)
     (MakeJsonObject |> SetBoolField "success" true) w, w).

End FFindBlueprintReferencesCommand.

Module FGetBlueprintFunctionsCommand.

Definition Execute (e : Editor) (Parameters : option FJsonParams) (w : World)
  : FJsonObject * World :=
  let? JsonObject := Parameters
    else (CreateErrorResponse "Invalid JSON parameters", w) in
  let? BlueprintPath := TryGetStringField JsonObject "blueprint_path"
    else (CreateErrorResponse "Missing 'blueprint_path' parameter", w) in
  let bIncludeInherited := default false (TryGetBoolField JsonObject "include_inherited") in
  let? (_, Blueprint) := DiscoverBlueprint (Services e) w BlueprintPath
    else (CreateErrorResponse ("Blueprint not found: " +:+ BlueprintPath), w) in
  (FunctionsResolved (Services e) Blueprint w, w).

End FGetBlueprintFunctionsCommand.

(** *** [ValidateParams]

    Each command accepts a request when it parses and every required string
    is there and not empty. *)

Module ValidateParams.

(** [JsonObject->TryGetStringField(Field, Value) && !Value.IsEmpty()]. *)
Definition Given (JsonObject : FJsonParams) (Field : string) : bool :=
  match TryGetStringField JsonObject Field with
  | Some Value => negb (IsEmpty Value)
  | None => false
  end.

Definition FExportBlueprintGraphCommand (Parameters : option FJsonParams) : bool :=
  let? JsonObject := Parameters else false in
  Given JsonObject "blueprint_path".

Definition FGetBlueprintDependenciesCommand (Parameters : option FJsonParams) : bool :=
  let? JsonObject := Parameters else false in
  Given JsonObject "blueprint_path".

Definition FFindBlueprintReferencesCommand (Parameters : option FJsonParams) : bool :=
  let? JsonObject := Parameters else false in
  Given JsonObject "target_path".

Definition FRedirectFunctionCallCommand (Parameters : option FJsonParams) : bool :=
  let? JsonObject := Parameters else false in
  Given JsonObject "source_blueprint" && Given JsonObject "source_function"
  && Given JsonObject "target_class" && Given JsonObject "target_function".

Definition FDeleteBlueprintFunctionCommand (Parameters : option FJsonParams) : bool :=
  let? JsonObject := Parameters else false in
  Given JsonObject "blueprint_path" && Given JsonObject "function_name".

Definition FSetBlueprintParentClassCommand (Parameters : option FJsonParams) : bool :=
  let? JsonObject := Parameters else false in
  Given JsonObject "blueprint_path" && Given JsonObject "new_parent_class".

Definition FGetBlueprintFunctionsCommand (Parameters : option FJsonParams) : bool :=
  let? JsonObject := Parameters else false in
  Given JsonObject "blueprint_path".

End ValidateParams.

(** *** Registration of the commands

    [FUnrealMCPCommandRegistry] is the plugin's registry, outside the migration
    sources: its two operations are taken as given, over any registry state
    [R]. *)

Inductive IUnrealMCPCommand :=
| ExportBlueprintGraphCommand
| GetBlueprintDependenciesCommand
| FindBlueprintReferencesCommand
| RedirectFunctionCallCommand
| DeleteBlueprintFunctionCommand
| SetBlueprintParentClassCommand
| GetBlueprintFunctionsCommand.

Definition GetCommandName (Command : IUnrealMCPCommand) : string :=
  match Command with
  | ExportBlueprintGraphCommand => "export_blueprint_graph"
  | GetBlueprintDependenciesCommand => "get_blueprint_dependencies"
  | FindBlueprintReferencesCommand => "find_blueprint_references"
  | RedirectFunctionCallCommand => "redirect_function_call"
  | DeleteBlueprintFunctionCommand => "delete_blueprint_function"
  | SetBlueprintParentClassCommand => "set_blueprint_parent_class"
  | GetBlueprintFunctionsCommand => "get_blueprint_functions"
  end.

Record FUnrealMCPCommandRegistry (R : Type) := {
  RegisterCommand : R -> IUnrealMCPCommand -> bool * R;
  UnregisterCommand : R -> string -> bool * R
}.
Arguments RegisterCommand {R}.
Arguments UnregisterCommand {R}.

Module FMigrationCommandRegistration.

Section Registry.
Context {R : Type} (Registry : FUnrealMCPCommandRegistry R).

(** The state: the static [RegisteredCommandNames] and the registry. *)
Definition State : Type := list string * R.

Definition RegisterAndTrackCommand (Command : IUnrealMCPCommand) (s : State) : State :=
  let '(RegisteredCommandNames, r) := s in
  let CommandName := GetCommandName Command in
  if IsEmpty CommandName then s
  else
    let '(Registered, r) := RegisterCommand Registry r Command in
    if Registered then (RegisteredCommandNames ++ [CommandName], r)
    else (RegisteredCommandNames, r).

Definition RegisterAllMigrationCommands (s : State) : State :=
  let '(_, r) := s in
  ([], r)
  |> RegisterAndTrackCommand ExportBlueprintGraphCommand
  |> RegisterAndTrackCommand GetBlueprintDependenciesCommand
  |> RegisterAndTrackCommand FindBlueprintReferencesCommand
  |> RegisterAndTrackCommand RedirectFunctionCallCommand
  |> RegisterAndTrackCommand DeleteBlueprintFunctionCommand
  |> RegisterAndTrackCommand SetBlueprintParentClassCommand
  |> RegisterAndTrackCommand GetBlueprintFunctionsCommand.

(** The body of the loop of [UnregisterAllMigrationCommands]. *)
Definition UnregisterOne (acc : Z * R) (CommandName : string) : Z * R :=
  let '(UnregisteredCount, r) := acc in
  let '(Unregistered, r) := UnregisterCommand Registry r CommandName in
  (if Unregistered then UnregisteredCount + 1 else UnregisteredCount, r).

(** The new state, with the count written to the log. *)
Definition UnregisterAllMigrationCommands (s : State) : State * Z :=
  let '(RegisteredCommandNames, r) := s in
  let '(UnregisteredCount, r) := fold_left UnregisterOne RegisteredCommandNames (0, r) in
  (([], r), UnregisteredCount).

End Registry.

End FMigrationCommandRegistration.

(** ** A second sample: a referencer of [BP_Hero], and the editor around both *)

Module Project.

Definition UseHeroEntry : UEdGraphNode :=
  {| NodeGuid := "G8"; NodeClassName := "K2Node_FunctionEntry"; NodeTitle := "Use Hero";
     NodePosX := 0; NodePosY := 0; NodeComment := ""; bCommentBubbleVisible := false;
     Pins := [Some (Sample.ThenPin "G7")]; NodeKind := K2Node_FunctionEntry |}.
Definition CallOldFromUser : UEdGraphNode :=
  {| NodeGuid := "G7"; NodeClassName := "K2Node_CallFunction"; NodeTitle := "Old Func";
     NodePosX := 320; NodePosY := 48; NodeComment := ""; bCommentBubbleVisible := false;
     Pins := [Some (Sample.ExecPin "G8"); None];
     NodeKind := K2Node_CallFunction (Some Sample.OldFunc) false |}.
Definition NewFuncEntry : UEdGraphNode :=
  {| NodeGuid := "G16"; NodeClassName := "K2Node_FunctionEntry"; NodeTitle := "New Func";
     NodePosX := 0; NodePosY := 0; NodeComment := ""; bCommentBubbleVisible := false;
     Pins := [Some (Sample.ThenPin "G17")]; NodeKind := K2Node_FunctionEntry |}.
(** An instance of the macro graph [Helper], at 13. *)
Definition HelperInstance : UEdGraphNode :=
  {| NodeGuid := "G17"; NodeClassName := "K2Node_MacroInstance"; NodeTitle := "Helper";
     NodePosX := 200; NodePosY := 0; NodeComment := ""; bCommentBubbleVisible := false;
     Pins := [Some (Sample.ExecPin "G16")];
     NodeKind := K2Node_MacroInstance
                   (Some {| MacroGraphPtr := 13%positive; MacroGraphName := "Helper" |}) |}.

Definition UseHero : UEdGraph :=
  {| GraphName := "UseHero"; GraphClassName := "EdGraph"; Nodes := [8; 7]%positive |}.
Definition NewFuncOverride : UEdGraph :=
  {| GraphName := "NewFunc"; GraphClassName := "EdGraph"; Nodes := [16; 17]%positive |}.
Definition Helper : UEdGraph :=
  {| GraphName := "Helper"; GraphClassName := "EdGraph"; Nodes := [] |}.

(** The macro graph at 14 is a stale pointer. *)
Definition BP_User : UBlueprint :=
  {| BlueprintName := "BP_User"; BlueprintPathName := "/Game/BP_User.BP_User";
     PackageName := "/Game/BP_User"; ParentClass := Some Sample.NewClass;
     FunctionGraphs := [12; 15]%positive; MacroGraphs := [13; 14]%positive;
     UbergraphPages := []; Status := BS_UpToDate |}.

Definition world : World :=
  {| Blueprints := <[ 101%positive := BP_User ]> (Blueprints Sample.world);
     GraphStore :=
       <[ 12%positive := UseHero ]>
         (<[ 15%positive := NewFuncOverride ]>
            (<[ 13%positive := Helper ]> (GraphStore Sample.world)));
     NodeStore :=
       <[ 7%positive := CallOldFromUser ]>
         (<[ 8%positive := UseHeroEntry ]>
            (<[ 16%positive := NewFuncEntry ]>
               (<[ 17%positive := HelperInstance ]> (NodeStore Sample.world))));
     ExportDirExists := false;
     Files := [] |}.

(** A native class found under the name with the actor prefix only. *)
Definition HeroBase : UClass :=
  {| ClassName := "HeroBase"; ClassPathName := "/Script/MyGame.HeroBase" |}.

Definition host (CanWrite : bool) : Host :=
  let h := Sample.host CanWrite in
  {| LoadBlueprint := fun p =>
       if String.eqb p "/Game/BP_User" then Some 101%positive else LoadBlueprint h p;
     FindBlueprint := fun p =>
       if String.eqb p "BP_Hero" then Some 100%positive else None;
     FindBlueprints := fun p =>
       if String.eqb p "BP_Hero" then ["/Game/BP_Hero.BP_Hero"] else [];
     FindClass := fun c =>
       if String.eqb c "AHeroBase" then Some HeroBase else FindClass h c;
     LoadClass := LoadClass h;
     ResolveParentClassForBlueprint := ResolveParentClassForBlueprint h;
     FindFunctionByName := FindFunctionByName h;
     GetDependencies := GetDependencies h;
     GetAssetByObjectPath := GetAssetByObjectPath h;
     ProjectSavedDir := ProjectSavedDir h;
     CreateDirectoryTree := CreateDirectoryTree h;
     SaveStringToFile := SaveStringToFile h;
     ReconstructNode := ReconstructNode h;
     NowStamp := NowStamp h; NowText := NowText h |}.

Definition HeroMembers : FBlueprintMembers :=
  {| SimpleConstructionScript :=
       Some [Some {| SCSVariableName := "Mesh"; ComponentTemplate := Some "StaticMeshComponent";
                     ParentComponentOrVariableName := None |};
             None;
             Some {| SCSVariableName := "Orphan"; ComponentTemplate := None;
                     ParentComponentOrVariableName := None |};
             Some {| SCSVariableName := "Light"; ComponentTemplate := Some "PointLightComponent";
                     ParentComponentOrVariableName := Some "Mesh" |}];
     NewVariables :=
       [{| VarName := "Health"; VarType := {| PinCategory := "real"; PinSubCategoryObject := None;
             IsArray := false; bIsReference := false; bIsConst := false |};
           PropertyFlags := 5 |};
        {| VarName := "Target"; VarType := {| PinCategory := "object";
             PinSubCategoryObject := Some "Actor";
             IsArray := false; bIsReference := false; bIsConst := false |};
           PropertyFlags := 4 |}] |}.

Definition Noon : FDateTime :=
  {| GetYear := 2024; GetMonth := 1; GetDay := 1;
     GetHour := 12; GetMinute := 0; GetSecond := 0 |}.

Definition editor (CanWrite : bool) : Editor :=
  {| Services := host CanWrite;
     Members := fun a =>
       if Pos.eqb a 100 then HeroMembers
       else {| SimpleConstructionScript := None; NewVariables := [] |};
     Now := Noon;
     GetReferencers := fun id =>
       if String.eqb id "/Game/BP_Hero"
       then ["/Game/BP_User"; "/Script/MyGame"; "/Game/Maps/Arena";
             "/Engine/Tutorial/Hints"; "/Game/BP_User"]
       else [] |}.

(** An editor whose saved directory takes new directories but no files. *)
Definition read_only_editor : Editor :=
  let h := host false in
  {| Services :=
       {| LoadBlueprint := LoadBlueprint h; FindBlueprint := FindBlueprint h;
          FindBlueprints := FindBlueprints h; FindClass := FindClass h;
          LoadClass := LoadClass h;
          ResolveParentClassForBlueprint := ResolveParentClassForBlueprint h;
          FindFunctionByName := FindFunctionByName h;
          GetDependencies := GetDependencies h;
          GetAssetByObjectPath := GetAssetByObjectPath h;
          ProjectSavedDir := ProjectSavedDir h;
          CreateDirectoryTree := fun _ => true;
          SaveStringToFile := fun _ => false;
          ReconstructNode := ReconstructNode h;
          NowStamp := NowStamp h; NowText := NowText h |};
     Members := Members (editor false);
     Now := Now (editor false);
     GetReferencers := GetReferencers (editor false) |}.

Definition export_request (graph_name : string) : FJsonParams :=
  Sample.request [("blueprint_path", "/Game/BP_Hero.BP_Hero"); ("graph_name", graph_name)] [].

Definition references_request (target_function : string) : FJsonParams :=
  Sample.request [("target_path", "BP_Hero"); ("target_function", target_function)] [].

Definition functions_request (path : string) : FJsonParams :=
  Sample.request [("blueprint_path", path)] [].

Definition reparent_request (name : string) : FJsonParams :=
  Sample.request [("blueprint_path", "/Game/BP_User"); ("new_parent_class", name)] [].

Definition delete_request (name : string) : FJsonParams :=
  Sample.request [("blueprint_path", "/Game/BP_User"); ("function_name", name)] [].

End Project.

(** ** Readings used to state the further properties *)

(** The command names of the migration operations, in the order in which
    they are registered. *)
Definition MigrationCommandNames : list string :=
  ["export_blueprint_graph"; "get_blueprint_dependencies"; "find_blueprint_references";
   "redirect_function_call"; "delete_blueprint_function"; "set_blueprint_parent_class";
   "get_blueprint_functions"].

(** Whether [CommandType] equals one of them as [FString]s compare. *)
Definition KnownCommand (CommandType : string) : bool :=
  existsb (FString_eqb CommandType) MigrationCommandNames.

(** The number a string of decimal digits denotes. *)
Definition ReadNumeral (s : string) : Z :=
  fold_left (fun n c => 10 * n + (Z.of_N (N_of_ascii c) - 48)) (list_ascii_of_string s) 0.

(** The date fields that fill the columns of an export file name: a year of
    at most four digits, the other fields of at most two. *)
Definition FitsExportFileName (t : FDateTime) : Prop :=
  0 <= GetYear t <= 9999 ∧ 0 <= GetMonth t <= 99 ∧ 0 <= GetDay t <= 99
  ∧ 0 <= GetHour t <= 99 ∧ 0 <= GetMinute t <= 99 ∧ 0 <= GetSecond t <= 99.

(** The graphs behind a list of graph pointers, null entries skipped. *)
Definition GraphsAt (w : World) (Graphs : list addr) : list UEdGraph :=
  omap (fun g : addr => GraphStore w !! g) Graphs.

(** The graphs a blueprint holds, in the order of [GetAllGraphs]. *)
Definition LiveGraphs (w : World) (Blueprint : UBlueprint) : list UEdGraph :=
  GraphsAt w (GetAllGraphs Blueprint).

(** Whether the export takes a graph under the filter [GraphNameArg]. *)
Definition Exported (GraphNameArg : string) (Graph : UEdGraph) : bool :=
  IsEmpty GraphNameArg || Contains (GraphName Graph) GraphNameArg.

Definition DocNumber (k : string) (o : FJsonObject) : option Z :=
  match GetField k o with
  | Some (JNumber n) => Some n
  | _ => None
  end.

Definition SumZ (l : list Z) : Z := foldr Z.add 0 l.

(** The slots of the [Nodes] arrays of some graphs, null entries included. *)
Definition NodeSlots (Graphs : list UEdGraph) : Z :=
  SumZ (map (fun G => Z.of_nat (length (Nodes G))) Graphs).

(** The export directory of a host. *)
Definition ExportDirectory (h : Host) : string :=
  PathCombine (PathCombine (ProjectSavedDir h) "UnrealMCP") "Exports".

(** What a failed export leaves: no file, the blueprints, graphs and nodes as
    they were, and the export directory in existence exactly if it existed
    before or the host could create it. *)
Definition LeavesAtMostTheDirectory (h : Host) (w w' : World) : Prop :=
  Files w' = Files w
  ∧ SameObjects w' w
  ∧ ExportDirExists w' = ExportDirExists w || CreateDirectoryTree h (ExportDirectory h).

(** The path of the export file of a blueprint. *)
Definition ExportFilePath (e : Editor) (Blueprint : UBlueprint) : string :=
  PathCombine
    (PathCombine (PathCombine (ProjectSavedDir (Services e)) "UnrealMCP") "Exports")
    (GenerateExportFileName (Now e) (BlueprintName Blueprint)).

(** What a successful export leaves: one new file, at the path the response
    names, whose graphs the two counters of the response describe; the
    blueprints, graphs and nodes are as before. *)
Definition ExportOutcome (e : Editor) (Blueprint : UBlueprint) (w : World)
  (r : FJsonObject * World) : Prop :=
  ∃ doc,
    Files r.2 = (ExportFilePath e Blueprint, doc) :: Files w
    ∧ SameObjects r.2 w
    ∧ GetField "success" r.1 = Some (JBoolean true)
    ∧ DocString "file_path" r.1 = Some (ExportFilePath e Blueprint)
    ∧ DocNumber "graph_count" r.1 = Some (Z.of_nat (length (DocObjects "graphs" doc)))
    ∧ DocNumber "node_count" r.1
      = Some (SumZ (omap (DocNumber "node_count") (DocObjects "graphs" doc))).

(** The graphs of the newest file are those of [Graphs], by name. *)
Definition NewestFileHoldsGraphs (Graphs : list UEdGraph) (w : World) : Prop :=
  ∃ path doc rest,
    Files w = (path, doc) :: rest
    ∧ map (DocString "name") (DocObjects "graphs" doc)
      = map (fun G => Some (GraphName G)) Graphs.

(** Two requests agree on every string field outside [strings] and on every
    boolean field outside [bools]. *)
Definition AgreeOutside (strings bools : list string) (p p' : FJsonParams) : Prop :=
  (∀ k, k ∉ strings → TryGetStringField p' k = TryGetStringField p k)
  ∧ (∀ k, k ∉ bools → TryGetBoolField p' k = TryGetBoolField p k).

Definition DocBool (k : string) (o : FJsonObject) : option bool :=
  match GetField k o with
  | Some (JBoolean b) => Some b
  | _ => None
  end.

(** The member names of the event nodes of a graph, in [Nodes] order. *)
Definition EventNames (w : World) (Graph : UEdGraph) : list string :=
  omap (fun n : addr =>
          Node ← NodeStore w !! n;
          match NodeKind Node with
          | K2Node_Event EventMemberName _ => Some EventMemberName
          | _ => None
          end) (Nodes Graph).

(** The [type], [name] and [graph_name] of every entry of [functions]. *)
Definition ListedFunctions (Response : FJsonObject)
  : list (option string * option string * option string) :=
  map (fun o => (DocString "type" o, DocString "name" o, DocString "graph_name" o))
      (DocObjects "functions" Response).

Definition Listed (type name graph_name : string)
  : option string * option string * option string :=
  (Some type, Some name, Some graph_name).

(** The listing of a blueprint: its function graphs, then for each event
    graph page its events followed by the page, then its macro graphs. *)
Definition FunctionListing (w : World) (Blueprint : UBlueprint)
  : list (option string * option string * option string) :=
  map (fun G => Listed "Function" (GraphName G) (GraphName G))
      (GraphsAt w (FunctionGraphs Blueprint))
  ++ (GraphsAt w (UbergraphPages Blueprint) ≫= fun G =>
        map (fun name => Listed "Event" name (GraphName G)) (EventNames w G)
        ++ [Listed "EventGraph" (GraphName G) (GraphName G)])
  ++ map (fun G => Listed "Macro" (GraphName G) (GraphName G))
         (GraphsAt w (MacroGraphs Blueprint)).

(** Whether a graph holds a function entry node. *)
Definition HasFunctionEntry (w : World) (Graph : UEdGraph) : bool :=
  existsb (fun n : addr =>
             match NodeKind <$> NodeStore w !! n with
             | Some K2Node_FunctionEntry => true
             | _ => false
             end) (Nodes Graph).

(** Whether the parent class of the blueprint has a function of that name. *)
Definition ParentHasFunction (h : Host) (Blueprint : UBlueprint) (Name : string) : bool :=
  match ParentClass Blueprint with
  | Some Parent =>
      match FindFunctionByName h Parent Name with
      | Some _ => true
      | None => false
      end
  | None => false
  end.

(** Whether a package path lies under the script or the engine root. *)
Definition UnderEngineRoots (Path : string) : bool :=
  StartsWith Path "/Script/" || StartsWith Path "/Engine/".

(** The identifier the reference search queries the registry with. *)
Definition TargetIdOf (TargetBlueprint : option (addr * UBlueprint)) (TargetPath : string)
  : string :=
  match TargetBlueprint with
  | Some (_, Blueprint) => PackageName Blueprint
  | None => TargetPath
  end.

(** What a references response must show for the referencers [Referencers] of
    the registry: those outside the script and engine roots, one entry each in
    the registry's order, counted by [referencer_count]. *)
Definition ListsReferencers (Referencers : list string) (Response : FJsonObject) : Prop :=
  map (DocString "referencer_path") (DocObjects "referencers" Response)
  = map Some (List.filter (fun r => negb (UnderEngineRoots r)) Referencers)
  ∧ DocNumber "referencer_count" Response
    = Some (Z.of_nat (length (List.filter (fun r => negb (UnderEngineRoots r)) Referencers)))
  ∧ GetField "error" Response = None.

(** The place a location or change entry names: graph, node and position. *)
Definition PlaceOf (Entry : FJsonValue)
  : option string * option string * option Z * option Z :=
  (DocString "graph" (AsObject Entry), DocString "node_guid" (AsObject Entry),
   DocNumber "pos_x" (AsObject Entry), DocNumber "pos_y" (AsObject Entry)).

(** Whether a response reports a request that did not parse or that lacks a
    required field. *)
Definition ParameterError (Response : FJsonObject) : bool :=
  match DocString "error" Response with
  | Some Message =>
      String.eqb Message "Invalid JSON parameters" || String.prefix "Missing '" Message
  | None => false
  end.

(** A response that reports success and carries no error. *)
Definition Succeeds (Response : FJsonObject) : Prop :=
  GetField "success" Response = Some (JBoolean true) ∧ GetField "error" Response = None.

(** The outcomes of each command: the failure made by [CreateErrorResponse],
    the world as it was, or a response that reports success. *)
Definition FailsCleanlyOrSucceeds (r : FJsonObject * World) (w : World) : Prop :=
  (∃ msg, r = (CreateErrorResponse msg, w)) ∨ Succeeds r.1.

(** [Map.Find(Key)] on a [TMap<FString, int32>]. *)
Fixpoint TMap_Find (K : string) (m : list (string * Z)) : option Z :=
  match m with
  | [] => None
  | (k, c) :: m' => if FString_eqb k K then Some c else TMap_Find K m'
  end.

(** The (function, call_count) pairs of a response's [function_calls]. *)
Definition FunctionCallCounts (Response : FJsonObject) : list (string * Z) :=
  omap (fun v =>
          k ← DocString "function" (AsObject v);
          c ← DocNumber "call_count" (AsObject v);
          Some (k, c))
       (GetArrayField "function_calls" Response).

(** The calls of a blueprint that are counted under the key [K]. *)
Definition CountedCalls (bIncludeEngineClasses : bool) (w : World) (Blueprint : UBlueprint)
  (K : string) : Z :=
  Z.of_nat (length (List.filter (CountedAs bIncludeEngineClasses K)
                      (CalledFunctions w Blueprint))).

(** What [function_calls] must show: keys that differ pairwise, each with
    the number of calls counted under it, which is positive. *)
Definition CountsCalls (bIncludeEngineClasses : bool) (w : World) (Blueprint : UBlueprint)
  (Response : FJsonObject) : Prop :=
  DistinctKeys (map fst (FunctionCallCounts Response))
  ∧ ∀ K c, (K, c) ∈ FunctionCallCounts Response →
           c = CountedCalls bIncludeEngineClasses w Blueprint K ∧ 0 < c.

(** What the three dependency arrays must show when engine classes are left
    out: no native class, and no path under the script or engine roots. *)
Definition LeavesEngineOut (Response : FJsonObject) : Prop :=
  GetStringArray "native_classes" Response = []
  ∧ ∀ x, x ∈ GetStringArray "assets" Response ++ GetStringArray "blueprints" Response →
         UnderEngineRoots x = false.

(** The step of the count on the target function of a call node. *)
Definition CountFunction (b : bool) (m : list (string * Z)) (f : UFunction)
  : list (string * Z) :=
  if CountsFunctionCall b f then TMap_Increment (FunctionKeyOf f) m else m.

(** What an applied redirect of the calls of [SourceFunction] to [NewFunction]
    leaves of the world [w]: the call nodes found now call [NewFunction], every
    other node and every graph is as before, and the blueprint is marked
    modified. *)
Definition Redirected (BlueprintPtr : addr) (Blueprint : UBlueprint) (SourceFunction : string)
  (NewFunction : UFunction) (w w' : World) : Prop :=
  (∀ n, n ∈ NodesCalling w Blueprint SourceFunction →
        NodeStore w' !! n ≫= GetTargetFunction = Some NewFunction)
  ∧ (∀ n, n ∉ NodesCalling w Blueprint SourceFunction → NodeStore w' !! n = NodeStore w !! n)
  ∧ GraphStore w' = GraphStore w
  ∧ (Status <$> Blueprints w' !! BlueprintPtr) = Some BS_Dirty
  ∧ (GetAllGraphs <$> Blueprints w' !! BlueprintPtr) = Some (GetAllGraphs Blueprint)
  ∧ (∀ a, a ≠ BlueprintPtr → Blueprints w' !! a = Blueprints w !! a).

(** A backup path in a response names the file the command wrote: the newest
    file, holding the path of the blueprint that the response names under
    [subject]. *)
Definition ReportsItsBackup (subject : string) (r : FJsonObject * World) (w : World) : Prop :=
  ∀ P, DocString "backup_path" r.1 = Some P → IsEmpty P = false →
       ∃ doc, Files r.2 = (P, doc) :: Files w
              ∧ DocString "blueprint_path" doc = DocString subject r.1.

(** The blueprint after a reparent to [NewParentClass]. *)
Definition WithParent (NewParentClass : UClass) (bp : UBlueprint) : UBlueprint :=
  {| BlueprintName := BlueprintName bp; BlueprintPathName := BlueprintPathName bp;
     PackageName := PackageName bp; ParentClass := Some NewParentClass;
     FunctionGraphs := FunctionGraphs bp; MacroGraphs := MacroGraphs bp;
     UbergraphPages := UbergraphPages bp; Status := BS_Dirty |}.

(** The class a parent class name resolves to: in the dispatcher by the
    name, by loading, then under the prefixes [A] and [U]; in the command by
    the asset discovery service before these. *)
Definition DispatcherParentClass (h : Host) (Name : string) : option UClass :=
  or_else (FindClass h Name)
    (or_else (LoadClass h Name)
       (or_else (FindClass h ("A" +:+ Name)) (FindClass h ("U" +:+ Name)))).

Definition CommandParentClass (h : Host) (Name : string) : option UClass :=
  or_else (ResolveParentClassForBlueprint h Name) (DispatcherParentClass h Name).

(** The nodes the graphs of a blueprint hold, graph by graph. *)
Definition NodesOf (w : World) (Blueprint : UBlueprint) : list addr :=
  Graph ← omap (fun g : addr => GraphStore w !! g) (GetAllGraphs Blueprint);
  Nodes Graph.

(** How often a list of nodes holds a node. *)
Definition Occurrences (Node : addr) (l : list addr) : nat :=
  length (List.filter (Pos.eqb Node) l).

(** The blueprint with its new parent class, as the refresh of the nodes
    finds it: not yet marked modified. *)
Definition ParentSet (NewParentClass : UClass) (bp : UBlueprint) : UBlueprint :=
  {| BlueprintName := BlueprintName bp; BlueprintPathName := BlueprintPathName bp;
     PackageName := PackageName bp; ParentClass := Some NewParentClass;
     FunctionGraphs := FunctionGraphs bp; MacroGraphs := MacroGraphs bp;
     UbergraphPages := UbergraphPages bp; Status := Status bp |}.

(** What a reparent of [Blueprint] to [NewParentClass] leaves of the world
    and reports: the blueprint has the new parent and is marked modified;
    every other blueprint and every graph is as before; the nodes that the
    graphs of the blueprint hold have been reconstructed by the engine in the
    reparented blueprint, once for each time a graph holds them, and every
    other node is as before; the response names the parent the blueprint had,
    or "None". *)
Definition Reparented (h : Host) (BlueprintPtr : addr) (Blueprint : UBlueprint)
  (NewParentClass : UClass) (w : World) (r : FJsonObject * World) : Prop :=
  Blueprints r.2 !! BlueprintPtr = Some (WithParent NewParentClass Blueprint)
  ∧ (∀ a, a ≠ BlueprintPtr → Blueprints r.2 !! a = Blueprints w !! a)
  ∧ GraphStore r.2 = GraphStore w
  ∧ (∀ n, n ∉ NodesOf w Blueprint → NodeStore r.2 !! n = NodeStore w !! n)
  ∧ (∀ n, NodeStore r.2 !! n
          = Nat.iter (Occurrences n (NodesOf w Blueprint))
              (ReconstructNode h (ParentSet NewParentClass Blueprint))
            <$> NodeStore w !! n)
  ∧ DocString "old_parent_class" r.1
    = Some (match ParentClass Blueprint with Some c => ClassName c | None => "None" end)
  ∧ DocString "new_parent_class" r.1 = Some (ClassName NewParentClass).

(** The blueprint, marked modified. *)
Definition MarkedModified (bp : UBlueprint) : UBlueprint :=
  {| BlueprintName := BlueprintName bp; BlueprintPathName := BlueprintPathName bp;
     PackageName := PackageName bp; ParentClass := ParentClass bp;
     FunctionGraphs := FunctionGraphs bp; MacroGraphs := MacroGraphs bp;
     UbergraphPages := UbergraphPages bp; Status := BS_Dirty |}.

(** What reparenting to [Between] and back leaves of the world [w]: the record
    of the blueprint - names, parent class and graph lists - is as it was,
    except that it is marked modified; every other blueprint, every graph and
    every node outside the graphs of the blueprint is as it was.  The nodes
    in its graphs are not put back: they have been reconstructed in the
    blueprint with the parent [Between] and then in the blueprint as it is in
    the end. *)
Definition ParentRestored (h : Host) (BlueprintPtr : addr) (Blueprint : UBlueprint)
  (Between : UClass) (w w' : World) : Prop :=
  Blueprints w' !! BlueprintPtr = Some (MarkedModified Blueprint)
  ∧ (∀ a, a ≠ BlueprintPtr → Blueprints w' !! a = Blueprints w !! a)
  ∧ GraphStore w' = GraphStore w
  ∧ (∀ n, n ∉ NodesOf w Blueprint → NodeStore w' !! n = NodeStore w !! n)
  ∧ (∀ n, NodeStore w' !! n
          = (Nat.iter (Occurrences n (NodesOf w Blueprint))
               (ReconstructNode h (MarkedModified Blueprint))
             ∘ Nat.iter (Occurrences n (NodesOf w Blueprint))
                 (ReconstructNode h (ParentSet Between Blueprint)))
            <$> NodeStore w !! n).

(** The blueprint after the removal of the graph at [g]. *)
Definition WithoutGraph (g : addr) (bp : UBlueprint) : UBlueprint :=
  {| BlueprintName := BlueprintName bp; BlueprintPathName := BlueprintPathName bp;
     PackageName := PackageName bp; ParentClass := ParentClass bp;
     FunctionGraphs := filter (fun g' : addr => g' ≠ g) (FunctionGraphs bp);
     MacroGraphs := filter (fun g' : addr => g' ≠ g) (MacroGraphs bp);
     UbergraphPages := filter (fun g' : addr => g' ≠ g) (UbergraphPages bp);
     Status := BS_Dirty |}.

(** The graph at [GraphPtr], if there is one, holds no instance of the macro
    graph at [g]. *)
Definition HoldsNoInstance (g : addr) (w : World) (GraphPtr : addr) : Prop :=
  ∀ G, GraphStore w !! GraphPtr = Some G →
       ∀ n, n ∈ Nodes G → IsMacroInstanceOf w g n = false.

(** [g] is the first pointer of [Graphs] to lead to a graph named [Name],
    and [Graph] is that graph. *)
Definition FirstNamed (w : World) (Graphs : list addr) (Name : string)
  (g : addr) (Graph : UEdGraph) : Prop :=
  ∃ Before After,
    Graphs = Before ++ g :: After
    ∧ GraphStore w !! g = Some Graph
    ∧ FString_eqb (GraphName Graph) Name = true
    ∧ ∀ g' G', g' ∈ Before → GraphStore w !! g' = Some G' →
               FString_eqb (GraphName G') Name = false.

(** What the delete of the graph [Graph] at [g] leaves of the world and
    reports.  The graph is gone from the store and from every graph list of
    the blueprint, which is marked modified; other blueprints are as before.
    Every other graph is still there under its name, and the graphs that are
    not the blueprint's are as before.  When the graph was not one of the
    macro graphs of the blueprint, every other graph and every node is as
    before; when it was, no graph that the blueprint keeps holds an instance
    of it any more.  [nodes_removed] is the size of the graph's [Nodes]
    array. *)
Definition Deleted (BlueprintPtr : addr) (Blueprint : UBlueprint) (g : addr) (Graph : UEdGraph)
  (w : World) (r : FJsonObject * World) : Prop :=
  Blueprints r.2 !! BlueprintPtr = Some (WithoutGraph g Blueprint)
  ∧ (∀ a, a ≠ BlueprintPtr → Blueprints r.2 !! a = Blueprints w !! a)
  ∧ GraphStore r.2 !! g = None
  ∧ (∀ g', g' ≠ g →
       (GraphName <$> GraphStore r.2 !! g') = (GraphName <$> GraphStore w !! g'))
  ∧ (∀ g', g' ≠ g → g' ∉ GetAllGraphs Blueprint →
       GraphStore r.2 !! g' = GraphStore w !! g')
  ∧ (g ∉ MacroGraphs Blueprint →
       GraphStore r.2 = delete g (GraphStore w) ∧ NodeStore r.2 = NodeStore w)
  ∧ (g ∈ MacroGraphs Blueprint →
       ∀ g', g' ∈ GetAllGraphs (WithoutGraph g Blueprint) → HoldsNoInstance g r.2 g')
  ∧ DocNumber "nodes_removed" r.1 = Some (Z.of_nat (length (Nodes Graph))).

(** No other graph of the blueprint than the one at [g] is named [Name]. *)
Definition OnlyGraphNamed (w : World) (Blueprint : UBlueprint) (g : addr) (Name : string)
  : Prop :=
  ∀ g' G', g' ∈ GetAllGraphs Blueprint → g' ≠ g → GraphStore w !! g' = Some G' →
           FString_eqb (GraphName G') Name = false.

(** What a graph document shows of the [Nodes] array of its graph:
    [node_count] is the size of the array, null entries included, while
    [nodes] has one entry for each node the array holds; the two agree exactly
    when no entry of the array is null. *)
Definition CountsNodeSlots (w : World) (Graph : UEdGraph) (doc : FJsonObject) : Prop :=
  DocNumber "node_count" doc = Some (Z.of_nat (length (Nodes Graph)))
  ∧ length (DocObjects "nodes" doc) = length (LiveNodes w Graph)
  ∧ (length (DocObjects "nodes" doc) <= length (Nodes Graph))%nat
  ∧ (length (DocObjects "nodes" doc) = length (Nodes Graph)
     ↔ ∀ a, a ∈ Nodes Graph → is_Some (NodeStore w !! a)).

(** What an entry of [components] or of [variables] shows. *)
Definition ComponentShown (o : FJsonObject) : option string * option string * option string :=
  (DocString "name" o, DocString "class" o, DocString "parent" o).

Definition VariableShown (o : FJsonObject)
  : option string * option string * option string * option bool :=
  (DocString "name" o, DocString "type" o, DocString "subtype" o, DocBool "is_exposed" o).

(** The components of a construction script that have a template, with their
    class and their parent if they have one. *)
Definition TemplatedComponents (AllNodes : list (option USCS_Node))
  : list (option string * option string * option string) :=
  omap (fun Node : option USCS_Node =>
          Node ← Node;
          Class ← ComponentTemplate Node;
          Some (Some (SCSVariableName Node), Some Class, ParentComponentOrVariableName Node))
       AllNodes.

(** The members of a blueprint as an export document shows them: one entry
    of [variables] for each variable, exposed when bit 0 of its property
    flags is set; [components] only when components are asked for and the
    blueprint has a construction script, and then with the components that
    have a template. *)
Definition ShowsMembers (M : FBlueprintMembers) (bIncludeComponents : bool)
  (doc : FJsonObject) : Prop :=
  map VariableShown (DocObjects "variables" doc)
  = map (fun Var => (Some (VarName Var), Some (PinCategory (VarType Var)),
                     PinSubCategoryObject (VarType Var),
                     Some (N.testbit (PropertyFlags Var) 0)))
        (NewVariables M)
  ∧ match (if bIncludeComponents then SimpleConstructionScript M else None) with
    | Some AllNodes =>
        is_Some (GetField "components" doc)
        ∧ map ComponentShown (DocObjects "components" doc) = TemplatedComponents AllNodes
    | None => GetField "components" doc = None
    end.

(** The newest file of a world shows the members [M]. *)
Definition NewestFileShowsMembers (M : FBlueprintMembers) (bIncludeComponents : bool)
  (w : World) : Prop :=
  ∃ path doc rest, Files w = (path, doc) :: rest ∧ ShowsMembers M bIncludeComponents doc.

(** The path of the backup file of the delete of a function. *)
Definition DeleteBackupPath (h : Host) (Blueprint : UBlueprint) (FunctionName : string)
  : string :=
  PathCombine (PathCombine (PathCombine (ProjectSavedDir h) "UnrealMCP") "Exports")
    (DeleteBackupFileName h Blueprint FunctionName).

(** The newest file of [wDelete] is a backup whose [graph_data] is one of the
    graph documents of the newest file of [wExport]. *)
Definition BackupIsExportEntry (wExport wDelete : World) : Prop :=
  ∃ GraphData pathE docE restE pathD docD restD,
    Files wExport = (pathE, docE) :: restE
    ∧ Files wDelete = (pathD, docD) :: restD
    ∧ GetField "graph_data" docD = Some (JObject GraphData)
    ∧ GraphData ∈ DocObjects "graphs" docE.

(** ** Lemmas on strings and documents *)

Lemma append_not_empty_l a b : IsEmpty a = false → IsEmpty (a +:+ b) = false.
Proof. by destruct a. Qed.

Lemma append_not_empty_r a b : IsEmpty b = false → IsEmpty (a +:+ b) = false.
Proof. intros H. induction a as [|c a IH]; [done | reflexivity]. Qed.

Lemma PathCombine_not_empty_l a b : IsEmpty a = false → IsEmpty (PathCombine a b) = false.
Proof.
  intros H. unfold PathCombine. rewrite H. cbn [orb].
  destruct b as [|c b]; [destruct (EndsWithSeparator a) |
                         destruct (EndsWithSeparator a || Ascii.eqb c "/")];
    try done; by apply append_not_empty_l.
Qed.

Lemma PathCombine_not_empty_r a b : IsEmpty b = false → IsEmpty (PathCombine a b) = false.
Proof.
  intros H. unfold PathCombine. destruct b as [|c b]; [done|].
  destruct (IsEmpty a || EndsWithSeparator a || Ascii.eqb c "/");
    repeat apply append_not_empty_r; reflexivity.
Qed.

Lemma FString_eqb_refl a : FString_eqb a a = true.
Proof. unfold FString_eqb. apply String.eqb_refl. Qed.

Lemma FString_eqb_sym a b : FString_eqb a b = FString_eqb b a.
Proof. unfold FString_eqb. apply String.eqb_sym. Qed.

Lemma FString_eqb_trans a b c :
  FString_eqb a b = true → FString_eqb b c = true → FString_eqb a c = true.
Proof.
  unfold FString_eqb. rewrite !String.eqb_eq. congruence.
Qed.

Lemma FString_eqb_congr a b c :
  FString_eqb a b = true → FString_eqb a c = FString_eqb b c.
Proof.
  unfold FString_eqb. rewrite String.eqb_eq. intros ->. reflexivity.
Qed.

Lemma GetField_SetField_eq k v o : GetField k (SetField k v o) = Some v.
Proof.
  induction o as [|[k' v'] o IH]; simpl.
  - by rewrite String.eqb_refl.
  - destruct (String.eqb k' k) eqn:E; simpl; rewrite E; [done | apply IH].
Qed.

Lemma GetField_SetField_ne k k' v o :
  String.eqb k' k = false → GetField k (SetField k' v o) = GetField k o.
Proof.
  intros Hne. induction o as [|[k0 v0] o IH]; simpl.
  - by rewrite Hne.
  - destruct (String.eqb k0 k') eqn:E; simpl.
    + apply String.eqb_eq in E. subst k0. by rewrite Hne.
    + by rewrite IH.
Qed.

Lemma GetField_SetWhen_ne {A} k k' (x : option A) (f : A → FJsonValue) o :
  String.eqb k' k = false →
  GetField k (SetWhen x (fun a => SetField k' (f a)) o) = GetField k o.
Proof. intros Hne. destruct x; simpl; [by apply GetField_SetField_ne | done]. Qed.

Lemma omap_AsString_JString (l : list string) : omap AsString (map JString l) = l.
Proof. induction l as [|x l IH]; csimpl; [done | by f_equal]. Qed.

Ltac unfold_setters :=
  unfold SetStringField, SetNumberField, SetBoolField, SetArrayField,
    SetObjectField, MakeJsonObject in *.

Lemma list_omap_cons {A B} (f : A → option B) (x : A) (l : list A) :
  omap f (x :: l) = match f x with Some y => y :: omap f l | None => omap f l end.
Proof. reflexivity. Qed.

(** ** The serializer keeps the stored order *)

Lemma SerializePin_Some p b :
  ∃ PinJson, Monolithic.SerializePin (Some p) b = Some PinJson.
Proof. eexists. reflexivity. Qed.

Lemma SerializePins_acc pins I O :
  fold_left Monolithic.AddPin pins (I, O)
  = (I ++ PinDocs EGPD_Input pins, O ++ PinDocs EGPD_Output pins).
Proof.
  revert I O. unfold PinDocs.
  induction pins as [|[p|] pins IH]; intros I O; cbn [fold_left].
  - by rewrite !List.app_nil_r.
  - unfold Monolithic.AddPin at 2.
    destruct (SerializePin_Some p true) as [PinJson E]. rewrite E.
    rewrite list_omap_cons. cbn [id].
    destruct (Direction p) eqn:D; rewrite IH.
    + rewrite filter_cons_True by done. rewrite filter_cons_False by congruence.
      rewrite list_omap_cons, E. cbn [fmap option_fmap option_map].
      by rewrite <- app_assoc.
    + rewrite filter_cons_False by congruence. rewrite filter_cons_True by done.
      rewrite list_omap_cons, E. cbn [fmap option_fmap option_map].
      by rewrite <- app_assoc.
  - apply IH.
Qed.

Lemma DocConnections_omap (L : list (option FLinkedPin)) :
  omap (fun v =>
          guid ← DocString "node_guid" (AsObject v);
          name ← DocString "pin_name" (AsObject v);
          Some (guid, name))
       (omap Monolithic.SerializeConnection L)
  = omap (fun l : option FLinkedPin =>
          LinkedPin ← l;
          guid ← OwningNodeGuid LinkedPin;
          Some (guid, LinkedPinName LinkedPin)) L.
Proof.
  induction L as [|[[[g|] n]|] L IH]; csimpl; try done.
  by f_equal.
Qed.

Lemma SerializePin_follows p :
  ∃ o, Monolithic.SerializePin (Some p) true = Some o ∧ PinDocFollows o p.
Proof.
  eexists. split; [reflexivity|].
  unfold PinDocFollows, DocString, DocConnections, LinksOf, GetArrayField.
  destruct p as [name d [cat sub arr ref cst] dv dobj dt L]; cbn [PinName Direction PinType DefaultValue DefaultObject DefaultTextValue LinkedTo PinCategory PinSubCategoryObject IsArray bIsReference bIsConst].
  unfold_setters.
  destruct sub, dobj, (IsEmpty dv), (IsEmpty dt), L as [|l L];
    (split; [reflexivity|]); try reflexivity.
  all: cbn -[omap]; apply DocConnections_omap.
Qed.

Lemma GetField_SerializeNodeKind k kind o :
  existsb (String.eqb k) NodeKindFields = false →
  GetField k (Monolithic.SerializeNodeKind kind o) = GetField k o.
Proof.
  intros H. cbn in H. repeat (apply orb_false_elim in H as [? H]).
  repeat match goal with
         | E : String.eqb k _ = false |- _ => rewrite String.eqb_sym in E
         end.
  destruct kind as [[[? [?|] ?]|] ?|? [?|]|?|?|?| | | |[?|]|];
    simpl; unfold_setters; by rewrite ?GetField_SetField_ne.
Qed.

Lemma PinDocs_follow d pins :
  Forall2 PinDocFollows (map AsObject (PinDocs d pins))
    (filter (fun Pin => Direction Pin = d) (omap id pins)).
Proof.
  unfold PinDocs.
  induction (filter (fun Pin => Direction Pin = d) (omap id pins)) as [|p l IH].
  - constructor.
  - destruct (SerializePin_follows p) as (o & E & Ho).
    rewrite list_omap_cons, E. cbn [fmap option_fmap option_map map AsObject].
    by constructor.
Qed.

Lemma SerializeNode_follows n :
  ∃ o, Monolithic.SerializeNode (Some n) = Some o ∧ NodeDocFollows o n.
Proof.
  unfold Monolithic.SerializeNode, Monolithic.SerializePins.
  rewrite SerializePins_acc. cbn [app].
  eexists. split; [reflexivity|].
  unfold NodeDocFollows, DocString, DocObjects, GetArrayField, PinsOf.
  unfold_setters.
  rewrite !GetField_SetField_eq.
  rewrite (GetField_SetField_ne "input_pins" "output_pins") by reflexivity.
  rewrite !GetField_SetField_eq.
  rewrite !(GetField_SetField_ne "guid") by reflexivity.
  rewrite GetField_SerializeNodeKind by reflexivity.
  split; [reflexivity|]. split; apply PinDocs_follow.
Qed.

Lemma SerializeGraph_nodes_follow w nodes :
  Forall2 NodeDocFollows
    (map AsObject
       (omap (fun Node : addr =>
                NodeJson ← Monolithic.SerializeNode (NodeStore w !! Node);
                Some (JObject NodeJson)) nodes))
    (omap (fun Node : addr => NodeStore w !! Node) nodes).
Proof.
  induction nodes as [|a nodes IH]; [constructor|].
  rewrite !list_omap_cons.
  destruct (NodeStore w !! a) as [n|]; [|exact IH].
  destruct (SerializeNode_follows n) as (o & E & Ho).
  rewrite E. cbn [mbind option_bind map AsObject]. by constructor.
Qed.

Lemma SerializeGraph_unchanged w1 w2 G b :
  (∀ a, a ∈ Nodes G → NodeStore w1 !! a = NodeStore w2 !! a) →
  Monolithic.SerializeGraph w1 (Some G) b = Monolithic.SerializeGraph w2 (Some G) b.
Proof.
  intros H. unfold Monolithic.SerializeGraph. unfold_setters.
  f_equal. f_equal. f_equal. revert H. generalize (Nodes G). intros nodes.
  induction nodes as [|a nodes IH]; intros H; [done|].
  rewrite !list_omap_cons, (H a) by constructor.
  rewrite IH; [done|]. intros a' Ha'. apply H. by constructor.
Qed.

(** C1. Serializing a graph twice while the graph and its nodes stay as they
    are yields the same document, whatever the flag; and the document lists
    the nodes in the order of the graph's [Nodes] array, each node's input and
    output pins in the order of its [Pins] array, and each pin's connections
    in the order of its [LinkedTo] array. *)
Theorem SerializeGraph_deterministic_in_stored_order w1 w2 G b :
  (∀ a, a ∈ Nodes G → NodeStore w1 !! a = NodeStore w2 !! a) →
  ∃ doc,
    Monolithic.SerializeGraph w1 (Some G) b = Some doc
    ∧ Monolithic.SerializeGraph w2 (Some G) b = Some doc
    ∧ Forall2 NodeDocFollows (DocObjects "nodes" doc) (LiveNodes w1 G).
Proof.
  intros H. rewrite <- (SerializeGraph_unchanged w1 w2 G b H).
  eexists. split; [reflexivity|]. split; [reflexivity|].
  apply SerializeGraph_nodes_follow.
Qed.

(** The sample graph [DoWork] serializes to the same document before and
    after the event graph of its blueprint is deleted, a change that leaves
    the graph and its nodes alone. *)
Lemma SerializeGraph_deterministic_in_stored_order_witness :
  let after :=
    (Monolithic.HandleDeleteBlueprintFunction (Sample.host true)
       (Sample.delete_request "EventGraph") Sample.world).2 in
  Blueprints after ≠ Blueprints Sample.world
  ∧ ∃ doc,
      Monolithic.SerializeGraph Sample.world (Some Sample.DoWork) true = Some doc
      ∧ Monolithic.SerializeGraph after (Some Sample.DoWork) true = Some doc
      ∧ Forall2 NodeDocFollows (DocObjects "nodes" doc)
          (LiveNodes Sample.world Sample.DoWork).
Proof.
  cbv zeta. split.
  { intros E. apply (f_equal (fun m => Status <$> m !! 100%positive)) in E.
    vm_compute in E. discriminate E. }
  apply (SerializeGraph_deterministic_in_stored_order Sample.world
           (Monolithic.HandleDeleteBlueprintFunction (Sample.host true)
              (Sample.delete_request "EventGraph") Sample.world).2
           Sample.DoWork true).
  intros a _. reflexivity.
Defined.

(** ** Dependency sets *)

Lemma existsb_FString_eqb_false x (s : list string) :
  existsb (FString_eqb x) s = false → x ∉ s.
Proof.
  intros H Hin. apply list_elem_of_In in Hin.
  assert (existsb (FString_eqb x) s = true) as E.
  { apply existsb_exists. exists x. split; [done | apply FString_eqb_refl]. }
  congruence.
Qed.

Lemma DistinctKeys_NoDup (s : list string) : DistinctKeys s → NoDup s.
Proof.
  induction s as [|x s IH]; [intros _; apply NoDup_nil_2|].
  intros [Hx Hs]. apply NoDup_cons. split; [|by apply IH].
  by apply existsb_FString_eqb_false.
Qed.

Lemma elem_of_TSet_Add y x s : y ∈ TSet_Add x s → y = x ∨ y ∈ s.
Proof.
  induction s as [|z s IH]; cbn [TSet_Add].
  - intros ->%list_elem_of_singleton. by left.
  - destruct (FString_eqb z x).
    + intros [->|H]%elem_of_cons; [by left | right; by constructor].
    + intros [->|H]%elem_of_cons; [right; by constructor|].
      destruct (IH H) as [->|H']; [by left | right; by constructor].
Qed.

Lemma existsb_TSet_Add (f : string → bool) x s :
  existsb f (TSet_Add x s) = true → f x = true ∨ existsb f s = true.
Proof.
  intros (y & Hy & Hf)%existsb_exists. apply list_elem_of_In in Hy.
  destruct (elem_of_TSet_Add y x s Hy) as [->|Hin]; [by left|].
  right. apply existsb_exists. exists y. split; [by apply list_elem_of_In | done].
Qed.

(** [TSet::Add] keeps the elements pairwise different as [FString]s. *)
Lemma DistinctKeys_TSet_Add x s : DistinctKeys s → DistinctKeys (TSet_Add x s).
Proof.
  induction s as [|y s IH]; cbn [TSet_Add DistinctKeys]; [done|].
  intros [Hy Hs]. destruct (FString_eqb y x) eqn:E; cbn [DistinctKeys].
  - split; [|done]. rewrite <- Hy. clear -E.
    induction s as [|z s IH]; [done|]. cbn [existsb]. rewrite IH. f_equal.
    rewrite (FString_eqb_sym x z), (FString_eqb_sym y z).
    destruct (FString_eqb z y) eqn:E1.
    + by rewrite (FString_eqb_trans z y x E1 E).
    + destruct (FString_eqb z x) eqn:E2; [|done].
      rewrite FString_eqb_sym in E.
      by rewrite (FString_eqb_trans z x y E2 E) in E1.
  - split; [|by apply IH].
    apply not_true_iff_false. intros [H|H]%existsb_TSet_Add; congruence.
Qed.

Lemma CategorizeDependency_Categorized h b D x :
  Categorized h D → Categorized h (CategorizeDependency h b D x).
Proof.
  intros HC. pose proof HC as (HA & HB & HN & CA & CB & CN).
  unfold CategorizeDependency.
  destruct (negb b && (StartsWith x "/Script/" || StartsWith x "/Engine/"));
    [exact HC|].
  unfold Categorized.
  destruct (StartsWith x "/Script/") eqn:ES;
    [|destruct (GetAssetByObjectPath h x) as [c|] eqn:EC;
      [destruct (FString_eqb c "Blueprint") eqn:EB|]];
    cbn [AssetDependencies BlueprintDependencies NativeClasses];
    split_and!; try done; try (by apply DistinctKeys_TSet_Add).
  all: intros y [->|Hy]%elem_of_TSet_Add; [|by auto].
  all: unfold IsBlueprintAsset; rewrite ?EC, ?EB; done.
Qed.

Lemma CollectDependencies_Categorized h b bp :
  Categorized h (CollectDependencies h b bp).
Proof.
  unfold CollectDependencies.
  assert (Categorized h {| AssetDependencies := []; BlueprintDependencies := [];
                            NativeClasses := [] |}) as H0.
  { unfold Categorized; simpl. split_and!; try done;
      intros x Hx; by apply elem_of_nil in Hx. }
  revert H0. generalize {| AssetDependencies := []; BlueprintDependencies := [];
                            NativeClasses := [] |}.
  induction (GetDependencies h (PackageName bp)) as [|x l IH]; intros D HD; [done|].
  simpl. apply IH. by apply CategorizeDependency_Categorized.
Qed.

Lemma Categorized_disjoint h D :
  Categorized h D →
  NoDup (AssetDependencies D) ∧ NoDup (BlueprintDependencies D) ∧ NoDup (NativeClasses D)
  ∧ AssetDependencies D ## BlueprintDependencies D
  ∧ AssetDependencies D ## NativeClasses D
  ∧ BlueprintDependencies D ## NativeClasses D.
Proof.
  intros (HA & HB & HN & CA & CB & CN). split_and!; try (by apply DistinctKeys_NoDup).
  - intros x [_ E1]%CA [_ E2]%CB. congruence.
  - intros x [E1 _]%CA E2%CN. congruence.
  - intros x [E1 _]%CB E2%CN. congruence.
Qed.

Lemma DisjointDeduplicated_error msg o :
  o = CreateErrorResponse msg → DisjointDeduplicated o.
Proof.
  intros ->. unfold DisjointDeduplicated. cbn.
  split_and!; try apply NoDup_nil_2; intros x Hx; by apply elem_of_nil in Hx.
Qed.

Lemma GetStringArray_DependenciesJson bp D F o :
  GetStringArray "assets" (DependenciesJson bp D F o) = AssetDependencies D
  ∧ GetStringArray "blueprints" (DependenciesJson bp D F o) = BlueprintDependencies D
  ∧ GetStringArray "native_classes" (DependenciesJson bp D F o) = NativeClasses D.
Proof.
  unfold DependenciesJson, GetStringArray, GetArrayField. unfold_setters.
  split_and!.
  - rewrite !(GetField_SetField_ne "assets") by reflexivity.
    rewrite GetField_SetField_eq. apply omap_AsString_JString.
  - rewrite !(GetField_SetField_ne "blueprints") by reflexivity.
    rewrite GetField_SetField_eq. apply omap_AsString_JString.
  - rewrite !(GetField_SetField_ne "native_classes") by reflexivity.
    rewrite GetField_SetField_eq. apply omap_AsString_JString.
Qed.

Lemma DisjointDeduplicated_DependenciesJson h b bp F o :
  DisjointDeduplicated (DependenciesJson bp (CollectDependencies h b bp) F o).
Proof.
  unfold DisjointDeduplicated.
  destruct (GetStringArray_DependenciesJson bp (CollectDependencies h b bp) F o)
    as (-> & -> & ->).
  apply (Categorized_disjoint h), CollectDependencies_Categorized.
Qed.

(** C3. In every response of get_dependencies, of the dispatcher and of the
    command alike, the arrays [assets], [blueprints] and [native_classes]
    repeat no identifier and no identifier is in two of them. *)
Theorem dependency_sets_disjoint_deduplicated h p p' w :
  DisjointDeduplicated (Monolithic.HandleGetBlueprintDependencies h p w).1
  ∧ DisjointDeduplicated (FGetBlueprintDependenciesCommand.Execute h p' w).1.
Proof.
  split.
  - unfold Monolithic.HandleGetBlueprintDependencies.
    destruct (TryGetStringField p "blueprint_path") as [path|];
      [|by eapply DisjointDeduplicated_error].
    destruct (ResolveBlueprint h w path) as [[ptr bp]|];
      [|by eapply DisjointDeduplicated_error].
    apply DisjointDeduplicated_DependenciesJson.
  - unfold FGetBlueprintDependenciesCommand.Execute.
    destruct p' as [p'|]; [|by eapply DisjointDeduplicated_error].
    destruct (TryGetStringField p' "blueprint_path") as [path|];
      [|by eapply DisjointDeduplicated_error].
    destruct (DiscoverBlueprint h w path) as [[ptr bp]|];
      [|by eapply DisjointDeduplicated_error].
    apply DisjointDeduplicated_DependenciesJson.
Qed.

(** ** Function call counts *)

Lemma KeyListed_TMap_Increment K k m :
  KeyListed K (map fst (TMap_Increment k m))
  = KeyListed K (map fst m) || FString_eqb k K.
Proof.
  unfold KeyListed. induction m as [|[k' c] m IH]; simpl.
  - by rewrite orb_false_r.
  - destruct (FString_eqb k' k) eqn:E; simpl.
    + rewrite (FString_eqb_congr k' k K E).
      destruct (FString_eqb k K); simpl; [done | by rewrite orb_false_r].
    + rewrite IH. by rewrite orb_assoc.
Qed.

Lemma KeyListed_CountNodes w b K nodes m :
  KeyListed K (map fst (fold_left (CountNode w b) nodes m))
  = KeyListed K (map fst m)
    || existsb (CountedAs b K)
         (omap (fun Node : addr => NodeStore w !! Node ≫= GetTargetFunction) nodes).
Proof.
  revert m. induction nodes as [|n nodes IH]; intros m; cbn [fold_left].
  - simpl. by rewrite orb_false_r.
  - rewrite IH, list_omap_cons. unfold CountNode.
    destruct (NodeStore w !! n ≫= GetTargetFunction) as [f|]; [|done].
    cbn [existsb]. destruct (CountsFunctionCall b f) eqn:EC.
    + rewrite KeyListed_TMap_Increment.
      assert (CountedAs b K f = FString_eqb (FunctionKeyOf f) K) as ->
        by (unfold CountedAs; by rewrite EC).
      by rewrite orb_assoc.
    + assert (CountedAs b K f = false) as -> by (unfold CountedAs; by rewrite EC).
      done.
Qed.

Lemma KeyListed_CountGraphs w b K graphs m :
  KeyListed K (map fst (fold_left (CountGraph w b) graphs m))
  = KeyListed K (map fst m)
    || existsb (CountedAs b K)
         (Graph ← omap (fun g : addr => GraphStore w !! g) graphs;
          omap (fun Node : addr => NodeStore w !! Node ≫= GetTargetFunction) (Nodes Graph)).
Proof.
  revert m. induction graphs as [|g graphs IH]; intros m; cbn [fold_left].
  - simpl. by rewrite orb_false_r.
  - rewrite IH, list_omap_cons. unfold CountGraph.
    destruct (GraphStore w !! g) as [G|]; [|done].
    rewrite KeyListed_CountNodes. rewrite bind_cons, existsb_app.
    by rewrite orb_assoc.
Qed.

Lemma KeyListed_CollectFunctionCalls w b K bp :
  KeyListed K (map fst (CollectFunctionCalls w b bp))
  = existsb (CountedAs b K) (CalledFunctions w bp).
Proof. unfold CollectFunctionCalls. by rewrite KeyListed_CountGraphs. Qed.

Lemma CountsFunctionCall_guard f :
  CountsFunctionCall false f = negb (EngineGuarded f).
Proof.
  unfold CountsFunctionCall, EngineGuarded. cbn [orb].
  destruct (StartsWith (FunctionKeyOf f) "U"), (OwnerClass f) as [c|]; done.
Qed.

Lemma FunctionCallKeys_DependenciesJson bp D F o :
  FunctionCallKeys (DependenciesJson bp D F o) = map fst F.
Proof.
  unfold FunctionCallKeys, GetObjectArrayStrings, GetArrayField, DependenciesJson.
  unfold_setters. rewrite GetField_SetField_eq.
  induction F as [|[k c] F IH]; [done|].
  simpl map. rewrite list_omap_cons. simpl. by f_equal.
Qed.

Lemma KeyListed_absent_iff w bp K :
  KeyListed K (map fst (CollectFunctionCalls w false bp)) = false
  ↔ ∀ f, f ∈ CalledFunctions w bp →
         FString_eqb (FunctionKeyOf f) K = true → EngineGuarded f = true.
Proof.
  rewrite KeyListed_CollectFunctionCalls. split.
  - intros H f Hf Hk. destruct (EngineGuarded f) eqn:E; [done|].
    assert (existsb (CountedAs false K) (CalledFunctions w bp) = true) as H'; [|congruence].
    apply existsb_exists. exists f. split; [by apply list_elem_of_In|].
    unfold CountedAs. by rewrite CountsFunctionCall_guard, E, Hk.
  - intros H. apply not_true_iff_false. intros (f & Hf & Hc)%existsb_exists.
    apply list_elem_of_In in Hf. unfold CountedAs in Hc.
    apply andb_prop in Hc as [Hc Hk]. rewrite CountsFunctionCall_guard in Hc.
    rewrite (H f Hf Hk) in Hc. discriminate.
Qed.

(** What the guard of the count does when include_engine_classes is not set:
    a call is left out exactly when its key starts with "U" and the path of
    its owner class starts with "/Script/Engine"; so a key is absent from
    [function_calls] if and only if every call node of the subject with that
    key is such a call. *)
Lemma function_call_key_absent_iff_guarded h w path ptr bp K :
  (∀ p, TryGetStringField p "blueprint_path" = Some path →
        ResolveBlueprint h w path = Some (ptr, bp) →
        default false (TryGetBoolField p "include_engine_classes") = false →
        KeyListed K (FunctionCallKeys (Monolithic.HandleGetBlueprintDependencies h p w).1)
          = false
        ↔ ∀ f, f ∈ CalledFunctions w bp →
               FString_eqb (FunctionKeyOf f) K = true → EngineGuarded f = true)
  ∧ (∀ p, TryGetStringField p "blueprint_path" = Some path →
        DiscoverBlueprint h w path = Some (ptr, bp) →
        default false (TryGetBoolField p "include_engine_classes") = false →
        KeyListed K
          (FunctionCallKeys (FGetBlueprintDependenciesCommand.Execute h (Some p) w).1)
          = false
        ↔ ∀ f, f ∈ CalledFunctions w bp →
               FString_eqb (FunctionKeyOf f) K = true → EngineGuarded f = true).
Proof.
  split; intros p Hp Hbp Hflag.
  - unfold Monolithic.HandleGetBlueprintDependencies. rewrite Hp, Hbp, Hflag.
    cbn [fst]. rewrite FunctionCallKeys_DependenciesJson. apply KeyListed_absent_iff.
  - unfold FGetBlueprintDependenciesCommand.Execute. rewrite Hp, Hbp, Hflag.
    cbn [fst]. rewrite FunctionCallKeys_DependenciesJson. apply KeyListed_absent_iff.
Qed.

Lemma function_call_key_absent_iff_guarded_witness :
  Sample.GetDPIScale ∈ CalledFunctions Sample.world Sample.BP_Hero
  ∧ KeyListed (FunctionKeyOf Sample.GetDPIScale)
      (FunctionCallKeys (Monolithic.HandleGetBlueprintDependencies (Sample.host true)
                           Sample.dependencies_request Sample.world).1) = false.
Proof.
  split; [apply list_elem_of_In; vm_compute; tauto|].
  apply (proj1 (function_call_key_absent_iff_guarded (Sample.host true) Sample.world
           "/Game/BP_Hero.BP_Hero" 100%positive Sample.BP_Hero
           (FunctionKeyOf Sample.GetDPIScale)) Sample.dependencies_request);
    [reflexivity | reflexivity | reflexivity |].
  intros f Hf. apply list_elem_of_In in Hf. vm_compute in Hf.
  destruct Hf as [<-|[<-|[<-|[<-|[]]]]]; intros Hk; vm_compute in Hk;
    try discriminate Hk; vm_compute; reflexivity.
Defined.

(** C2. Calls of engine functions are not all left out of the count.  When
    include_engine_classes is not set, the guard drops a call only if, besides the
    path of its owner class lying under "/Script/Engine", its key starts with
    "U".  The key starts with the [GetName()] of the class, which carries no
    type prefix, so the call of an engine function is counted whenever the
    name of its class does not happen to begin with that letter: its key is
    in [function_calls], in the dispatcher's response and in the
    command's. *)
Theorem engine_call_counted_unless_key_starts_with_U h w path ptr bp f c :
  f ∈ CalledFunctions w bp →
  OwnerClass f = Some c →
  StartsWith (ClassPathName c) "/Script/Engine" = true →
  StartsWith (FunctionKeyOf f) "U" = false →
  (∀ p, TryGetStringField p "blueprint_path" = Some path →
        ResolveBlueprint h w path = Some (ptr, bp) →
        default false (TryGetBoolField p "include_engine_classes") = false →
        KeyListed (FunctionKeyOf f)
          (FunctionCallKeys (Monolithic.HandleGetBlueprintDependencies h p w).1) = true)
  ∧ (∀ p, TryGetStringField p "blueprint_path" = Some path →
        DiscoverBlueprint h w path = Some (ptr, bp) →
        default false (TryGetBoolField p "include_engine_classes") = false →
        KeyListed (FunctionKeyOf f)
          (FunctionCallKeys (FGetBlueprintDependenciesCommand.Execute h (Some p) w).1)
        = true).
Proof.
  intros Hf Hc Hpath HU.
  assert (HK : KeyListed (FunctionKeyOf f) (map fst (CollectFunctionCalls w false bp)) = true).
  { apply not_false_iff_true. intros HK.
    pose proof (proj1 (KeyListed_absent_iff w bp (FunctionKeyOf f)) HK f Hf
                  (FString_eqb_refl _)) as HG.
    unfold EngineGuarded in HG. rewrite HU in HG. discriminate HG. }
  split; intros p Hp Hbp Hflag.
  - unfold Monolithic.HandleGetBlueprintDependencies. rewrite Hp, Hbp, Hflag.
    cbn [fst]. by rewrite FunctionCallKeys_DependenciesJson.
  - unfold FGetBlueprintDependenciesCommand.Execute. rewrite Hp, Hbp, Hflag.
    cbn [fst]. by rewrite FunctionCallKeys_DependenciesJson.
Qed.

(** The sample blueprint calls [PrintString] of [KismetSystemLibrary], a
    class under "/Script/Engine": the request leaves include_engine_classes
    out, and the key of the call is in [function_calls]. *)
Lemma engine_call_counted_unless_key_starts_with_U_witness :
  let resp := (Monolithic.HandleGetBlueprintDependencies (Sample.host true)
                 Sample.dependencies_request Sample.world).1 in
  TryGetBoolField Sample.dependencies_request "include_engine_classes" = None
  ∧ ClassPathName Sample.KismetSystemLibrary = "/Script/Engine.KismetSystemLibrary"
  ∧ KeyListed "KismetSystemLibrary::PrintString" (FunctionCallKeys resp) = true.
Proof.
  cbv zeta. split; [reflexivity|]. split; [reflexivity|].
  apply (proj1 (engine_call_counted_unless_key_starts_with_U (Sample.host true) Sample.world
                  "/Game/BP_Hero.BP_Hero" 100%positive Sample.BP_Hero
                  Sample.PrintString Sample.KismetSystemLibrary
                  ltac:(apply list_elem_of_In; vm_compute; tauto)
                  eq_refl eq_refl eq_refl) Sample.dependencies_request);
    reflexivity.
Defined.

(** ** The redirect engine *)

Lemma ScanNodes_fst w sf C F G nodes acc :
  (fold_left (ScanNode w sf C F G) nodes acc).1
  = acc.1 ++ List.filter (CallsFunction w sf) nodes.
Proof.
  revert acc. induction nodes as [|n nodes IH]; intros [l c]; cbn [fold_left List.filter].
  - by rewrite List.app_nil_r.
  - rewrite IH. unfold ScanNode, CallsFunction.
    destruct (NodeStore w !! n) as [node|]; cbn [mbind option_bind]; [|done].
    destruct (GetTargetFunction node) as [f|]; [|done].
    destruct (FString_eqb (FunctionName f) sf); [|done].
    cbn [fst]. by rewrite <- app_assoc.
Qed.

Lemma ScanGraphs_fst w sf C F graphs acc :
  (fold_left (ScanGraph w sf C F) graphs acc).1
  = acc.1 ++ (Graph ← omap (fun g : addr => GraphStore w !! g) graphs;
              List.filter (CallsFunction w sf) (Nodes Graph)).
Proof.
  revert acc. induction graphs as [|g graphs IH]; intros acc; cbn [fold_left].
  - by rewrite List.app_nil_r.
  - rewrite IH, list_omap_cons. unfold ScanGraph.
    destruct (GraphStore w !! g) as [G|]; [|done].
    rewrite ScanNodes_fst, bind_cons. by rewrite <- app_assoc.
Qed.

Lemma FindNodesToRedirect_fst w bp sf C F :
  (FindNodesToRedirect w bp sf C F).1 = NodesCalling w bp sf.
Proof. unfold FindNodesToRedirect. by rewrite ScanGraphs_fst. Qed.

(** The apply loop *)

Lemma ApplyRedirects_count_acc F l acc :
  (fold_left (RedirectNode F) l acc).2 = acc.2 + Z.of_nat (length l).
Proof.
  revert acc. induction l as [|n l IH]; intros [w c]; cbn [fold_left length].
  - cbn. lia.
  - rewrite IH. cbn. lia.
Qed.

Lemma ApplyRedirects_count F l w :
  (ApplyRedirects F l w).2 = Z.of_nat (length l).
Proof. unfold ApplyRedirects. by rewrite ApplyRedirects_count_acc. Qed.

Lemma SetFromFunction_idem F n :
  SetFromFunction F (SetFromFunction F n) = SetFromFunction F n.
Proof. unfold SetFromFunction. destruct (NodeKind n) eqn:E; cbn; by rewrite ?E. Qed.

Lemma ApplyRedirects_frame_acc F l acc :
  let w' := (fold_left (RedirectNode F) l acc).1 in
  Blueprints w' = Blueprints acc.1 ∧ GraphStore w' = GraphStore acc.1
  ∧ Files w' = Files acc.1 ∧ ExportDirExists w' = ExportDirExists acc.1.
Proof.
  revert acc. induction l as [|n l IH]; intros [w c]; cbn [fold_left]; [done|].
  apply (IH (RedirectNode F (w, c) n)).
Qed.

Lemma ApplyRedirects_frame F l w :
  Blueprints (ApplyRedirects F l w).1 = Blueprints w
  ∧ GraphStore (ApplyRedirects F l w).1 = GraphStore w
  ∧ Files (ApplyRedirects F l w).1 = Files w
  ∧ ExportDirExists (ApplyRedirects F l w).1 = ExportDirExists w.
Proof. apply (ApplyRedirects_frame_acc F l (w, 0)). Qed.

Lemma ApplyRedirects_lookup_acc F l acc n :
  NodeStore (fold_left (RedirectNode F) l acc).1 !! n
  = if decide (n ∈ l) then SetFromFunction F <$> NodeStore acc.1 !! n
    else NodeStore acc.1 !! n.
Proof.
  revert acc. induction l as [|a l IH]; intros [w c]; cbn [fold_left].
  - rewrite decide_False; [done | apply not_elem_of_nil].
  - rewrite IH. cbn [RedirectNode fst with_NodeStore NodeStore].
    rewrite lookup_alter. destruct (decide (a = n)) as [->|Hne].
    + rewrite (decide_True (P := n ∈ n :: l)) by constructor.
      destruct (decide (n ∈ l)); [|done].
      destruct (NodeStore w !! n) as [x|]; [|done]. cbn. by rewrite SetFromFunction_idem.
    + destruct (decide (n ∈ l)) as [Hin|Hnin].
      * rewrite decide_True; [done | by constructor].
      * rewrite decide_False; [done|].
        intros [?|?]%elem_of_cons; congruence.
Qed.

Lemma ApplyRedirects_lookup F l w n :
  NodeStore (ApplyRedirects F l w).1 !! n
  = if decide (n ∈ l) then SetFromFunction F <$> NodeStore w !! n else NodeStore w !! n.
Proof. unfold ApplyRedirects. by rewrite ApplyRedirects_lookup_acc. Qed.

(** The redirect, phase by phase *)

Lemma WriteJsonToTempFile_frame h name json w :
  let w' := (WriteJsonToTempFile h name json w).2 in
  Blueprints w' = Blueprints w ∧ GraphStore w' = GraphStore w ∧ NodeStore w' = NodeStore w.
Proof.
  unfold WriteJsonToTempFile, GetExportDirectory. cbv zeta.
  by destruct (SaveStringToFile h _).
Qed.

Lemma RedirectResolved_nodes_found h o dry bk ptr bp sf C F w :
  GetField "nodes_found" (RedirectResolved h o dry bk ptr bp sf C F w).1
  = Some (JNumber (Z.of_nat (length (NodesCalling w bp sf)))).
Proof.
  unfold RedirectResolved. rewrite <- (FindNodesToRedirect_fst w bp sf C F).
  destruct (FindNodesToRedirect w bp sf C F) as [l ch]. cbn [fst].
  destruct (Z.of_nat (length l) =? 0), dry, bk;
    repeat match goal with
           | |- context [WriteJsonToTempFile ?a ?b ?c ?d] =>
               destruct (WriteJsonToTempFile a b c d)
           | |- context [ApplyRedirects ?a ?b ?c] => destruct (ApplyRedirects a b c)
           end;
    cbn [fst]; unfold_setters;
    rewrite !(GetField_SetField_ne "nodes_found") by reflexivity;
    apply GetField_SetField_eq.
Qed.

Lemma RedirectResolved_nodes_redirected h o dry bk ptr bp sf C F w :
  GetField "nodes_redirected" o = None →
  GetField "nodes_redirected" (RedirectResolved h o dry bk ptr bp sf C F w).1
  = if (Z.of_nat (length (NodesCalling w bp sf)) =? 0) || dry then None
    else Some (JNumber (Z.of_nat (length (NodesCalling w bp sf)))).
Proof.
  intros Ho. unfold RedirectResolved. rewrite <- (FindNodesToRedirect_fst w bp sf C F).
  destruct (FindNodesToRedirect w bp sf C F) as [l ch]. cbn [fst].
  destruct (Z.of_nat (length l) =? 0); cbn [orb].
  { cbn [fst]. unfold_setters. by rewrite !(GetField_SetField_ne "nodes_redirected"). }
  destruct dry.
  { cbn [fst]. unfold_setters. by rewrite !(GetField_SetField_ne "nodes_redirected"). }
  destruct bk.
  - destruct (WriteJsonToTempFile _ _ _ _) as [path w1].
    pose proof (ApplyRedirects_count F l w1) as Hc.
    destruct (ApplyRedirects F l w1) as [w2 c]. cbn [snd] in Hc. subst c.
    cbn [fst]. unfold_setters.
    rewrite !(GetField_SetField_ne "nodes_redirected") by reflexivity.
    apply GetField_SetField_eq.
  - pose proof (ApplyRedirects_count F l w) as Hc.
    destruct (ApplyRedirects F l w) as [w2 c]. cbn [snd] in Hc. subst c.
    cbn [fst]. unfold_setters.
    rewrite !(GetField_SetField_ne "nodes_redirected") by reflexivity.
    apply GetField_SetField_eq.
Qed.

Lemma RedirectResolved_world h o dry bk ptr bp sf C F w :
  (Z.of_nat (length (NodesCalling w bp sf)) =? 0) || dry = true
  ∧ (RedirectResolved h o dry bk ptr bp sf C F w).2 = w
  ∨ (Z.of_nat (length (NodesCalling w bp sf)) =? 0) || dry = false
  ∧ ∃ w0, Blueprints w0 = Blueprints w ∧ GraphStore w0 = GraphStore w
          ∧ NodeStore w0 = NodeStore w
          ∧ (RedirectResolved h o dry bk ptr bp sf C F w).2
            = MarkBlueprintAsModified ptr
                (ApplyRedirects F (NodesCalling w bp sf) w0).1.
Proof.
  unfold RedirectResolved. rewrite <- (FindNodesToRedirect_fst w bp sf C F).
  destruct (FindNodesToRedirect w bp sf C F) as [l ch]. cbn [fst].
  destruct (Z.of_nat (length l) =? 0); cbn [orb]; [by left|].
  destruct dry; [by left|]. right. split; [done|].
  destruct bk.
  - pose proof (WriteJsonToTempFile_frame h (RedirectBackupFileName h bp)
      (SetArrayField "original_state" ch
         (SetStringField "backup_time" (NowText h)
            (SetStringField "blueprint_path" (BlueprintPathName bp) MakeJsonObject))) w)
      as Hw.
    cbv zeta in Hw.
    destruct (WriteJsonToTempFile _ _ _ _) as [path w1]. cbn [snd] in Hw.
    exists w1. destruct (ApplyRedirects F l w1) as [w2 c]. cbn [fst snd]. tauto.
  - exists w. destruct (ApplyRedirects F l w) as [w2 c]. done.
Qed.

Lemma Monolithic_redirect_cases h p w :
  (∃ msg, Monolithic.HandleRedirectFunctionCall h p w
          = (CommonUtils_CreateErrorResponse msg, w))
  ∨ (∃ path sf ptr bp C F,
       TryGetStringField p "source_blueprint" = Some path
       ∧ TryGetStringField p "source_function" = Some sf
       ∧ ResolveBlueprint h w path = Some (ptr, bp)
       ∧ ResolvedTarget h p = Some (C, F)
       ∧ Monolithic.HandleRedirectFunctionCall h p w
         = RedirectResolved h MakeJsonObject
             (default true (TryGetBoolField p "dry_run"))
             (default true (TryGetBoolField p "backup")) ptr bp sf C F w).
Proof.
  unfold Monolithic.HandleRedirectFunctionCall, ResolvedTarget.
  destruct (TryGetStringField p "source_blueprint") as [path|]; [|left; eauto].
  destruct (TryGetStringField p "source_function") as [sf|]; [|left; eauto].
  destruct (TryGetStringField p "target_class") as [tc|]; [|left; eauto].
  destruct (TryGetStringField p "target_function") as [tf|]; [|left; eauto].
  destruct (ResolveBlueprint h w path) as [[ptr bp]|] eqn:Ebp; [|left; eauto].
  cbn [mbind option_bind].
  destruct (or_else (FindClass h tc) (LoadClass h tc)) as [C|]; [|left; eauto].
  cbn [mbind option_bind].
  destruct (FindFunctionByName h C tf) as [F|]; [|left; eauto].
  right. exists path, sf, ptr, bp, C, F. split_and!; done.
Qed.

Lemma Command_redirect_cases h p w :
  (∃ msg, FRedirectFunctionCallCommand.Execute h p w = (CreateErrorResponse msg, w))
  ∨ (∃ q path sf ptr bp C F,
       p = Some q
       ∧ TryGetStringField q "source_blueprint" = Some path
       ∧ TryGetStringField q "source_function" = Some sf
       ∧ DiscoverBlueprint h w path = Some (ptr, bp)
       ∧ ResolvedTarget h q = Some (C, F)
       ∧ FRedirectFunctionCallCommand.Execute h p w
         = RedirectResolved h (MakeJsonObject |> SetBoolField "success" true)
             (default true (TryGetBoolField q "dry_run"))
             (default true (TryGetBoolField q "backup")) ptr bp sf C F w).
Proof.
  unfold FRedirectFunctionCallCommand.Execute, ResolvedTarget.
  destruct p as [q|]; [|left; eauto].
  destruct (TryGetStringField q "source_blueprint") as [path|] eqn:E1; [|left; eauto].
  destruct (TryGetStringField q "source_function") as [sf|] eqn:E2; [|left; eauto].
  destruct (TryGetStringField q "target_class") as [tc|] eqn:E3; [|left; eauto].
  destruct (TryGetStringField q "target_function") as [tf|] eqn:E4; [|left; eauto].
  destruct (DiscoverBlueprint h w path) as [[ptr bp]|] eqn:Ebp; [|left; eauto].
  destruct (or_else (FindClass h tc) (LoadClass h tc)) as [C|] eqn:E5; [|left; eauto].
  destruct (FindFunctionByName h C tf) as [F|] eqn:E6; [|left; eauto].
  right. exists q, path, sf, ptr, bp, C, F. split_and!; try done.
  rewrite E3, E4. cbn [mbind option_bind]. rewrite E5. cbn [mbind option_bind].
  by rewrite E6.
Qed.

(** C10. Whenever a redirect response reports [nodes_redirected], it reports
    the same number as [nodes_found]. *)
Theorem nodes_redirected_equals_nodes_found h w v :
  (∀ p, GetField "nodes_redirected" (Monolithic.HandleRedirectFunctionCall h p w).1 = Some v →
        GetField "nodes_found" (Monolithic.HandleRedirectFunctionCall h p w).1 = Some v)
  ∧ (∀ p, GetField "nodes_redirected" (FRedirectFunctionCallCommand.Execute h p w).1 = Some v →
          GetField "nodes_found" (FRedirectFunctionCallCommand.Execute h p w).1 = Some v).
Proof.
  split; intros p.
  - destruct (Monolithic_redirect_cases h p w)
      as [[msg ->]|(path & sf & ptr & bp & C & F & _ & _ & _ & _ & ->)]; [done|].
    rewrite RedirectResolved_nodes_redirected, RedirectResolved_nodes_found by done.
    by destruct (_ || _).
  - destruct (Command_redirect_cases h p w)
      as [[msg ->]|(q & path & sf & ptr & bp & C & F & _ & _ & _ & _ & _ & ->)]; [done|].
    rewrite RedirectResolved_nodes_redirected, RedirectResolved_nodes_found by done.
    by destruct (_ || _).
Qed.

Lemma nodes_redirected_equals_nodes_found_witness :
  GetField "nodes_found"
    (Monolithic.HandleRedirectFunctionCall (Sample.host true)
       (Sample.redirect_request "NewFunc" false) Sample.world).1 = Some (JNumber 2)
  ∧ GetField "nodes_found"
      (FRedirectFunctionCallCommand.Execute (Sample.host true)
         (Some (Sample.redirect_request "NewFunc" false)) Sample.world).1
    = Some (JNumber 2).
Proof.
  split.
  - apply (proj1 (nodes_redirected_equals_nodes_found (Sample.host true) Sample.world
                    (JNumber 2))). vm_compute. reflexivity.
  - apply (proj2 (nodes_redirected_equals_nodes_found (Sample.host true) Sample.world
                    (JNumber 2))). vm_compute. reflexivity.
Defined.

(** Dry run *)

Lemma RedirectResolved_dry_run h h' o bk ptr bp sf C F w :
  RedirectResolved h o true bk ptr bp sf C F w
  = RedirectResolved h' o true bk ptr bp sf C F w
  ∧ (RedirectResolved h o true bk ptr bp sf C F w).2 = w.
Proof.
  unfold RedirectResolved.
  destruct (FindNodesToRedirect w bp sf C F) as [l ch].
  by destruct (Z.of_nat (length l) =? 0).
Qed.

(** C5. A redirect with dry_run set (or left to its default) returns the world
    as it was: no node, blueprint or graph changes, no file is written and
    nothing is marked modified; repeating the request, at whatever time, gives
    the same response, change list included. *)
Theorem dry_run_mutates_nothing h p w stamp text :
  default true (TryGetBoolField p "dry_run") = true →
  (let '(resp, w') := Monolithic.HandleRedirectFunctionCall h p w in
   w' = w
   ∧ Monolithic.HandleRedirectFunctionCall (AtTime stamp text h) p w' = (resp, w'))
  ∧ (let '(resp, w') := FRedirectFunctionCallCommand.Execute h (Some p) w in
     w' = w
     ∧ FRedirectFunctionCallCommand.Execute (AtTime stamp text h) (Some p) w' = (resp, w')).
Proof.
  intros Hdry. split.
  - assert (Monolithic.HandleRedirectFunctionCall (AtTime stamp text h) p w
            = Monolithic.HandleRedirectFunctionCall h p w
            ∧ (Monolithic.HandleRedirectFunctionCall h p w).2 = w) as [E1 E2].
    { unfold Monolithic.HandleRedirectFunctionCall. rewrite Hdry.
      cbn [AtTime FindClass LoadClass FindFunctionByName].
      unfold ResolveBlueprint. cbn [AtTime LoadBlueprint FindBlueprint].
      repeat match goal with
             | |- context [match ?x with Some _ => _ | None => _ end] =>
                 destruct x as [?|]; [|done]
             | |- context [let (_, _) := ?x in _] => destruct x
             end.
      match goal with
      | |- RedirectResolved ?h1 ?o true ?bk ?a ?u ?s ?c ?f ?w0 = _ ∧ _ =>
          split;
          [apply (proj1 (RedirectResolved_dry_run h1 h o bk a u s c f w0))
          |apply (proj2 (RedirectResolved_dry_run h h o bk a u s c f w0))]
      end. }
    destruct (Monolithic.HandleRedirectFunctionCall h p w) as [resp w'].
    cbn [snd] in E2. subst w'. by rewrite E1.
  - assert (FRedirectFunctionCallCommand.Execute (AtTime stamp text h) (Some p) w
            = FRedirectFunctionCallCommand.Execute h (Some p) w
            ∧ (FRedirectFunctionCallCommand.Execute h (Some p) w).2 = w) as [E1 E2].
    { unfold FRedirectFunctionCallCommand.Execute. rewrite Hdry.
      cbn [AtTime FindClass LoadClass FindFunctionByName].
      unfold DiscoverBlueprint. cbn [AtTime LoadBlueprint FindBlueprints].
      repeat match goal with
             | |- context [match ?x with Some _ => _ | None => _ end] =>
                 destruct x as [?|]; [|done]
             | |- context [let (_, _) := ?x in _] => destruct x
             end.
      match goal with
      | |- RedirectResolved ?h1 ?o true ?bk ?a ?u ?s ?c ?f ?w0 = _ ∧ _ =>
          split;
          [apply (proj1 (RedirectResolved_dry_run h1 h o bk a u s c f w0))
          |apply (proj2 (RedirectResolved_dry_run h h o bk a u s c f w0))]
      end. }
    destruct (FRedirectFunctionCallCommand.Execute h (Some p) w) as [resp w'].
    cbn [snd] in E2. subst w'. by rewrite E1.
Qed.

Lemma dry_run_mutates_nothing_witness :
  let h := Sample.host true in
  let p := Sample.redirect_request "NewFunc" true in
  let later := AtTime "20240101_120001" "2024.01.01-12.00.01" h in
  default true (TryGetBoolField p "dry_run") = true
  ∧ (let '(resp, w') := Monolithic.HandleRedirectFunctionCall h p Sample.world in
     w' = Sample.world
     ∧ Monolithic.HandleRedirectFunctionCall later p w' = (resp, w'))
  ∧ (let '(resp, w') := FRedirectFunctionCallCommand.Execute h (Some p) Sample.world in
     w' = Sample.world
     ∧ FRedirectFunctionCallCommand.Execute later (Some p) w' = (resp, w')).
Proof.
  cbv zeta. split; [reflexivity|].
  apply (dry_run_mutates_nothing (Sample.host true)
           (Sample.redirect_request "NewFunc" true) Sample.world
           "20240101_120001" "2024.01.01-12.00.01").
  reflexivity.
Defined.

(** Discovery after an apply *)

Lemma elem_of_NodesCalling w bp sf n :
  n ∈ NodesCalling w bp sf
  ↔ CallsFunction w sf n = true
    ∧ ∃ G, G ∈ omap (fun g : addr => GraphStore w !! g) (GetAllGraphs bp) ∧ n ∈ Nodes G.
Proof.
  unfold NodesCalling. rewrite list_elem_of_bind. split.
  - intros (G & Hn & HG). apply list_elem_of_In, filter_In in Hn as [Hn Hc].
    split; [done|]. exists G. split; [done | by apply list_elem_of_In].
  - intros (Hc & G & HG & Hn). exists G. split; [|done].
    apply list_elem_of_In, filter_In. split; [by apply list_elem_of_In | done].
Qed.

Lemma CallsFunction_SetFromFunction w w2 sf F n :
  CallsFunction w sf n = true →
  NodeStore w2 !! n = SetFromFunction F <$> NodeStore w !! n →
  CallsFunction w2 sf n = FString_eqb (FunctionName F) sf.
Proof.
  unfold CallsFunction. intros Hc ->.
  destruct (NodeStore w !! n) as [node|]; [|done]. cbn in *.
  unfold GetTargetFunction, SetFromFunction in *.
  destruct (NodeKind node); try done. 
Qed.

Lemma NodesCalling_after_redirect w w2 bp bp2 sf F :
  GetAllGraphs bp2 = GetAllGraphs bp →
  GraphStore w2 = GraphStore w →
  (∀ n, NodeStore w2 !! n
        = if decide (n ∈ NodesCalling w bp sf)
          then SetFromFunction F <$> NodeStore w !! n else NodeStore w !! n) →
  FString_eqb (FunctionName F) sf = false →
  NodesCalling w2 bp2 sf = [].
Proof.
  intros HG HS HN HF.
  assert (∀ G n, G ∈ omap (fun g : addr => GraphStore w !! g) (GetAllGraphs bp) →
                 n ∈ Nodes G → CallsFunction w2 sf n = false) as Hno.
  { intros G n HGin Hn. specialize (HN n).
    destruct (decide (n ∈ NodesCalling w bp sf)) as [Hin|Hnin].
    - apply elem_of_NodesCalling in Hin as [Hc _].
      by rewrite (CallsFunction_SetFromFunction w w2 sf F n Hc HN).
    - destruct (CallsFunction w2 sf n) eqn:Hc; [|done]. exfalso. apply Hnin.
      apply elem_of_NodesCalling. split; [|by exists G].
      unfold CallsFunction in *. by rewrite <- HN. }
  unfold NodesCalling. rewrite HG, HS.
  induction (omap (fun g : addr => GraphStore w !! g) (GetAllGraphs bp)) as [|G Gs IH];
    [done|].
  rewrite bind_cons, IH.
  - rewrite List.app_nil_r.
    assert (∀ n, n ∈ Nodes G → CallsFunction w2 sf n = false) as HGn.
    { intros n Hn. apply (Hno G); [constructor | done]. }
    clear -HGn. induction (Nodes G) as [|n ns IHn]; [done|].
    cbn [List.filter]. rewrite HGn by constructor. apply IHn.
    intros n' Hn'. apply HGn. by constructor.
  - intros G' n HG' Hn. apply (Hno G'); [by constructor | done].
Qed.

Lemma LookupBlueprint_after w w' :
  BlueprintsRetouched w' w →
  ∀ a, match LookupBlueprint w a with
       | Some (a0, bp) => ∃ bp', LookupBlueprint w' a = Some (a0, bp') ∧ SameGraphs bp' bp
       | None => LookupBlueprint w' a = None
       end.
Proof.
  intros H a. unfold LookupBlueprint. destruct (H a) as (f & Hf & ->).
  destruct (Blueprints w !! a) as [bp|]; cbn; [|done]. eauto.
Qed.

Lemma ResolveBlueprint_after h w w' path ptr bp :
  BlueprintsRetouched w' w →
  ResolveBlueprint h w path = Some (ptr, bp) →
  ∃ bp', ResolveBlueprint h w' path = Some (ptr, bp') ∧ SameGraphs bp' bp.
Proof.
  intros H. unfold ResolveBlueprint, or_else.
  pose proof (LookupBlueprint_after w w' H) as HL.
  destruct (LoadBlueprint h path) as [a|]; cbn [mbind option_bind].
  - specialize (HL a) as HLa. destruct (LookupBlueprint w a) as [[a0 bp0]|].
    + destruct HLa as (bp' & -> & HS). intros [= <- <-]. eauto.
    + rewrite HLa. destruct (FindBlueprint h path) as [b|]; cbn [mbind option_bind]; [|done].
      specialize (HL b). destruct (LookupBlueprint w b) as [[b0 bp0]|]; [|done].
      destruct HL as (bp' & -> & HS). intros [= <- <-]. eauto.
  - destruct (FindBlueprint h path) as [b|]; cbn [mbind option_bind]; [|done].
    specialize (HL b). destruct (LookupBlueprint w b) as [[b0 bp0]|]; [|done].
    destruct HL as (bp' & -> & HS). intros [= <- <-]. eauto.
Qed.

Lemma DiscoverBlueprint_after h w w' path ptr bp :
  BlueprintsRetouched w' w →
  DiscoverBlueprint h w path = Some (ptr, bp) →
  ∃ bp', DiscoverBlueprint h w' path = Some (ptr, bp') ∧ SameGraphs bp' bp.
Proof.
  intros H. unfold DiscoverBlueprint, or_else.
  pose proof (LookupBlueprint_after w w' H) as HL.
  assert (∀ o : option addr,
            (∃ ptr bp, o ≫= LookupBlueprint w = Some (ptr, bp)
                     ∧ ∃ bp', o ≫= LookupBlueprint w' = Some (ptr, bp') ∧ SameGraphs bp' bp)
            ∨ (o ≫= LookupBlueprint w = None ∧ o ≫= LookupBlueprint w' = None)) as HO.
  { intros [a|]; cbn [mbind option_bind]; [|by right].
    specialize (HL a). destruct (LookupBlueprint w a) as [[a0 bp0]|]; [|by right].
    left. eauto. }
  destruct (HO (LoadBlueprint h path)) as [(a & b & -> & bp' & -> & HS)|[-> ->]].
  { intros [= <- <-]. eauto. }
  destruct (FindBlueprints h path) as [|First ?]; [done|].
  destruct (HO (LoadBlueprint h First)) as [(a & b & -> & bp' & -> & HS)|[-> ->]]; [|done].
  intros [= <- <-]. eauto.
Qed.

Lemma BlueprintsRetouched_redirect F l w w0 ptr :
  Blueprints w0 = Blueprints w →
  BlueprintsRetouched (MarkBlueprintAsModified ptr (ApplyRedirects F l w0).1) w.
Proof.
  intros H0 a. unfold MarkBlueprintAsModified. cbn [with_Blueprints Blueprints].
  destruct (ApplyRedirects_frame F l w0) as (-> & _).
  rewrite H0, lookup_alter. destruct (decide (ptr = a)) as [->|Hne].
  - eexists. split; [|reflexivity]. by intros bp.
  - exists id. split; [by intros bp | by rewrite option_fmap_id].
Qed.

Lemma NodesCalling_redirected F w w0 ptr bp bp' sf :
  Blueprints w0 = Blueprints w → GraphStore w0 = GraphStore w →
  NodeStore w0 = NodeStore w →
  SameGraphs bp' bp →
  FString_eqb (FunctionName F) sf = false →
  NodesCalling (MarkBlueprintAsModified ptr (ApplyRedirects F (NodesCalling w bp sf) w0).1)
    bp' sf = [].
Proof.
  intros HB HG HN HS HF.
  apply (NodesCalling_after_redirect w _ bp bp' sf F); try done.
  - unfold MarkBlueprintAsModified. cbn [with_Blueprints GraphStore].
    destruct (ApplyRedirects_frame F (NodesCalling w bp sf) w0) as (_ & -> & _).
    done.
  - intros n. unfold MarkBlueprintAsModified. cbn [with_Blueprints NodeStore].
    by rewrite ApplyRedirects_lookup, HN.
Qed.

Lemma Monolithic_redirect_resolved h p w path sf ptr bp C F :
  TryGetStringField p "source_blueprint" = Some path →
  TryGetStringField p "source_function" = Some sf →
  ResolveBlueprint h w path = Some (ptr, bp) →
  ResolvedTarget h p = Some (C, F) →
  Monolithic.HandleRedirectFunctionCall h p w
  = RedirectResolved h MakeJsonObject
      (default true (TryGetBoolField p "dry_run"))
      (default true (TryGetBoolField p "backup")) ptr bp sf C F w.
Proof.
  intros E1 E2 E3. unfold Monolithic.HandleRedirectFunctionCall, ResolvedTarget.
  rewrite E1, E2, E3.
  destruct (TryGetStringField p "target_class") as [tc|]; [|done].
  destruct (TryGetStringField p "target_function") as [tf|]; [|done].
  cbn [mbind option_bind].
  destruct (or_else (FindClass h tc) (LoadClass h tc)) as [C'|]; [|done].
  cbn [mbind option_bind].
  destruct (FindFunctionByName h C' tf) as [F'|]; [|done].
  by intros [= -> ->].
Qed.

Lemma Command_redirect_resolved h p w path sf ptr bp C F :
  TryGetStringField p "source_blueprint" = Some path →
  TryGetStringField p "source_function" = Some sf →
  DiscoverBlueprint h w path = Some (ptr, bp) →
  ResolvedTarget h p = Some (C, F) →
  FRedirectFunctionCallCommand.Execute h (Some p) w
  = RedirectResolved h (MakeJsonObject |> SetBoolField "success" true)
      (default true (TryGetBoolField p "dry_run"))
      (default true (TryGetBoolField p "backup")) ptr bp sf C F w.
Proof.
  intros E1 E2 E3. unfold FRedirectFunctionCallCommand.Execute, ResolvedTarget.
  rewrite E1, E2, E3.
  destruct (TryGetStringField p "target_class") as [tc|]; [|done].
  destruct (TryGetStringField p "target_function") as [tf|]; [|done].
  cbn [mbind option_bind].
  destruct (or_else (FindClass h tc) (LoadClass h tc)) as [C'|]; [|done].
  cbn [mbind option_bind].
  destruct (FindFunctionByName h C' tf) as [F'|]; [|done].
  by intros [= -> ->].
Qed.

Lemma RedirectResolved_rediscovery h o dry bk ptr bp sf C F w h2 o2 dry2 bk2 bp' C2 F2 :
  GetField "nodes_redirected" o = None →
  HasField "nodes_redirected" (RedirectResolved h o dry bk ptr bp sf C F w).1 = true →
  FString_eqb (FunctionName F) sf = false →
  SameGraphs bp' bp →
  GetField "nodes_found"
    (RedirectResolved h2 o2 dry2 bk2 ptr bp' sf C2 F2
       (RedirectResolved h o dry bk ptr bp sf C F w).2).1
  = Some (JNumber 0)
  ∧ BlueprintsRetouched (RedirectResolved h o dry bk ptr bp sf C F w).2 w.
Proof.
  intros Ho Hred HF HS. unfold HasField in Hred.
  rewrite RedirectResolved_nodes_redirected in Hred by done.
  destruct (RedirectResolved_world h o dry bk ptr bp sf C F w)
    as [[Hc _]|(Hc & w0 & HB & HG & HN & ->)].
  { by rewrite Hc in Hred. }
  split; [|by apply BlueprintsRetouched_redirect].
  rewrite RedirectResolved_nodes_found.
  by rewrite (NodesCalling_redirected F w w0 ptr bp bp' sf).
Qed.

(** C4, amended. After a redirect that was applied, a later request for the
    same subject and source_function, whatever resolvable target it names,
    finds no call of source_function, provided the function the applied
    redirect resolved its target to is not itself named source_function. *)
Theorem rediscovery_after_redirect_finds_nothing h p w C F sf stamp text :
  ResolvedTarget h p = Some (C, F) →
  TryGetStringField p "source_function" = Some sf →
  FString_eqb (FunctionName F) sf = false →
  (HasField "nodes_redirected" (Monolithic.HandleRedirectFunctionCall h p w).1 = true →
   ∀ p2, TryGetStringField p2 "source_blueprint" = TryGetStringField p "source_blueprint" →
         TryGetStringField p2 "source_function" = Some sf →
         is_Some (ResolvedTarget h p2) →
     GetField "nodes_found"
       (Monolithic.HandleRedirectFunctionCall (AtTime stamp text h) p2
          (Monolithic.HandleRedirectFunctionCall h p w).2).1 = Some (JNumber 0))
  ∧ (HasField "nodes_redirected" (FRedirectFunctionCallCommand.Execute h (Some p) w).1 = true →
     ∀ p2, TryGetStringField p2 "source_blueprint" = TryGetStringField p "source_blueprint" →
           TryGetStringField p2 "source_function" = Some sf →
           is_Some (ResolvedTarget h p2) →
       GetField "nodes_found"
         (FRedirectFunctionCallCommand.Execute (AtTime stamp text h) (Some p2)
            (FRedirectFunctionCallCommand.Execute h (Some p) w).2).1 = Some (JNumber 0)).
Proof.
  intros HT Hsf HF. split; intros Hred p2 Hp2 Hsf2 [[C2 F2] HT2].
  - destruct (Monolithic_redirect_cases h p w)
      as [[msg E]|(path & sf' & ptr & bp & C' & F' & E1 & E2 & E3 & E4 & E)];
      rewrite E in Hred |- *; [done|].
    rewrite E2 in Hsf. injection Hsf as ->. rewrite E4 in HT. injection HT as -> ->.
    destruct (RedirectResolved_rediscovery h MakeJsonObject
                (default true (TryGetBoolField p "dry_run"))
                (default true (TryGetBoolField p "backup")) ptr bp sf C F w
                (AtTime stamp text h) MakeJsonObject
                (default true (TryGetBoolField p2 "dry_run"))
                (default true (TryGetBoolField p2 "backup")) bp C2 F2
                eq_refl Hred HF eq_refl)
      as [_ HR].
    destruct (ResolveBlueprint_after h w _ path ptr bp HR E3) as (bp' & E3' & HS).
    rewrite (Monolithic_redirect_resolved (AtTime stamp text h) p2 _ path sf ptr bp' C2 F2);
      [|by rewrite Hp2|done|exact E3'|exact HT2].
    by apply RedirectResolved_rediscovery.
  - destruct (Command_redirect_cases h (Some p) w)
      as [[msg E]|(q & path & sf' & ptr & bp & C' & F' & [= <-] & E1 & E2 & E3 & E4 & E)];
      rewrite E in Hred |- *; [done|].
    rewrite E2 in Hsf. injection Hsf as ->. rewrite E4 in HT. injection HT as -> ->.
    destruct (RedirectResolved_rediscovery h (MakeJsonObject |> SetBoolField "success" true)
                (default true (TryGetBoolField p "dry_run"))
                (default true (TryGetBoolField p "backup")) ptr bp sf C F w
                (AtTime stamp text h) MakeJsonObject
                (default true (TryGetBoolField p2 "dry_run"))
                (default true (TryGetBoolField p2 "backup")) bp C2 F2
                eq_refl Hred HF eq_refl)
      as [_ HR].
    destruct (DiscoverBlueprint_after h w _ path ptr bp HR E3) as (bp' & E3' & HS).
    rewrite (Command_redirect_resolved (AtTime stamp text h) p2 _ path sf ptr bp' C2 F2);
      [|by rewrite Hp2|done|exact E3'|exact HT2].
    by apply RedirectResolved_rediscovery.
Qed.

Lemma rediscovery_after_redirect_finds_nothing_witness :
  let h := Sample.host true in
  let p := Sample.redirect_request "NewFunc" false in
  let later := AtTime "20240101_120500" "2024.01.01-12.05.00" h in
  GetField "nodes_redirected" (Monolithic.HandleRedirectFunctionCall h p Sample.world).1
    = Some (JNumber 2)
  ∧ GetField "nodes_found"
      (Monolithic.HandleRedirectFunctionCall later (Sample.redirect_request "OldFunc" true)
         (Monolithic.HandleRedirectFunctionCall h p Sample.world).2).1 = Some (JNumber 0).
Proof.
  cbv zeta. split; [vm_compute; reflexivity|].
  apply (proj1 (rediscovery_after_redirect_finds_nothing (Sample.host true)
           (Sample.redirect_request "NewFunc" false) Sample.world
           Sample.NewClass Sample.NewFunc "OldFunc"
           "20240101_120500" "2024.01.01-12.05.00" eq_refl eq_refl eq_refl)).
  - vm_compute. reflexivity.
  - reflexivity.
  - reflexivity.
  - eexists. vm_compute. reflexivity.
Defined.

(** C4 as stated fails: redirecting the calls of [OldFunc] to the function of
    the same name in [NewClass] succeeds for both nodes, and the next
    discovery of [OldFunc] finds both again. *)
Lemma rediscovery_finds_renamed_target :
  let h := Sample.host true in
  let '(resp, w') :=
    Monolithic.HandleRedirectFunctionCall h (Sample.redirect_request "OldFunc" false)
      Sample.world in
  GetField "nodes_found" resp = Some (JNumber 2)
  ∧ GetField "nodes_redirected" resp = Some (JNumber 2)
  ∧ GetField "nodes_found"
      (Monolithic.HandleRedirectFunctionCall h (Sample.redirect_request "OldFunc" true) w').1
    = Some (JNumber 2).
Proof. vm_compute. done. Qed.

(** ** Backup write failures *)

Lemma GetField_SetField k k' v o :
  GetField k (SetField k' v o) = if String.eqb k' k then Some v else GetField k o.
Proof.
  destruct (String.eqb k' k) eqn:E.
  - apply String.eqb_eq in E. subst k'. apply GetField_SetField_eq.
  - by apply GetField_SetField_ne.
Qed.

Lemma WriteJsonToTempFile_spec h name json w :
  let r := WriteJsonToTempFile h name json w in
  SameObjects r.2 w
  ∧ (r.1 = EmptyString ∧ Files r.2 = Files w
     ∨ IsEmpty r.1 = false ∧ Files r.2 = (r.1, json) :: Files w).
Proof.
  unfold WriteJsonToTempFile, GetExportDirectory, SameObjects. cbv zeta.
  destruct (SaveStringToFile h _); cbn [fst snd Blueprints GraphStore NodeStore Files];
    (split; [done|]); [right | by left].
  split; [|done]. apply PathCombine_not_empty_l, PathCombine_not_empty_r. reflexivity.
Qed.

Lemma SameObjects_refl w : SameObjects w w.
Proof. done. Qed.

Lemma SameObjects_trans w1 w2 w3 :
  SameObjects w1 w2 → SameObjects w2 w3 → SameObjects w1 w3.
Proof. unfold SameObjects. intros (-> & -> & ->) (-> & -> & ->). done. Qed.

Lemma SameObjects_sym w1 w2 : SameObjects w1 w2 → SameObjects w2 w1.
Proof. unfold SameObjects. intros (-> & -> & ->). done. Qed.

(** ** Deleting a function graph: not found, and the backup *)

Lemma FindGraphByName_None w graphs name :
  (∀ g G, g ∈ graphs → GraphStore w !! g = Some G →
          FString_eqb (GraphName G) name = false) →
  FindGraphByName w graphs name = None.
Proof.
  induction graphs as [|g graphs IH]; intros H; [done|].
  cbn [FindGraphByName].
  destruct (GraphStore w !! g) as [G|] eqn:E.
  - rewrite (H g G) by (done || constructor).
    apply IH. intros g' G' Hg'. apply H. by constructor.
  - apply IH. intros g' G' Hg'. apply H. by constructor.
Qed.

Lemma FindGraphToDelete_None w bp name :
  (∀ g G, g ∈ GetAllGraphs bp → GraphStore w !! g = Some G →
          FString_eqb (GraphName G) name = false) →
  FindGraphToDelete w bp name = None.
Proof.
  intros H. unfold FindGraphToDelete.
  rewrite (FindGraphByName_None w (GetAllGraphs bp)) by done.
  cbn [or_else]. apply FindGraphByName_None.
  intros g G Hg. apply H. unfold GetAllGraphs. apply elem_of_app. by left.
Qed.

(** C8. When no graph of the subject is named function_name, delete_function
    answers with the failure "Function graph not found" and returns the world
    as it was: no graph is removed, nothing is marked modified and no file is
    written. *)
Theorem delete_unknown_function_is_not_found h w p path name ptr bp :
  TryGetStringField p "blueprint_path" = Some path →
  TryGetStringField p "function_name" = Some name →
  (∀ g G, g ∈ GetAllGraphs bp → GraphStore w !! g = Some G →
          FString_eqb (GraphName G) name = false) →
  (ResolveBlueprint h w path = Some (ptr, bp) →
   Monolithic.HandleDeleteBlueprintFunction h p w
   = ([("success", JBoolean false);
       ("error", JString ("Function graph not found: " +:+ name))], w))
  ∧ (DiscoverBlueprint h w path = Some (ptr, bp) →
     FDeleteBlueprintFunctionCommand.Execute h (Some p) w
     = ([("success", JBoolean false);
         ("error", JString ("Function graph not found: " +:+ name))], w)).
Proof.
  intros E1 E2 Hno. split; intros E3.
  - unfold Monolithic.HandleDeleteBlueprintFunction.
    by rewrite E1, E2, E3, (FindGraphToDelete_None w bp name Hno).
  - unfold FDeleteBlueprintFunctionCommand.Execute.
    by rewrite E1, E2, E3, (FindGraphToDelete_None w bp name Hno).
Qed.

Lemma delete_unknown_function_is_not_found_witness :
  let h := Sample.host true in
  let deleted :=
    (FDeleteBlueprintFunctionCommand.Execute h (Some (Sample.delete_request "DoWork"))
       Sample.world).2 in
  Monolithic.HandleDeleteBlueprintFunction h (Sample.delete_request "Missing") Sample.world
  = ([("success", JBoolean false);
      ("error", JString "Function graph not found: Missing")], Sample.world)
  ∧ FDeleteBlueprintFunctionCommand.Execute h (Some (Sample.delete_request "DoWork")) deleted
    = ([("success", JBoolean false);
        ("error", JString "Function graph not found: DoWork")], deleted).
Proof.
  cbv zeta. split.
  - apply (proj1 (delete_unknown_function_is_not_found (Sample.host true) Sample.world
             (Sample.delete_request "Missing") "/Game/BP_Hero.BP_Hero" "Missing"
             100%positive Sample.BP_Hero eq_refl eq_refl
             ltac:(intros g G Hg; apply list_elem_of_In in Hg; vm_compute in Hg;
                   destruct Hg as [<-|[<-|[]]]; vm_compute; intros [= <-]; reflexivity))).
    reflexivity.
  - set (deleted := (FDeleteBlueprintFunctionCommand.Execute (Sample.host true)
                       (Some (Sample.delete_request "DoWork")) Sample.world).2).
    assert (∃ bp, DiscoverBlueprint (Sample.host true) deleted "/Game/BP_Hero.BP_Hero"
                  = Some (100%positive, bp)
                  ∧ GetAllGraphs bp = [11%positive]) as (bp & Hbp & Hg).
    { eexists. split; vm_compute; reflexivity. }
    apply (proj2 (delete_unknown_function_is_not_found (Sample.host true) deleted
             (Sample.delete_request "DoWork") "/Game/BP_Hero.BP_Hero" "DoWork"
             100%positive bp eq_refl eq_refl
             ltac:(rewrite Hg; intros g G Hg'; apply list_elem_of_In in Hg';
                   destruct Hg' as [<-|[]]; vm_compute; intros [= <-]; reflexivity))).
    exact Hbp.
Defined.

Lemma Backup_SerializePin_restrict p b :
  FDeleteBlueprintFunctionCommand.SerializePin (Some p) b
  = RestrictFields BackupPinFields <$> Monolithic.SerializePin (Some p) b.
Proof.
  destruct p as [name d [cat sub arr ref cst] dv dobj dt L].
  unfold FDeleteBlueprintFunctionCommand.SerializePin, Monolithic.SerializePin.
  cbn [PinName Direction PinType DefaultValue DefaultObject DefaultTextValue LinkedTo
       PinCategory PinSubCategoryObject IsArray bIsReference bIsConst].
  destruct sub, dobj, (IsEmpty dv), (IsEmpty dt), b, L as [|l L]; reflexivity.
Qed.

Lemma Backup_SerializePin_direction p b o d :
  FDeleteBlueprintFunctionCommand.SerializePin (Some p) b = Some o →
  HasDirection (DirectionName d) o = bool_decide (Direction p = d).
Proof.
  destruct p as [name d' [cat sub arr ref cst] dv dobj dt L].
  unfold FDeleteBlueprintFunctionCommand.SerializePin.
  cbn [PinName Direction PinType DefaultValue DefaultObject DefaultTextValue LinkedTo
       PinCategory PinSubCategoryObject IsArray bIsReference bIsConst].
  intros [= <-].
  destruct sub, (IsEmpty dv), b, L as [|l L], d, d'; reflexivity.
Qed.

Lemma Backup_pins_agree d (pins : list (option UEdGraphPin)) :
  map (RestrictFields BackupPinFields) (map AsObject (PinDocs d pins))
  = List.filter (HasDirection (DirectionName d))
      (map AsObject
         (omap (fun Pin : option UEdGraphPin =>
                  p ← Pin;
                  PinJson ← FDeleteBlueprintFunctionCommand.SerializePin (Some p) true;
                  Some (JObject PinJson)) pins)).
Proof.
  unfold PinDocs. induction pins as [|[p|] pins IH]; [done| |exact IH].
  rewrite !list_omap_cons. cbn [id mbind option_bind].
  rewrite Backup_SerializePin_restrict.
  destruct (SerializePin_Some p true) as [o E]. rewrite E.
  cbn [fmap option_fmap option_map mbind option_bind map AsObject List.filter].
  rewrite (Backup_SerializePin_direction p true (RestrictFields BackupPinFields o) d)
    by (by rewrite Backup_SerializePin_restrict, E).
  destruct (decide (Direction p = d)) as [Hd|Hd].
  - rewrite filter_cons_True by done. rewrite bool_decide_true by done.
    rewrite list_omap_cons, E. cbn [fmap option_fmap option_map map AsObject].
    by rewrite IH.
  - rewrite filter_cons_False by done. rewrite bool_decide_false by done. exact IH.
Qed.

Lemma Backup_node_agrees n :
  ∃ full backup,
    Monolithic.SerializeNode (Some n) = Some full
    ∧ FDeleteBlueprintFunctionCommand.SerializeNode (Some n) = Some backup
    ∧ BackupNodeAgrees full backup.
Proof.
  unfold Monolithic.SerializeNode, Monolithic.SerializePins,
    FDeleteBlueprintFunctionCommand.SerializeNode.
  rewrite SerializePins_acc. cbn [app].
  eexists _, _. split; [reflexivity|]. split; [reflexivity|].
  unfold BackupNodeAgrees, DocObjects, GetArrayField. unfold_setters. split_and!.
  - destruct (NodeKind n) as [[[? [?|] ?]|] ?|? [?|]|?|?|?| | | |[?|]|]; reflexivity.
  - rewrite (GetField_SetField_ne "input_pins" "output_pins") by reflexivity.
    rewrite !GetField_SetField_eq. apply (Backup_pins_agree EGPD_Input).
  - rewrite !GetField_SetField_eq. apply (Backup_pins_agree EGPD_Output).
Qed.

(** What the backup of the delete command does keep of the full document: the
    graph's name, class and node count, the nodes in the same order with
    their guid, class, title and position, and of each pin its name,
    direction, category, subcategory, default value and connections. *)
Theorem delete_backup_keeps_part_of_full_document w G b :
  ∃ full backup,
    Monolithic.SerializeGraph w (Some G) b = Some full
    ∧ FDeleteBlueprintFunctionCommand.SerializeGraph w (Some G) b = Some backup
    ∧ RestrictFields BackupGraphFields full = RestrictFields BackupGraphFields backup
    ∧ Forall2 BackupNodeAgrees (DocObjects "nodes" full) (DocObjects "nodes" backup).
Proof.
  eexists _, _. split; [reflexivity|]. split; [reflexivity|]. split; [reflexivity|].
  unfold DocObjects, GetArrayField. unfold_setters. rewrite !GetField_SetField_eq.
  induction (Nodes G) as [|a nodes IH]; [constructor|].
  rewrite !list_omap_cons.
  destruct (NodeStore w !! a) as [n|]; [|exact IH].
  destruct (Backup_node_agrees n) as (full & backup & -> & -> & H).
  cbn [mbind option_bind map AsObject]. by constructor.
Qed.

(** C7. The delete command's serializer does not produce the document of the
    dispatcher's serializer: on the sample graph [DoWork] the two differ, and
    the backup of the node calling [OldFunc] has lost the function name and
    the comment that the full document holds. *)
Lemma delete_backup_differs_from_full_document :
  let full := Monolithic.SerializeGraph Sample.world (Some Sample.DoWork) true in
  let backup :=
    FDeleteBlueprintFunctionCommand.SerializeGraph Sample.world (Some Sample.DoWork) true in
  backup ≠ full
  ∧ ∃ fullNode backupNode,
      (full ≫= fun doc => DocObjects "nodes" doc !! 1%nat) = Some fullNode
      ∧ (backup ≫= fun doc => DocObjects "nodes" doc !! 1%nat) = Some backupNode
      ∧ GetField "guid" fullNode = Some (JString "G2")
      ∧ GetField "guid" backupNode = Some (JString "G2")
      ∧ GetField "function_name" fullNode = Some (JString "OldFunc")
      ∧ GetField "function_name" backupNode = None
      ∧ GetField "comment" fullNode = Some (JString "to migrate")
      ∧ GetField "comment" backupNode = None.
Proof.
  cbv zeta. split.
  - vm_compute. intros H. discriminate H.
  - eexists _, _. vm_compute. split_and!; reflexivity.
Qed.

(** ** The response envelope *)

Lemma ConformsToEnvelope_error msg : ConformsToEnvelope (CreateErrorResponse msg).
Proof. right. by exists msg. Qed.

Lemma RedirectResolved_envelope h dry bk ptr bp sf C F w :
  ConformsToEnvelope
    (RedirectResolved h (MakeJsonObject |> SetBoolField "success" true)
       dry bk ptr bp sf C F w).1.
Proof.
  left. unfold RedirectResolved.
  destruct (FindNodesToRedirect w bp sf C F) as [l ch].
  destruct (Z.of_nat (length l) =? 0); [done|]. destruct dry; [done|].
  destruct bk;
    repeat match goal with
           | |- context [WriteJsonToTempFile ?a ?b ?c ?d] =>
               destruct (WriteJsonToTempFile a b c d)
           | |- context [ApplyRedirects ?a ?b ?c] => destruct (ApplyRedirects a b c)
           end; done.
Qed.

Lemma DeleteFound_envelope Ser h bk ptr bp name g G w :
  ConformsToEnvelope (DeleteFound Ser h bk ptr bp name g G w).1.
Proof.
  left. unfold DeleteFound.
  destruct bk;
    repeat match goal with
           | |- context [WriteJsonToTempFile ?a ?b ?c ?d] =>
               destruct (WriteJsonToTempFile a b c d) as [path ?]
           end; cbn [fst]; try done.
  by destruct (IsEmpty path).
Qed.

Lemma ReparentResolved_envelope h bk ptr bp c w :
  ConformsToEnvelope (ReparentResolved h bk ptr bp c w).1.
Proof.
  left. unfold ReparentResolved.
  destruct bk;
    repeat match goal with
           | |- context [WriteJsonToTempFile ?a ?b ?c ?d] =>
               destruct (WriteJsonToTempFile a b c d) as [path ?]
           end; cbn [fst]; try done.
  by destruct (IsEmpty path).
Qed.

Ltac envelope_cases :=
  repeat match goal with
         | |- context [match ?x with Some _ => _ | None => _ end] =>
             destruct x as [?|]; [|apply ConformsToEnvelope_error]
         | |- context [let (_, _) := ?x in _] => destruct x
         end.

(** The per-operation commands keep the envelope. *)
Lemma commands_conform_to_envelope h p w :
  ConformsToEnvelope (FGetBlueprintDependenciesCommand.Execute h p w).1
  ∧ ConformsToEnvelope (FRedirectFunctionCallCommand.Execute h p w).1
  ∧ ConformsToEnvelope (FDeleteBlueprintFunctionCommand.Execute h p w).1
  ∧ ConformsToEnvelope (FSetBlueprintParentClassCommand.Execute h p w).1.
Proof.
  split_and!.
  - unfold FGetBlueprintDependenciesCommand.Execute. envelope_cases. by left.
  - unfold FRedirectFunctionCallCommand.Execute. envelope_cases.
    apply RedirectResolved_envelope.
  - unfold FDeleteBlueprintFunctionCommand.Execute. envelope_cases.
    apply DeleteFound_envelope.
  - unfold FSetBlueprintParentClassCommand.Execute. envelope_cases.
    apply ReparentResolved_envelope.
Qed.

(** C9. The dispatcher's successful get_dependencies and redirect responses
    carry no [success] field, where the commands set it on the same
    requests. *)
Lemma monolithic_responses_lack_success :
  let h := Sample.host true in
  let dependencies :=
    (Monolithic.HandleGetBlueprintDependencies h Sample.dependencies_request
       Sample.world).1 in
  let redirect :=
    (Monolithic.HandleRedirectFunctionCall h (Sample.redirect_request "NewFunc" false)
       Sample.world).1 in
  HasField "success" dependencies = false
  ∧ HasField "error" dependencies = false
  ∧ GetStringArray "blueprints" dependencies = ["/Game/BP_Base"]
  ∧ HasField "success" redirect = false
  ∧ GetField "nodes_redirected" redirect = Some (JNumber 2)
  ∧ GetField "success"
      (FGetBlueprintDependenciesCommand.Execute h (Some Sample.dependencies_request)
         Sample.world).1 = Some (JBoolean true)
  ∧ GetField "success"
      (FRedirectFunctionCallCommand.Execute h
         (Some (Sample.redirect_request "NewFunc" false)) Sample.world).1
    = Some (JBoolean true).
Proof. vm_compute. done. Qed.

(** * Further properties of the handlers *)

(** ** The dispatcher and the registration *)

(** X1. [HandleCommand] matches the command type ignoring case: a spelling
    [c'] of a known command [c] is handled as [c] is, and a spelling of an
    unknown one is answered by the error naming it, the world left as it
    was. *)
Theorem HandleCommand_ignores_case e c c' p w :
  FString_eqb c' c = true →
  if KnownCommand c
  then FUnrealMCPBlueprintMigrationCommands.HandleCommand e c' p w
       = FUnrealMCPBlueprintMigrationCommands.HandleCommand e c p w
  else FUnrealMCPBlueprintMigrationCommands.HandleCommand e c' p w
       = (CommonUtils_CreateErrorResponse ("Unknown migration command: " +:+ c'), w).
Proof.
  intros Hc. unfold KnownCommand, MigrationCommandNames.
  unfold FUnrealMCPBlueprintMigrationCommands.HandleCommand.
  rewrite !(FString_eqb_congr c' c) by done. cbn [existsb].
  repeat (destruct (FString_eqb c _); [reflexivity|]). reflexivity.
Qed.

Lemma HandleCommand_ignores_case_witness :
  FString_eqb "Export_Blueprint_GRAPH" "export_blueprint_graph" = true
  ∧ FUnrealMCPBlueprintMigrationCommands.HandleCommand (Project.editor true)
      "Export_Blueprint_GRAPH" (Project.export_request "") Project.world
    = FUnrealMCPBlueprintMigrationCommands.HandleCommand (Project.editor true)
        "export_blueprint_graph" (Project.export_request "") Project.world.
Proof.
  split; [reflexivity|].
  exact (HandleCommand_ignores_case (Project.editor true) "export_blueprint_graph"
           "Export_Blueprint_GRAPH" (Project.export_request "") Project.world eq_refl).
Defined.

Lemma RegisterAndTrackCommand_names {R} (Registry : FUnrealMCPCommandRegistry R) c s :
  let s' := FMigrationCommandRegistration.RegisterAndTrackCommand Registry c s in
  s'.1 = s.1 ∨ s'.1 = s.1 ++ [GetCommandName c].
Proof.
  destruct s as [names r]. unfold FMigrationCommandRegistration.RegisterAndTrackCommand.
  destruct (IsEmpty (GetCommandName c)); [by left|].
  destruct (RegisterCommand Registry r c) as [[] r']; [by right | by left].
Qed.

Lemma RegisterAndTrackCommand_accepted {R} (Registry : FUnrealMCPCommandRegistry R) c s :
  (∀ r c, (RegisterCommand Registry r c).1 = true) →
  (FMigrationCommandRegistration.RegisterAndTrackCommand Registry c s).1
  = s.1 ++ [GetCommandName c].
Proof.
  intros Hall. destruct s as [names r].
  unfold FMigrationCommandRegistration.RegisterAndTrackCommand.
  destruct c; cbn [GetCommandName IsEmpty];
    (specialize (Hall r); match goal with |- context [RegisterCommand Registry r ?c] =>
       specialize (Hall c); destruct (RegisterCommand Registry r c) as [b r'];
       cbn in Hall; by subst b end).
Qed.

Lemma RegisterAndTrackCommands_names {R} (Registry : FUnrealMCPCommandRegistry R) cs s :
  ∃ l, (fold_left (fun s c => FMigrationCommandRegistration.RegisterAndTrackCommand Registry c s)
          cs s).1 = s.1 ++ l
       ∧ sublist l (map GetCommandName cs).
Proof.
  revert s. induction cs as [|c cs IH]; intros s.
  - exists []. split; [by rewrite app_nil_r | constructor].
  - cbn [fold_left map].
    destruct (IH (FMigrationCommandRegistration.RegisterAndTrackCommand Registry c s))
      as (l & -> & Hl).
    destruct (RegisterAndTrackCommand_names Registry c s) as [->| ->].
    + exists l. split; [done | by apply sublist_cons].
    + exists (GetCommandName c :: l). split; [by rewrite <- app_assoc | by apply sublist_skip].
Qed.

(** X2. Whatever was tracked before and whatever the registry answers,
    [RegisterAllMigrationCommands] leaves in [RegisteredCommandNames] a
    selection of the seven command names, each at most once and in the order
    of registration, and every name it tracks is a command the dispatcher
    knows; when the registry accepts every command, all seven are tracked. *)
Theorem registered_names_are_migration_commands {R}
  (Registry : FUnrealMCPCommandRegistry R) (s : list string * R) :
  let s' := FMigrationCommandRegistration.RegisterAllMigrationCommands Registry s in
  sublist s'.1 MigrationCommandNames
  ∧ NoDup s'.1
  ∧ (∀ name, name ∈ s'.1 → KnownCommand name = true)
  ∧ ((∀ r c, (RegisterCommand Registry r c).1 = true) → s'.1 = MigrationCommandNames).
Proof.
  destruct s as [names r]. cbv zeta.
  assert (Hsub : sublist
            (FMigrationCommandRegistration.RegisterAllMigrationCommands Registry (names, r)).1
            MigrationCommandNames).
  { destruct (RegisterAndTrackCommands_names Registry
                [ExportBlueprintGraphCommand; GetBlueprintDependenciesCommand;
                 FindBlueprintReferencesCommand; RedirectFunctionCallCommand;
                 DeleteBlueprintFunctionCommand; SetBlueprintParentClassCommand;
                 GetBlueprintFunctionsCommand] ([], r)) as (l & Hl & Hsub).
    unfold FMigrationCommandRegistration.RegisterAllMigrationCommands.
    cbn [fold_left] in Hl. rewrite Hl. exact Hsub. }
  split_and!.
  - exact Hsub.
  - refine (sublist_NoDup _ _ _ Hsub). unfold MigrationCommandNames.
    apply NoDup_ListNoDup. repeat constructor; cbn; intuition discriminate.
  - intros name Hin. apply (elem_of_sublist _ _ _ Hin) in Hsub.
    unfold KnownCommand. apply existsb_exists. exists name.
    split; [by apply list_elem_of_In | apply FString_eqb_refl].
  - intros Hall. unfold FMigrationCommandRegistration.RegisterAllMigrationCommands.
    rewrite !RegisterAndTrackCommand_accepted by done. reflexivity.
Qed.

Lemma registered_names_are_migration_commands_witness :
  (FMigrationCommandRegistration.RegisterAllMigrationCommands
     {| RegisterCommand := fun (r : nat) _ => (true, S r);
        UnregisterCommand := fun r _ => (true, r) |}
     (["stale_name"], O)).1 = MigrationCommandNames.
Proof.
  apply (registered_names_are_migration_commands
           {| RegisterCommand := fun (r : nat) _ => (true, S r);
              UnregisterCommand := fun r _ => (true, r) |} (["stale_name"], O)).
  reflexivity.
Defined.

(** ** Export file names *)

Lemma forallb_below (f : Z → bool) (n : Z) :
  forallb f (map Z.of_nat (seq 0 (Z.to_nat n))) = true →
  ∀ z, 0 <= z < n → f z = true.
Proof.
  intros H z Hz. rewrite forallb_forall in H. apply H.
  apply in_map_iff. exists (Z.to_nat z). split; [lia|].
  apply in_seq. lia.
Qed.

Lemma Printf_0d_4 z :
  0 <= z <= 9999 →
  String.length (Printf_0d 4 z) = 4%nat ∧ ReadNumeral (Printf_0d 4 z) = z.
Proof.
  intros Hz.
  assert (H : (Nat.eqb (String.length (Printf_0d 4 z)) 4
               && Z.eqb (ReadNumeral (Printf_0d 4 z)) z) = true).
  { apply (forallb_below
             (fun z => Nat.eqb (String.length (Printf_0d 4 z)) 4
                       && Z.eqb (ReadNumeral (Printf_0d 4 z)) z) 10000);
      [vm_compute; reflexivity | lia]. }
  apply andb_prop in H as [H1 H2].
  split; [by apply Nat.eqb_eq | by apply Z.eqb_eq].
Qed.

Lemma Printf_0d_2 z :
  0 <= z <= 99 →
  String.length (Printf_0d 2 z) = 2%nat ∧ ReadNumeral (Printf_0d 2 z) = z.
Proof.
  intros Hz.
  assert (H : (Nat.eqb (String.length (Printf_0d 2 z)) 2
               && Z.eqb (ReadNumeral (Printf_0d 2 z)) z) = true).
  { apply (forallb_below
             (fun z => Nat.eqb (String.length (Printf_0d 2 z)) 2
                       && Z.eqb (ReadNumeral (Printf_0d 2 z)) z) 100);
      [vm_compute; reflexivity | lia]. }
  apply andb_prop in H as [H1 H2].
  split; [by apply Nat.eqb_eq | by apply Z.eqb_eq].
Qed.

Lemma append_length a b : String.length (a +:+ b) = (String.length a + String.length b)%nat.
Proof. induction a as [|c a IH]; simpl; [done | by rewrite IH]. Qed.

Lemma append_inj_length a a' b b' :
  String.length a = String.length a' → a +:+ b = a' +:+ b' → a = a' ∧ b = b'.
Proof.
  revert a'. induction a as [|c a IH]; intros [|c' a'] Hlen Heq; simpl in *; try discriminate.
  - done.
  - injection Heq as -> Heq. destruct (IH a') as [-> ->]; [lia | done | done].
Qed.

Lemma append_inj_length_r a a' b b' :
  String.length b = String.length b' → a +:+ b = a' +:+ b' → a = a' ∧ b = b'.
Proof.
  intros Hlen Heq. apply append_inj_length; [|done].
  apply (f_equal String.length) in Heq. rewrite !append_length in Heq. lia.
Qed.

(** X3. The name of an export file determines the blueprint name and the
    second of the export: two exports get the same file name only when they
    are of blueprints of one name and made within the same second. *)
Theorem GenerateExportFileName_injective t t' n n' :
  FitsExportFileName t → FitsExportFileName t' →
  GenerateExportFileName t n = GenerateExportFileName t' n' →
  n = n' ∧ t = t'.
Proof.
  intros (Hy & Hm & Hd & Hh & Hi & Hs) (Hy' & Hm' & Hd' & Hh' & Hi' & Hs').
  unfold GenerateExportFileName. intros Heq.
  destruct (Printf_0d_4 _ Hy) as [Ly Ry]. destruct (Printf_0d_4 _ Hy') as [Ly' Ry'].
  destruct (Printf_0d_2 _ Hm) as [Lm Rm]. destruct (Printf_0d_2 _ Hm') as [Lm' Rm'].
  destruct (Printf_0d_2 _ Hd) as [Ld Rd]. destruct (Printf_0d_2 _ Hd') as [Ld' Rd'].
  destruct (Printf_0d_2 _ Hh) as [Lh Rh]. destruct (Printf_0d_2 _ Hh') as [Lh' Rh'].
  destruct (Printf_0d_2 _ Hi) as [Li Ri]. destruct (Printf_0d_2 _ Hi') as [Li' Ri'].
  destruct (Printf_0d_2 _ Hs) as [Ls Rs]. destruct (Printf_0d_2 _ Hs') as [Ls' Rs'].
  apply append_inj_length in Heq as [_ Heq]; [|done].
  apply append_inj_length_r in Heq as [Hn Heq];
    [|rewrite !append_length; cbn [String.length]; lia].
  apply append_inj_length in Heq as [_ Heq]; [|done].
  apply append_inj_length in Heq as [Ey Heq]; [|lia].
  apply append_inj_length in Heq as [Em Heq]; [|lia].
  apply append_inj_length in Heq as [Ed Heq]; [|lia].
  apply append_inj_length in Heq as [_ Heq]; [|done].
  apply append_inj_length in Heq as [Eh Heq]; [|lia].
  apply append_inj_length in Heq as [Ei Heq]; [|lia].
  apply append_inj_length in Heq as [Es _]; [|lia].
  split; [done|].
  destruct t, t'; cbn in *. f_equal; congruence.
Qed.

Lemma GenerateExportFileName_injective_witness :
  GenerateExportFileName Project.Noon "BP_Hero" = "export_BP_Hero_20240101_120000.json"
  ∧ ("BP_Hero" = "BP_Hero" ∧ Project.Noon = Project.Noon).
Proof.
  split; [reflexivity|].
  apply (GenerateExportFileName_injective Project.Noon Project.Noon "BP_Hero" "BP_Hero");
    [unfold FitsExportFileName; cbn; lia | unfold FitsExportFileName; cbn; lia | reflexivity].
Defined.

(** ** Export *)

Lemma SerializeGraph_Some w G b :
  ∃ doc, Monolithic.SerializeGraph w (Some G) b = Some doc
         ∧ DocString "name" doc = Some (GraphName G)
         ∧ DocNumber "node_count" doc = Some (Z.of_nat (length (Nodes G))).
Proof. eexists. split; [reflexivity|]. split; reflexivity. Qed.

Lemma SerializeGraph_ignores_flag w G b b' :
  Monolithic.SerializeGraph w G b = Monolithic.SerializeGraph w G b'.
Proof. reflexivity. Qed.

Lemma ExportGraph_step w GN b A T C g :
  ExportGraph Monolithic.SerializeGraph w GN b (A, T, C) g
  = match GraphStore w !! g with
    | Some G =>
        if Exported GN G
        then (A ++ omap (fun G => JObject <$> Monolithic.SerializeGraph w (Some G) b) [G],
              Int32 (T + Z.of_nat (length (Nodes G))), C + 1)
        else (A, T, C)
    | None => (A, T, C)
    end.
Proof.
  unfold ExportGraph, Exported. destruct (GraphStore w !! g) as [G|]; [|done].
  destruct (IsEmpty GN); [done|]. by destruct (Contains (GraphName G) GN).
Qed.

(** The selection and the counters after the loop over the graphs. *)
Lemma ExportGraph_fold w GN b graphs A T C :
  let sel := List.filter (Exported GN) (omap (fun g : addr => GraphStore w !! g) graphs) in
  fold_left (ExportGraph Monolithic.SerializeGraph w GN b) graphs (A, T, C)
  = (A ++ omap (fun G => JObject <$> Monolithic.SerializeGraph w (Some G) b) sel,
     fold_left (fun t G => Int32 (t + Z.of_nat (length (Nodes G)))) sel T,
     C + Z.of_nat (length sel)).
Proof.
  cbv zeta. revert A T C. induction graphs as [|g graphs IH]; intros A T C.
  - cbn. by rewrite app_nil_r, Z.add_0_r.
  - cbn [fold_left]. rewrite list_omap_cons, ExportGraph_step.
    destruct (GraphStore w !! g) as [G|]; [|apply IH].
    cbn [List.filter]. destruct (Exported GN G); [|apply IH].
    rewrite IH. cbn [fold_left length]. rewrite !list_omap_cons.
    cbn [fmap option_fmap option_map Monolithic.SerializeGraph omap list_omap].
    rewrite <- app_assoc. cbn [app]. f_equal. lia.
Qed.

Lemma Int32_id z : -2147483648 <= z <= 2147483647 → Int32 z = z.
Proof. intros Hz. unfold Int32. rewrite Z.mod_small; lia. Qed.

Lemma NodeSlots_nonneg l : 0 <= NodeSlots l.
Proof. induction l as [|G l IH]; cbn; unfold NodeSlots, SumZ in *; cbn; lia. Qed.

Lemma NodeSlots_filter f l : NodeSlots (List.filter f l) <= NodeSlots l.
Proof.
  induction l as [|G l IH]; [done|]. cbn [List.filter].
  pose proof (NodeSlots_nonneg (List.filter f l)).
  destruct (f G); unfold NodeSlots, SumZ in *; cbn; lia.
Qed.

Lemma TotalNodeCount_in_range sel T :
  0 <= T → T + NodeSlots sel <= 2147483647 →
  fold_left (fun t G => Int32 (t + Z.of_nat (length (Nodes G)))) sel T = T + NodeSlots sel.
Proof.
  revert T. induction sel as [|G sel IH]; intros T H0 Hmax.
  - unfold NodeSlots, SumZ. cbn. lia.
  - pose proof (NodeSlots_nonneg sel). cbn [fold_left].
    unfold NodeSlots, SumZ in *. cbn [map foldr] in *.
    rewrite Int32_id by lia. rewrite IH; lia.
Qed.

Lemma DocObjects_SetArrayField k l o : DocObjects k (SetField k (JArray l) o) = map AsObject l.
Proof. unfold DocObjects, GetArrayField. by rewrite GetField_SetField_eq. Qed.

Lemma BuildExportJson_graphs Ser M GN bc bd bp w :
  GetField "graphs" (BuildExportJson Ser M GN bc bd bp w).1.1
  = Some (JArray (fold_left (ExportGraph Ser w GN bd) (GetAllGraphs bp) ([], 0, 0)).1.1).
Proof.
  unfold BuildExportJson.
  destruct (fold_left _ _ _) as [[A T] C]. cbn [fst].
  unfold_setters.
  rewrite GetField_SetField_ne by done.
  destruct (if bc then _ else _); cbn [SetWhen];
    rewrite ?GetField_SetField_ne by done; apply GetField_SetField_eq.
Qed.

Lemma BuildExportJson_counters Ser M GN bc bd bp w :
  (BuildExportJson Ser M GN bc bd bp w).1.2
  = (fold_left (ExportGraph Ser w GN bd) (GetAllGraphs bp) ([], 0, 0)).1.2
  ∧ (BuildExportJson Ser M GN bc bd bp w).2
    = (fold_left (ExportGraph Ser w GN bd) (GetAllGraphs bp) ([], 0, 0)).2.
Proof. unfold BuildExportJson. by destruct (fold_left _ _ _) as [[A T] C]. Qed.

Lemma graph_docs_names w b sel :
  map (DocString "name")
    (map AsObject (omap (fun G => JObject <$> Monolithic.SerializeGraph w (Some G) b) sel))
  = map (fun G => Some (GraphName G)) sel.
Proof. induction sel as [|G sel IH]; [done|]. rewrite list_omap_cons. cbn. by f_equal. Qed.

Lemma graph_docs_node_counts w b sel :
  omap (DocNumber "node_count")
    (map AsObject (omap (fun G => JObject <$> Monolithic.SerializeGraph w (Some G) b) sel))
  = map (fun G => Z.of_nat (length (Nodes G))) sel.
Proof.
  induction sel as [|G sel IH]; [done|].
  change (omap (fun G => JObject <$> Monolithic.SerializeGraph w (Some G) b) (G :: sel))
    with (JObject (default [] (Monolithic.SerializeGraph w (Some G) b))
          :: omap (fun G => JObject <$> Monolithic.SerializeGraph w (Some G) b) sel).
  cbn [map]. rewrite list_omap_cons, IH. reflexivity.
Qed.

Lemma graph_docs_length w b sel :
  length (omap (fun G => JObject <$> Monolithic.SerializeGraph w (Some G) b) sel) = length sel.
Proof. induction sel as [|G sel IH]; [done|]. rewrite list_omap_cons. cbn. by f_equal. Qed.

(** The file and the counters [ExportToFile] yields when the write succeeds. *)
Lemma ExportToFile_written e p ptr bp w :
  SaveStringToFile (Services e) (ExportFilePath e bp) = true →
  let sel := List.filter (Exported (default EmptyString (TryGetStringField p "graph_name")))
               (LiveGraphs w bp) in
  ∃ doc w',
    ExportToFile Monolithic.SerializeGraph e p ptr bp w
    = (ExportFilePath e bp,
       fold_left (fun t G => Int32 (t + Z.of_nat (length (Nodes G)))) sel 0,
       Z.of_nat (length sel), w')
    ∧ Files w' = (ExportFilePath e bp, doc) :: Files w
    ∧ SameObjects w' w
    ∧ DocObjects "graphs" doc
      = map AsObject (omap (fun G => JObject <$> Monolithic.SerializeGraph w (Some G) true) sel).
Proof.
  intros Hsave. cbv zeta. unfold ExportToFile.
  set (GN := default EmptyString (TryGetStringField p "graph_name")).
  set (bc := default true (TryGetBoolField p "include_components")).
  set (bd := default false (TryGetBoolField p "include_defaults")).
  pose proof (BuildExportJson_graphs Monolithic.SerializeGraph (Members e ptr) GN bc bd bp w) as HG.
  pose proof (BuildExportJson_counters Monolithic.SerializeGraph (Members e ptr) GN bc bd bp w)
    as [HT HC].
  destruct (BuildExportJson _ _ _ _ _ _ _) as [[doc T] C]. cbn [fst snd] in *.
  rewrite ExportGraph_fold in HG, HT, HC. cbn [fst snd app] in *.
  unfold WriteJsonToTempFile, GetExportDirectory.
  change (PathCombine (PathCombine (PathCombine (ProjectSavedDir (Services e)) "UnrealMCP") "Exports")
            (GenerateExportFileName (Now e) (BlueprintName bp))) with (ExportFilePath e bp).
  rewrite Hsave. eexists doc, _. split_and!.
  - rewrite HT, HC. reflexivity.
  - reflexivity.
  - done.
  - unfold DocObjects, GetArrayField. rewrite HG. reflexivity.
Qed.

Lemma ExportFilePath_not_empty e bp : IsEmpty (ExportFilePath e bp) = false.
Proof.
  unfold ExportFilePath. apply PathCombine_not_empty_l, PathCombine_not_empty_r. reflexivity.
Qed.

Lemma ExportOutcome_of e p ptr bp w resp :
  SaveStringToFile (Services e) (ExportFilePath e bp) = true →
  NodeSlots (LiveGraphs w bp) <= 2147483647 →
  (∀ path T C, resp path T C
     = ([("success", JBoolean true); ("file_path", JString path);
         ("graph_count", JNumber C); ("node_count", JNumber T)] : FJsonObject)) →
  ExportOutcome e bp w
    (let '(FilePath, T, C, w') := ExportToFile Monolithic.SerializeGraph e p ptr bp w in
     if IsEmpty FilePath then (CreateErrorResponse "Failed to write export file", w')
     else (resp FilePath T C, w')).
Proof.
  intros Hsave Hmax Hresp.
  destruct (ExportToFile_written e p ptr bp w Hsave) as (doc & w' & -> & HF & HS & HD).
  rewrite ExportFilePath_not_empty, Hresp. exists doc. cbn [fst snd].
  split_and!; try done.
  - rewrite HD, length_map, graph_docs_length. reflexivity.
  - rewrite HD, graph_docs_node_counts.
    pose proof (NodeSlots_filter
                  (Exported (default EmptyString (TryGetStringField p "graph_name")))
                  (LiveGraphs w bp)).
    rewrite TotalNodeCount_in_range by lia. reflexivity.
Qed.

(** X4. When the file can be written and the graphs of the blueprint hold no
    more node slots than an [int32] counts, an export succeeds and leaves one
    new file at the path the response names; [graph_count] is the number of
    graphs in that file and [node_count] the sum of their [node_count]
    fields; blueprints, graphs and nodes are as before. *)
Theorem export_counters_describe_the_file e p w path ptr bp :
  TryGetStringField p "blueprint_path" = Some path →
  SaveStringToFile (Services e) (ExportFilePath e bp) = true →
  NodeSlots (LiveGraphs w bp) <= 2147483647 →
  (ResolveBlueprint (Services e) w path = Some (ptr, bp) →
   ExportOutcome e bp w
     (FUnrealMCPBlueprintMigrationCommands.HandleExportBlueprintGraph e p w))
  ∧ (DiscoverBlueprint (Services e) w path = Some (ptr, bp) →
     ExportOutcome e bp w (FExportBlueprintGraphCommand.Execute e (Some p) w)).
Proof.
  intros Hpath Hsave Hmax. split; intros Hbp.
  - unfold FUnrealMCPBlueprintMigrationCommands.HandleExportBlueprintGraph.
    rewrite Hpath, Hbp.
    pose proof (ExportOutcome_of e p ptr bp w
                  (fun path T C => [("success", JBoolean true); ("file_path", JString path);
                     ("graph_count", JNumber C); ("node_count", JNumber T)])
                  Hsave Hmax (fun _ _ _ => eq_refl)) as H.
    destruct (ExportToFile_written e p ptr bp w Hsave) as (doc & w' & E & _).
    rewrite E in H |- *. rewrite ExportFilePath_not_empty in H |- *. exact H.
  - unfold FExportBlueprintGraphCommand.Execute.
    rewrite Hpath, Hbp.
    pose proof (ExportOutcome_of e p ptr bp w
                  (fun path T C => [("success", JBoolean true); ("file_path", JString path);
                     ("graph_count", JNumber C); ("node_count", JNumber T)])
                  Hsave Hmax (fun _ _ _ => eq_refl)) as H.
    destruct (ExportToFile_written e p ptr bp w Hsave) as (doc & w' & E & _).
    unfold FExportBlueprintGraphCommand.SerializeGraph.
    rewrite E in H |- *. rewrite ExportFilePath_not_empty in H |- *. exact H.
Qed.

Lemma export_counters_describe_the_file_witness :
  ExportOutcome (Project.editor true) Sample.BP_Hero Project.world
    (FUnrealMCPBlueprintMigrationCommands.HandleExportBlueprintGraph (Project.editor true)
       (Project.export_request "graph") Project.world).
Proof.
  apply (proj1 (export_counters_describe_the_file (Project.editor true)
                  (Project.export_request "graph") Project.world
                  "/Game/BP_Hero.BP_Hero" 100%positive Sample.BP_Hero
                  eq_refl eq_refl ltac:(vm_compute; discriminate))).
  reflexivity.
Defined.

(** X5. The graphs of an export file are the graphs the blueprint holds
    whose name contains [graph_name], compared ignoring case, in the order of
    [GetAllGraphs]; without [graph_name], or with an empty one, they are all
    the graphs the blueprint holds. *)
Theorem export_selects_graphs_by_name e p w path ptr bp :
  TryGetStringField p "blueprint_path" = Some path →
  SaveStringToFile (Services e) (ExportFilePath e bp) = true →
  let sel := List.filter (Exported (default EmptyString (TryGetStringField p "graph_name")))
               (LiveGraphs w bp) in
  (ResolveBlueprint (Services e) w path = Some (ptr, bp) →
   NewestFileHoldsGraphs sel
     (FUnrealMCPBlueprintMigrationCommands.HandleExportBlueprintGraph e p w).2)
  ∧ (DiscoverBlueprint (Services e) w path = Some (ptr, bp) →
     NewestFileHoldsGraphs sel (FExportBlueprintGraphCommand.Execute e (Some p) w).2).
Proof.
  intros Hpath Hsave. cbv zeta.
  destruct (ExportToFile_written e p ptr bp w Hsave) as (doc & w' & E & HF & _ & HD).
  split; intros Hbp.
  - unfold FUnrealMCPBlueprintMigrationCommands.HandleExportBlueprintGraph.
    rewrite Hpath, Hbp, E, ExportFilePath_not_empty. cbn [snd].
    exists (ExportFilePath e bp), doc, (Files w). split; [done|].
    rewrite HD. apply graph_docs_names.
  - unfold FExportBlueprintGraphCommand.Execute, FExportBlueprintGraphCommand.SerializeGraph.
    rewrite Hpath, Hbp, E, ExportFilePath_not_empty. cbn [snd].
    exists (ExportFilePath e bp), doc, (Files w). split; [done|].
    rewrite HD. apply graph_docs_names.
Qed.

Lemma export_selects_graphs_by_name_witness :
  NewestFileHoldsGraphs [Sample.EventGraph]
    (FExportBlueprintGraphCommand.Execute (Project.editor true)
       (Some (Project.export_request "tGR")) Project.world).2.
Proof.
  apply (proj2 (export_selects_graphs_by_name (Project.editor true)
                  (Project.export_request "tGR") Project.world
                  "/Game/BP_Hero.BP_Hero" 100%positive Sample.BP_Hero eq_refl eq_refl)).
  reflexivity.
Defined.

Lemma ExportToFile_failed Ser e p ptr bp w :
  SaveStringToFile (Services e) (ExportFilePath e bp) = false →
  ∃ T C w',
    ExportToFile Ser e p ptr bp w = (EmptyString, T, C, w')
    ∧ LeavesAtMostTheDirectory (Services e) w w'.
Proof.
  intros Hsave. unfold ExportToFile.
  destruct (BuildExportJson _ _ _ _ _ _ _) as [[doc T] C].
  unfold WriteJsonToTempFile, GetExportDirectory.
  change (PathCombine (PathCombine (PathCombine (ProjectSavedDir (Services e)) "UnrealMCP") "Exports")
            (GenerateExportFileName (Now e) (BlueprintName bp))) with (ExportFilePath e bp).
  rewrite Hsave. by eexists T, C, _.
Qed.

(** X6. When the export file cannot be written, the export fails with
    "Failed to write export file": no file appears and the blueprints, graphs
    and nodes are as before.  All it can leave behind is the export
    directory, whose creation is attempted when it is missing: afterwards the
    directory exists exactly if it existed before or the host could create
    it. *)
Theorem export_write_failure e p w path ptr bp :
  TryGetStringField p "blueprint_path" = Some path →
  SaveStringToFile (Services e) (ExportFilePath e bp) = false →
  (ResolveBlueprint (Services e) w path = Some (ptr, bp) →
   let r := FUnrealMCPBlueprintMigrationCommands.HandleExportBlueprintGraph e p w in
   r.1 = CommonUtils_CreateErrorResponse "Failed to write export file"
   ∧ LeavesAtMostTheDirectory (Services e) w r.2)
  ∧ (DiscoverBlueprint (Services e) w path = Some (ptr, bp) →
     let r := FExportBlueprintGraphCommand.Execute e (Some p) w in
     r.1 = CreateErrorResponse "Failed to write export file"
     ∧ LeavesAtMostTheDirectory (Services e) w r.2).
Proof.
  intros Hpath Hsave. split; intros Hbp; cbv zeta.
  - unfold FUnrealMCPBlueprintMigrationCommands.HandleExportBlueprintGraph.
    rewrite Hpath, Hbp.
    destruct (ExportToFile_failed Monolithic.SerializeGraph e p ptr bp w Hsave)
      as (T & C & w' & -> & HL).
    done.
  - unfold FExportBlueprintGraphCommand.Execute.
    rewrite Hpath, Hbp.
    destruct (ExportToFile_failed FExportBlueprintGraphCommand.SerializeGraph e p ptr bp w Hsave)
      as (T & C & w' & -> & HL).
    done.
Qed.

(** On a host that can neither write the file nor create the directory, the
    failed export leaves no directory; on one that can create the directory
    but not write the file, it leaves the directory. *)
Lemma export_write_failure_witness :
  let r := FExportBlueprintGraphCommand.Execute (Project.editor false)
             (Some (Project.export_request "")) Project.world in
  let r' := FUnrealMCPBlueprintMigrationCommands.HandleExportBlueprintGraph
              Project.read_only_editor (Project.export_request "") Project.world in
  (r.1 = CreateErrorResponse "Failed to write export file"
   ∧ LeavesAtMostTheDirectory (Services (Project.editor false)) Project.world r.2
   ∧ ExportDirExists r.2 = false)
  ∧ (r'.1 = CommonUtils_CreateErrorResponse "Failed to write export file"
     ∧ LeavesAtMostTheDirectory (Services Project.read_only_editor) Project.world r'.2
     ∧ ExportDirExists r'.2 = true).
Proof.
  cbv zeta. split.
  - split_and!; [| |reflexivity];
      apply (proj2 (export_write_failure (Project.editor false) (Project.export_request "")
                      Project.world "/Game/BP_Hero.BP_Hero" 100%positive Sample.BP_Hero
                      eq_refl eq_refl)); reflexivity.
  - split_and!; [| |reflexivity];
      apply (proj1 (export_write_failure Project.read_only_editor (Project.export_request "")
                      Project.world "/Game/BP_Hero.BP_Hero" 100%positive Sample.BP_Hero
                      eq_refl eq_refl)); reflexivity.
Defined.

Lemma fold_left_ext_eq {A B} (f g : A → B → A) l a :
  (∀ a x, f a x = g a x) → fold_left f l a = fold_left g l a.
Proof.
  intros H. revert a. induction l as [|x l IH]; intros a; [done|].
  cbn. by rewrite H, IH.
Qed.

Lemma BuildExportJson_ignores_defaults M GN bc b b' bp w :
  BuildExportJson Monolithic.SerializeGraph M GN bc b bp w
  = BuildExportJson Monolithic.SerializeGraph M GN bc b' bp w.
Proof.
  unfold BuildExportJson.
  by rewrite (fold_left_ext_eq (ExportGraph Monolithic.SerializeGraph w GN b)
                (ExportGraph Monolithic.SerializeGraph w GN b')).
Qed.

(** The export writes the same file for two requests that differ only in
    [include_defaults]. *)
Lemma ExportToFile_ignores_defaults e p p' ptr bp w :
  AgreeOutside [] ["include_defaults"] p p' →
  ExportToFile Monolithic.SerializeGraph e p' ptr bp w
  = ExportToFile Monolithic.SerializeGraph e p ptr bp w.
Proof.
  intros [Hs Hb]. unfold ExportToFile.
  rewrite (Hs "graph_name") by (by intros ?%elem_of_nil).
  rewrite (Hb "include_components")
    by (intros [=]%list_elem_of_singleton).
  by rewrite (BuildExportJson_ignores_defaults _ _ _
                (default false (TryGetBoolField p' "include_defaults"))
                (default false (TryGetBoolField p "include_defaults"))).
Qed.

(** X7. The option [include_defaults] of the export has no effect: two
    requests that differ in it only get the same response and write the same
    file. *)
Theorem export_ignores_include_defaults e p p' w :
  AgreeOutside [] ["include_defaults"] p p' →
  FUnrealMCPBlueprintMigrationCommands.HandleExportBlueprintGraph e p' w
  = FUnrealMCPBlueprintMigrationCommands.HandleExportBlueprintGraph e p w
  ∧ FExportBlueprintGraphCommand.Execute e (Some p') w
    = FExportBlueprintGraphCommand.Execute e (Some p) w.
Proof.
  intros H. pose proof H as [Hs Hb].
  unfold FUnrealMCPBlueprintMigrationCommands.HandleExportBlueprintGraph,
    FExportBlueprintGraphCommand.Execute, FExportBlueprintGraphCommand.SerializeGraph.
  rewrite (Hs "blueprint_path") by (by intros ?%elem_of_nil).
  split.
  - destruct (TryGetStringField p "blueprint_path") as [path|]; [|done].
    destruct (ResolveBlueprint (Services e) w path) as [[ptr bp]|]; [|done].
    by rewrite (ExportToFile_ignores_defaults e p p').
  - destruct (TryGetStringField p "blueprint_path") as [path|]; [|done].
    destruct (DiscoverBlueprint (Services e) w path) as [[ptr bp]|]; [|done].
    by rewrite (ExportToFile_ignores_defaults e p p').
Qed.

Lemma export_ignores_include_defaults_witness :
  let p := Sample.request [("blueprint_path", "/Game/BP_Hero.BP_Hero")]
             [("include_defaults", false); ("include_components", false)] in
  let p' := Sample.request [("blueprint_path", "/Game/BP_Hero.BP_Hero")]
              [("include_defaults", true); ("include_components", false)] in
  FUnrealMCPBlueprintMigrationCommands.HandleExportBlueprintGraph (Project.editor true) p'
    Project.world
  = FUnrealMCPBlueprintMigrationCommands.HandleExportBlueprintGraph (Project.editor true) p
      Project.world.
Proof.
  cbv zeta.
  refine (proj1 (export_ignores_include_defaults (Project.editor true)
    (Sample.request [("blueprint_path", "/Game/BP_Hero.BP_Hero")]
       [("include_defaults", false); ("include_components", false)])
    (Sample.request [("blueprint_path", "/Game/BP_Hero.BP_Hero")]
       [("include_defaults", true); ("include_components", false)]) Project.world _)).
  split; intros k Hk; [reflexivity|].
  unfold Sample.request. cbn [TryGetBoolField find fst].
  destruct (String.eqb "include_defaults" k) eqn:E; [|reflexivity].
  apply String.eqb_eq in E. subst k. exfalso. apply Hk. by constructor.
Defined.

(** ** Function listing *)

Lemma FunctionsResolved_functions h bp w :
  DocObjects "functions" (FunctionsResolved h bp w) = map AsObject (CollectFunctions h w bp)
  ∧ DocNumber "function_count" (FunctionsResolved h bp w)
    = Some (Z.of_nat (length (CollectFunctions h w bp))).
Proof.
  unfold FunctionsResolved, DocObjects, GetArrayField, DocNumber. unfold_setters.
  destruct (ParentClass bp); cbn [SetWhen]; rewrite !GetField_SetField; done.
Qed.

Lemma listed_function_graphs h w bp l :
  map (fun o => (DocString "type" o, DocString "name" o, DocString "graph_name" o))
    (map AsObject (omap (FunctionGraphJson h w bp) l))
  = map (fun G => Listed "Function" (GraphName G) (GraphName G)) (GraphsAt w l).
Proof.
  unfold GraphsAt. induction l as [|g l IH]; [done|].
  rewrite !list_omap_cons. unfold FunctionGraphJson at 1.
  destruct (GraphStore w !! g) as [G|]; [|exact IH].
  cbn [mbind option_bind map]. rewrite IH. reflexivity.
Qed.

Lemma listed_macro_graphs w l :
  map (fun o => (DocString "type" o, DocString "name" o, DocString "graph_name" o))
    (map AsObject (omap (MacroGraphJson w) l))
  = map (fun G => Listed "Macro" (GraphName G) (GraphName G)) (GraphsAt w l).
Proof.
  unfold GraphsAt. induction l as [|g l IH]; [done|].
  rewrite !list_omap_cons. unfold MacroGraphJson at 1.
  destruct (GraphStore w !! g) as [G|]; [|exact IH].
  cbn [mbind option_bind map]. rewrite IH. reflexivity.
Qed.

Lemma listed_events w G nodes :
  map (fun o => (DocString "type" o, DocString "name" o, DocString "graph_name" o))
    (map AsObject (omap (EventNodeJson w G) nodes))
  = map (fun name => Listed "Event" name (GraphName G))
      (omap (fun n : addr =>
               Node ← NodeStore w !! n;
               match NodeKind Node with
               | K2Node_Event EventMemberName _ => Some EventMemberName
               | _ => None
               end) nodes).
Proof.
  induction nodes as [|n nodes IH]; [done|].
  rewrite !list_omap_cons. unfold EventNodeJson at 1.
  destruct (NodeStore w !! n) as [N|]; cbn [mbind option_bind]; [|exact IH].
  destruct (NodeKind N) as [| name cls | | | | | | | |]; try exact IH.
  cbn [map]. rewrite IH. by destruct cls.
Qed.

Lemma listed_pages w l :
  map (fun o => (DocString "type" o, DocString "name" o, DocString "graph_name" o))
    (map AsObject (l ≫= UbergraphPageJson w))
  = GraphsAt w l ≫= fun G =>
      map (fun name => Listed "Event" name (GraphName G)) (EventNames w G)
      ++ [Listed "EventGraph" (GraphName G) (GraphName G)].
Proof.
  unfold GraphsAt. induction l as [|g l IH]; [done|].
  rewrite list_omap_cons. cbn [mbind list_bind]. rewrite !map_app, IH.
  unfold UbergraphPageJson at 1.
  destruct (GraphStore w !! g) as [G|]; [|done].
  cbn [mbind list_bind]. rewrite !map_app, listed_events. reflexivity.
Qed.

Lemma CollectFunctions_listing h w bp :
  map (fun o => (DocString "type" o, DocString "name" o, DocString "graph_name" o))
    (map AsObject (CollectFunctions h w bp))
  = FunctionListing w bp.
Proof.
  unfold CollectFunctions, FunctionListing.
  by rewrite !map_app, listed_function_graphs, listed_pages, listed_macro_graphs.
Qed.

(** X8. The functions response lists, in this order: one [Function] entry
    for each function graph the blueprint holds; for each event graph page it
    holds, one [Event] entry for each event node of the page and then one
    [EventGraph] entry for the page; one [Macro] entry for each macro graph it
    holds.  [function_count] is the number of these entries. *)
Theorem functions_response_lists_graphs_and_events e p w path ptr bp :
  TryGetStringField p "blueprint_path" = Some path →
  (ResolveBlueprint (Services e) w path = Some (ptr, bp) →
   let resp := (FUnrealMCPBlueprintMigrationCommands.HandleGetBlueprintFunctions e p w).1 in
   ListedFunctions resp = FunctionListing w bp
   ∧ DocNumber "function_count" resp = Some (Z.of_nat (length (FunctionListing w bp))))
  ∧ (DiscoverBlueprint (Services e) w path = Some (ptr, bp) →
     let resp := (FGetBlueprintFunctionsCommand.Execute e (Some p) w).1 in
     ListedFunctions resp = FunctionListing w bp
     ∧ DocNumber "function_count" resp = Some (Z.of_nat (length (FunctionListing w bp)))).
Proof.
  intros Hpath.
  assert (H : ListedFunctions (FunctionsResolved (Services e) bp w) = FunctionListing w bp
              ∧ DocNumber "function_count" (FunctionsResolved (Services e) bp w)
                = Some (Z.of_nat (length (FunctionListing w bp)))).
  { destruct (FunctionsResolved_functions (Services e) bp w) as [HF HC].
    unfold ListedFunctions. rewrite HF, HC, CollectFunctions_listing.
    split; [done|]. by rewrite <- (CollectFunctions_listing (Services e)), !length_map. }
  split; intros Hbp; cbv zeta.
  - unfold FUnrealMCPBlueprintMigrationCommands.HandleGetBlueprintFunctions.
    by rewrite Hpath, Hbp.
  - unfold FGetBlueprintFunctionsCommand.Execute. by rewrite Hpath, Hbp.
Qed.

Lemma functions_response_lists_graphs_and_events_witness :
  let resp := (FGetBlueprintFunctionsCommand.Execute (Project.editor true)
                 (Some (Project.functions_request "BP_Hero")) Project.world).1 in
  FunctionListing Project.world Sample.BP_Hero
  = [Listed "Function" "DoWork" "DoWork"; Listed "Event" "ReceiveBeginPlay" "EventGraph";
     Listed "EventGraph" "EventGraph" "EventGraph"]
  ∧ ListedFunctions resp = FunctionListing Project.world Sample.BP_Hero
  ∧ DocNumber "function_count" resp
    = Some (Z.of_nat (length (FunctionListing Project.world Sample.BP_Hero))).
Proof.
  cbv zeta. split; [reflexivity|].
  apply (proj2 (functions_response_lists_graphs_and_events (Project.editor true)
                  (Project.functions_request "BP_Hero") Project.world "BP_Hero"
                  100%positive Sample.BP_Hero eq_refl)).
  reflexivity.
Defined.

Lemma FindIsOverride_spec h w bp G nodes :
  FindIsOverride h w bp G nodes
  = existsb (fun n : addr =>
               match NodeKind <$> NodeStore w !! n with
               | Some K2Node_FunctionEntry => true
               | _ => false
               end) nodes
    && ParentHasFunction h bp (GraphName G).
Proof.
  unfold ParentHasFunction.
  induction nodes as [|n nodes IH]; [done|]. cbn [FindIsOverride existsb].
  destruct (NodeKind <$> NodeStore w !! n) as [[]|]; try exact IH.
  cbn [orb andb]. destruct (ParentClass bp) as [c|]; [|done].
  by destruct (FindFunctionByName h c (GraphName G)).
Qed.

Lemma override_flags h w bp l :
  omap (DocBool "is_override") (map AsObject (omap (FunctionGraphJson h w bp) l))
  = map (fun G => HasFunctionEntry w G && ParentHasFunction h bp (GraphName G)) (GraphsAt w l).
Proof.
  unfold GraphsAt. induction l as [|g l IH]; [done|].
  rewrite !list_omap_cons. unfold FunctionGraphJson at 1.
  destruct (GraphStore w !! g) as [G|]; [|exact IH].
  cbn [mbind option_bind map]. rewrite list_omap_cons, IH.
  unfold DocBool at 1. unfold_setters. cbn [AsObject]. rewrite GetField_SetField_eq.
  by rewrite FindIsOverride_spec.
Qed.

Lemma no_override_flag_on_events w G nodes :
  omap (DocBool "is_override") (map AsObject (omap (EventNodeJson w G) nodes)) = [].
Proof.
  induction nodes as [|n nodes IH]; [done|].
  rewrite !list_omap_cons. unfold EventNodeJson at 1.
  destruct (NodeStore w !! n) as [N|]; cbn [mbind option_bind]; [|exact IH].
  destruct (NodeKind N) as [| name cls | | | | | | | |]; try exact IH.
  cbn [map]. rewrite list_omap_cons, IH. by destruct cls.
Qed.

Lemma no_override_flag_on_pages w l :
  omap (DocBool "is_override") (map AsObject (l ≫= UbergraphPageJson w)) = [].
Proof.
  induction l as [|g l IH]; [done|].
  cbn [mbind list_bind]. rewrite map_app, omap_app, IH, app_nil_r.
  unfold UbergraphPageJson.
  destruct (GraphStore w !! g) as [G|]; [|done].
  by rewrite map_app, omap_app, no_override_flag_on_events.
Qed.

Lemma no_override_flag_on_macros w l :
  omap (DocBool "is_override") (map AsObject (omap (MacroGraphJson w) l)) = [].
Proof.
  induction l as [|g l IH]; [done|].
  rewrite !list_omap_cons. unfold MacroGraphJson at 1.
  destruct (GraphStore w !! g) as [G|]; [|exact IH].
  cbn [mbind option_bind map]. rewrite list_omap_cons, IH. reflexivity.
Qed.

(** X9. Only the [Function] entries of the functions response carry
    [is_override], and an entry carries [true] exactly when its graph holds a
    function entry node and the parent class of the blueprint has a function
    of the graph's name. *)
Theorem is_override_needs_entry_node_and_parent_function e p w path ptr bp :
  TryGetStringField p "blueprint_path" = Some path →
  let flags := map (fun G => HasFunctionEntry w G
                             && ParentHasFunction (Services e) bp (GraphName G))
                   (GraphsAt w (FunctionGraphs bp)) in
  (ResolveBlueprint (Services e) w path = Some (ptr, bp) →
   omap (DocBool "is_override")
     (DocObjects "functions"
        (FUnrealMCPBlueprintMigrationCommands.HandleGetBlueprintFunctions e p w).1) = flags)
  ∧ (DiscoverBlueprint (Services e) w path = Some (ptr, bp) →
     omap (DocBool "is_override")
       (DocObjects "functions" (FGetBlueprintFunctionsCommand.Execute e (Some p) w).1)
     = flags).
Proof.
  intros Hpath. cbv zeta.
  assert (H : omap (DocBool "is_override")
                (DocObjects "functions" (FunctionsResolved (Services e) bp w))
              = map (fun G => HasFunctionEntry w G
                              && ParentHasFunction (Services e) bp (GraphName G))
                    (GraphsAt w (FunctionGraphs bp))).
  { destruct (FunctionsResolved_functions (Services e) bp w) as [-> _].
    unfold CollectFunctions.
    by rewrite !map_app, !omap_app, override_flags, no_override_flag_on_pages,
         no_override_flag_on_macros, !app_nil_r. }
  split; intros Hbp.
  - unfold FUnrealMCPBlueprintMigrationCommands.HandleGetBlueprintFunctions.
    by rewrite Hpath, Hbp.
  - unfold FGetBlueprintFunctionsCommand.Execute. by rewrite Hpath, Hbp.
Qed.

Lemma is_override_needs_entry_node_and_parent_function_witness :
  omap (DocBool "is_override")
    (DocObjects "functions"
       (FGetBlueprintFunctionsCommand.Execute (Project.editor true)
          (Some (Project.functions_request "/Game/BP_User")) Project.world).1)
  = [false; true].
Proof.
  apply (proj2 (is_override_needs_entry_node_and_parent_function (Project.editor true)
                  (Project.functions_request "/Game/BP_User") Project.world "/Game/BP_User"
                  101%positive Project.BP_User eq_refl)).
  reflexivity.
Defined.

(** X10. The option [include_inherited] of the function listing has no
    effect: requests that differ in it only get the same response. *)
Theorem functions_ignore_include_inherited e p p' w :
  AgreeOutside [] ["include_inherited"] p p' →
  FUnrealMCPBlueprintMigrationCommands.HandleGetBlueprintFunctions e p' w
  = FUnrealMCPBlueprintMigrationCommands.HandleGetBlueprintFunctions e p w
  ∧ FGetBlueprintFunctionsCommand.Execute e (Some p') w
    = FGetBlueprintFunctionsCommand.Execute e (Some p) w.
Proof.
  intros [Hs Hb].
  unfold FUnrealMCPBlueprintMigrationCommands.HandleGetBlueprintFunctions,
    FGetBlueprintFunctionsCommand.Execute.
  by rewrite (Hs "blueprint_path") by (by intros ?%elem_of_nil).
Qed.

Lemma functions_ignore_include_inherited_witness :
  let p := Sample.request [("blueprint_path", "BP_Hero")] [("include_inherited", false)] in
  let p' := Sample.request [("blueprint_path", "BP_Hero")] [("include_inherited", true)] in
  FGetBlueprintFunctionsCommand.Execute (Project.editor true) (Some p') Project.world
  = FGetBlueprintFunctionsCommand.Execute (Project.editor true) (Some p) Project.world.
Proof.
  cbv zeta.
  refine (proj2 (functions_ignore_include_inherited (Project.editor true)
    (Sample.request [("blueprint_path", "BP_Hero")] [("include_inherited", false)])
    (Sample.request [("blueprint_path", "BP_Hero")] [("include_inherited", true)])
    Project.world _)).
  split; intros k Hk; [reflexivity|].
  unfold Sample.request. cbn [TryGetBoolField find fst].
  destruct (String.eqb "include_inherited" k) eqn:E; [|reflexivity].
  apply String.eqb_eq in E. subst k. exfalso. apply Hk. by constructor.
Defined.

(** ** Reference search *)

Lemma AddReferencer_fold h w F refs acc :
  map (DocString "referencer_path") (map AsObject (fold_left (AddReferencer h w F) refs acc))
  = map (DocString "referencer_path") (map AsObject acc)
    ++ map Some (List.filter (fun r => negb (UnderEngineRoots r)) refs).
Proof.
  revert acc. induction refs as [|r refs IH]; intros acc.
  - cbn. by rewrite app_nil_r.
  - cbn [fold_left List.filter]. rewrite IH. unfold AddReferencer.
    fold (UnderEngineRoots r). destruct (UnderEngineRoots r); cbn [negb]; [done|].
    rewrite !map_app, <- app_assoc. f_equal. cbn [map app]. f_equal.
    unfold DocString. unfold_setters.
    destruct (LoadBlueprint h r ≫= LookupBlueprint w) as [[ptr bp]|]; cbn [AsObject].
    + destruct (some_if _ _); cbn [SetWhen]; by rewrite !GetField_SetField.
    + by rewrite !GetField_SetField.
Qed.

Lemma FindReferences_lists e p path target o w :
  GetField "error" o = None →
  ListsReferencers (GetReferencers e (TargetIdOf target path)) (FindReferences e p path target o w).
Proof.
  intros Ho. unfold ListsReferencers, FindReferences.
  fold (TargetIdOf target path).
  set (refs := GetReferencers e (TargetIdOf target path)).
  set (F := default EmptyString (TryGetStringField p "target_function")).
  pose proof (AddReferencer_fold (Services e) w F refs []) as H. cbn [map app] in H.
  unfold DocObjects, GetArrayField, DocNumber. unfold_setters.
  rewrite !GetField_SetField. cbn [String.eqb Ascii.eqb Bool.eqb].
  split_and!.
  - exact H.
  - f_equal. f_equal.
    apply (f_equal (@length _)) in H. by rewrite !length_map in H.
  - destruct (some_if _ _); cbn [SetWhen]; rewrite ?GetField_SetField; exact Ho.
Qed.

(** X11. A reference search with a [target_path] never fails: a target that
    is no blueprint is looked up in the registry under the path as given.
    The response lists the registry's referencers outside the script and
    engine roots, in the registry's order and as often as the registry names
    them; [referencer_count] is their number. *)
Theorem references_list_registry_referencers e p w path :
  TryGetStringField p "target_path" = Some path →
  ListsReferencers
    (GetReferencers e (TargetIdOf (ResolveBlueprint (Services e) w path) path))
    (FUnrealMCPBlueprintMigrationCommands.HandleFindBlueprintReferences e p w).1
  ∧ ListsReferencers
      (GetReferencers e (TargetIdOf (DiscoverBlueprint (Services e) w path) path))
      (FFindBlueprintReferencesCommand.Execute e (Some p) w).1
  ∧ GetField "success" (FFindBlueprintReferencesCommand.Execute e (Some p) w).1
    = Some (JBoolean true).
Proof.
  intros Hpath.
  unfold FUnrealMCPBlueprintMigrationCommands.HandleFindBlueprintReferences,
    FFindBlueprintReferencesCommand.Execute.
  rewrite Hpath. cbn [fst]. split_and!.
  - by apply FindReferences_lists.
  - by apply FindReferences_lists.
  - unfold FindReferences. unfold_setters.
    destruct (some_if _ _); cbn [SetWhen]; by rewrite !GetField_SetField.
Qed.

Lemma references_list_registry_referencers_witness :
  let resp := (FFindBlueprintReferencesCommand.Execute (Project.editor true)
                 (Some (Project.references_request "OldFunc")) Project.world).1 in
  map (DocString "referencer_path") (DocObjects "referencers" resp)
  = [Some "/Game/BP_User"; Some "/Game/Maps/Arena"; Some "/Game/BP_User"]
  ∧ ListsReferencers (GetReferencers (Project.editor true) "/Game/BP_Hero") resp.
Proof.
  cbv zeta. split; [reflexivity|].
  apply (proj1 (proj2 (references_list_registry_referencers (Project.editor true)
                         (Project.references_request "OldFunc") Project.world "BP_Hero"
                         eq_refl))).
Defined.

Lemma LocateNode_fold w F C Fn G nodes L acc :
  map PlaceOf L = map PlaceOf acc.2 →
  map PlaceOf (fold_left (LocateNode w F G) nodes L)
  = map PlaceOf (fold_left (ScanNode w F C Fn G) nodes acc).2.
Proof.
  revert L acc. induction nodes as [|n nodes IH]; intros L [A Ch] HL; [done|].
  cbn [fold_left]. apply IH. unfold LocateNode, ScanNode. cbn [snd] in *.
  destruct (NodeStore w !! n) as [N|]; [|done].
  destruct (GetTargetFunction N) as [f|]; [|done].
  destruct (FString_eqb (FunctionName f) F); [|done].
  cbn [snd]. rewrite !map_app, HL. reflexivity.
Qed.

Lemma LocateGraph_fold w F C Fn graphs L acc :
  map PlaceOf L = map PlaceOf acc.2 →
  map PlaceOf (fold_left (LocateGraph w F) graphs L)
  = map PlaceOf (fold_left (ScanGraph w F C Fn) graphs acc).2.
Proof.
  revert L acc. induction graphs as [|g graphs IH]; intros L acc HL; [done|].
  cbn [fold_left]. apply IH. unfold LocateGraph, ScanGraph.
  destruct (GraphStore w !! g) as [G|]; [|done].
  by apply LocateNode_fold.
Qed.

Lemma ScanNode_lengths w F C Fn G nodes acc :
  length acc.1 = length acc.2 →
  length (fold_left (ScanNode w F C Fn G) nodes acc).1
  = length (fold_left (ScanNode w F C Fn G) nodes acc).2.
Proof.
  revert acc. induction nodes as [|n nodes IH]; intros [A Ch] H; [done|].
  cbn [fold_left]. apply IH. unfold ScanNode. cbn [fst snd] in *.
  destruct (NodeStore w !! n) as [N|]; [|done].
  destruct (GetTargetFunction N) as [f|]; [|done].
  destruct (FString_eqb (FunctionName f) F); [|done].
  cbn [fst snd]. rewrite !length_app. cbn. lia.
Qed.

Lemma FindNodesToRedirect_lengths w bp F C Fn :
  length (FindNodesToRedirect w bp F C Fn).1 = length (FindNodesToRedirect w bp F C Fn).2.
Proof.
  unfold FindNodesToRedirect.
  assert (H : ∀ graphs acc, length acc.1 = length acc.2 →
            length (fold_left (ScanGraph w F C Fn) graphs acc).1
            = length (fold_left (ScanGraph w F C Fn) graphs acc).2).
  { induction graphs as [|g graphs IH]; intros acc Hacc; [done|].
    cbn [fold_left]. apply IH. unfold ScanGraph.
    destruct (GraphStore w !! g) as [G|]; [|done]. by apply ScanNode_lengths. }
  by apply H.
Qed.

Lemma RedirectResolved_changes h o dry bk ptr bp sf C F w :
  GetArrayField "changes" (RedirectResolved h o dry bk ptr bp sf C F w).1
  = (FindNodesToRedirect w bp sf C F).2.
Proof.
  unfold RedirectResolved, GetArrayField.
  destruct (FindNodesToRedirect w bp sf C F) as [l ch]. cbn [snd].
  destruct (Z.of_nat (length l) =? 0), dry, bk;
    repeat match goal with
           | |- context [WriteJsonToTempFile ?a ?b ?c ?d] =>
               destruct (WriteJsonToTempFile a b c d)
           | |- context [ApplyRedirects ?a ?b ?c] => destruct (ApplyRedirects a b c)
           end;
    cbn [fst]; unfold_setters;
    rewrite !(GetField_SetField_ne "changes") by reflexivity;
    by rewrite GetField_SetField_eq.
Qed.

(** X12. The reference search and the redirect scan a blueprint alike.  The
    entry the search makes for a referencer that loads as a blueprint has, for
    a function name that is not empty, [reference_locations] that name the
    same nodes - graph, guid and position - in the same order as the
    [changes] of a redirect of that function in that blueprint, whatever the
    target of the redirect; [nodes_found] is their number. *)
Theorem reference_locations_are_the_redirect_changes h h' w r ptr bp F o dry bk C Fn :
  LoadBlueprint h r ≫= LookupBlueprint w = Some (ptr, bp) →
  UnderEngineRoots r = false →
  IsEmpty F = false →
  let redirect := (RedirectResolved h' o dry bk ptr bp F C Fn w).1 in
  ∃ entry,
    AddReferencer h w F [] r = [JObject entry]
    ∧ map PlaceOf (GetArrayField "reference_locations" entry)
      = map PlaceOf (GetArrayField "changes" redirect)
    ∧ GetField "nodes_found" redirect
      = Some (JNumber (Z.of_nat (length (GetArrayField "reference_locations" entry)))).
Proof.
  intros Hbp Hroot HF. cbv zeta. unfold AddReferencer.
  fold (UnderEngineRoots r). rewrite Hroot, Hbp, HF. cbn [negb some_if SetWhen app].
  eexists. split; [reflexivity|].
  assert (HL : GetArrayField "reference_locations"
                 (SetArrayField "reference_locations" (ReferenceLocations w bp F)
                    (SetStringField "type" "Blueprint"
                       (SetStringField "referencer_name" (BlueprintName bp)
                          (SetStringField "referencer_path" r MakeJsonObject))))
               = ReferenceLocations w bp F).
  { unfold GetArrayField. unfold_setters. by rewrite GetField_SetField_eq. }
  rewrite HL, RedirectResolved_changes, RedirectResolved_nodes_found.
  assert (H : map PlaceOf (ReferenceLocations w bp F)
              = map PlaceOf (FindNodesToRedirect w bp F C Fn).2).
  { unfold ReferenceLocations, FindNodesToRedirect. by apply LocateGraph_fold. }
  split; [exact H|].
  apply (f_equal (@length _)) in H. rewrite !length_map in H. rewrite H.
  rewrite <- (FindNodesToRedirect_fst w bp F C Fn).
  by rewrite FindNodesToRedirect_lengths.
Qed.

Lemma reference_locations_are_the_redirect_changes_witness :
  let redirect :=
    (RedirectResolved (Project.host true) MakeJsonObject true true 101%positive
       Project.BP_User "OldFunc" Sample.NewClass Sample.NewFunc Project.world).1 in
  map PlaceOf (GetArrayField "changes" redirect)
  = [(Some "UseHero", Some "G7", Some 320, Some 48)]
  ∧ ∃ entry,
      AddReferencer (Project.host true) Project.world "OldFunc" [] "/Game/BP_User"
      = [JObject entry]
      ∧ map PlaceOf (GetArrayField "reference_locations" entry)
        = map PlaceOf (GetArrayField "changes" redirect)
      ∧ GetField "nodes_found" redirect
        = Some (JNumber (Z.of_nat (length (GetArrayField "reference_locations" entry)))).
Proof.
  cbv zeta. split; [reflexivity|].
  apply (reference_locations_are_the_redirect_changes (Project.host true) (Project.host true)
           Project.world "/Game/BP_User" 101%positive Project.BP_User "OldFunc"
           MakeJsonObject true true Sample.NewClass Sample.NewFunc);
    reflexivity.
Defined.

(** X13. The options [search_scope] and [include_soft_references] of the
    reference search have no effect: the response depends on the other
    string fields of the request only. *)
Theorem references_ignore_scope_and_soft_references e p p' w :
  (∀ k, k ≠ "search_scope" → TryGetStringField p' k = TryGetStringField p k) →
  FUnrealMCPBlueprintMigrationCommands.HandleFindBlueprintReferences e p' w
  = FUnrealMCPBlueprintMigrationCommands.HandleFindBlueprintReferences e p w
  ∧ FFindBlueprintReferencesCommand.Execute e (Some p') w
    = FFindBlueprintReferencesCommand.Execute e (Some p) w.
Proof.
  intros Hs.
  unfold FUnrealMCPBlueprintMigrationCommands.HandleFindBlueprintReferences,
    FFindBlueprintReferencesCommand.Execute, FindReferences.
  by rewrite (Hs "target_path"), (Hs "target_function").
Qed.

Lemma references_ignore_scope_and_soft_references_witness :
  let p := Sample.request [("target_path", "BP_Hero"); ("search_scope", "project")]
             [("include_soft_references", true)] in
  let p' := Sample.request [("target_path", "BP_Hero"); ("search_scope", "all")]
              [("include_soft_references", false)] in
  FFindBlueprintReferencesCommand.Execute (Project.editor true) (Some p') Project.world
  = FFindBlueprintReferencesCommand.Execute (Project.editor true) (Some p) Project.world.
Proof.
  cbv zeta.
  refine (proj2 (references_ignore_scope_and_soft_references (Project.editor true)
    (Sample.request [("target_path", "BP_Hero"); ("search_scope", "project")]
       [("include_soft_references", true)])
    (Sample.request [("target_path", "BP_Hero"); ("search_scope", "all")]
       [("include_soft_references", false)]) Project.world _)).
  intros k Hk. unfold Sample.request. cbn [TryGetStringField find fst].
  destruct (String.eqb "target_path" k); [reflexivity|].
  destruct (String.eqb "search_scope" k) eqn:E; [|reflexivity].
  apply String.eqb_eq in E. by subst k.
Defined.

(** ** Envelope, validation and failures of the commands *)

Lemma RedirectResolved_succeeds h dry bk ptr bp sf C F w :
  Succeeds (RedirectResolved h (MakeJsonObject |> SetBoolField "success" true)
              dry bk ptr bp sf C F w).1.
Proof.
  unfold Succeeds, RedirectResolved.
  destruct (FindNodesToRedirect w bp sf C F) as [l ch].
  destruct (Z.of_nat (length l) =? 0); [done|]. destruct dry; [done|].
  destruct bk;
    repeat match goal with
           | |- context [WriteJsonToTempFile ?a ?b ?c ?d] =>
               destruct (WriteJsonToTempFile a b c d)
           | |- context [ApplyRedirects ?a ?b ?c] => destruct (ApplyRedirects a b c)
           end; done.
Qed.

Lemma DeleteFound_succeeds Ser h bk ptr bp name g G w :
  Succeeds (DeleteFound Ser h bk ptr bp name g G w).1.
Proof.
  unfold Succeeds, DeleteFound.
  destruct bk;
    repeat match goal with
           | |- context [WriteJsonToTempFile ?a ?b ?c ?d] =>
               destruct (WriteJsonToTempFile a b c d) as [path ?]
           end; cbn [fst]; unfold_setters;
    try destruct (IsEmpty path); cbn [negb some_if SetWhen IsEmpty];
    rewrite !GetField_SetField; done.
Qed.

Lemma ReparentResolved_succeeds h bk ptr bp c w :
  Succeeds (ReparentResolved h bk ptr bp c w).1.
Proof.
  unfold Succeeds, ReparentResolved.
  destruct bk;
    repeat match goal with
           | |- context [WriteJsonToTempFile ?a ?b ?c ?d] =>
               destruct (WriteJsonToTempFile a b c d) as [path ?]
           end; cbn [fst]; unfold_setters;
    try destruct (IsEmpty path); cbn [negb some_if SetWhen IsEmpty];
    rewrite !GetField_SetField; done.
Qed.

Lemma DependenciesJson_succeeds bp D F :
  Succeeds (MakeJsonObject |> SetBoolField "success" true |> DependenciesJson bp D F).
Proof. unfold Succeeds, DependenciesJson. unfold_setters. by rewrite !GetField_SetField. Qed.

Lemma FunctionsResolved_succeeds h bp w : Succeeds (FunctionsResolved h bp w).
Proof.
  unfold Succeeds, FunctionsResolved. unfold_setters.
  destruct (ParentClass bp); cbn [SetWhen]; by rewrite !GetField_SetField.
Qed.

Lemma FindReferences_succeeds e p path target w :
  Succeeds (FindReferences e p path target (MakeJsonObject |> SetBoolField "success" true) w).
Proof.
  unfold Succeeds, FindReferences. unfold_setters.
  destruct (some_if _ _); cbn [SetWhen]; by rewrite !GetField_SetField.
Qed.

Ltac command_cases :=
  repeat match goal with
         | |- context [match ?x with Some _ => _ | None => _ end] =>
             destruct x as [?|]; [|by left; eexists]
         | |- context [let (_, _) := ?x in _] => destruct x
         end.

Lemma Commands_fail_cleanly_or_succeed h p w :
  FailsCleanlyOrSucceeds (FGetBlueprintDependenciesCommand.Execute h p w) w
  ∧ FailsCleanlyOrSucceeds (FRedirectFunctionCallCommand.Execute h p w) w
  ∧ FailsCleanlyOrSucceeds (FDeleteBlueprintFunctionCommand.Execute h p w) w
  ∧ FailsCleanlyOrSucceeds (FSetBlueprintParentClassCommand.Execute h p w) w.
Proof.
  split_and!.
  - unfold FGetBlueprintDependenciesCommand.Execute. command_cases.
    right. apply DependenciesJson_succeeds.
  - unfold FRedirectFunctionCallCommand.Execute. command_cases.
    right. apply RedirectResolved_succeeds.
  - unfold FDeleteBlueprintFunctionCommand.Execute. command_cases.
    right. apply DeleteFound_succeeds.
  - unfold FSetBlueprintParentClassCommand.Execute. command_cases.
    right. apply ReparentResolved_succeeds.
Qed.

Lemma Queries_fail_cleanly_or_succeed e p w :
  FailsCleanlyOrSucceeds (FFindBlueprintReferencesCommand.Execute e p w) w
  ∧ FailsCleanlyOrSucceeds (FGetBlueprintFunctionsCommand.Execute e p w) w.
Proof.
  split.
  - unfold FFindBlueprintReferencesCommand.Execute. command_cases.
    right. apply FindReferences_succeeds.
  - unfold FGetBlueprintFunctionsCommand.Execute. command_cases.
    right. apply FunctionsResolved_succeeds.
Qed.

Lemma Export_fails_or_succeeds e p w :
  (∃ msg, (FExportBlueprintGraphCommand.Execute e p w).1 = CreateErrorResponse msg)
  ∨ Succeeds (FExportBlueprintGraphCommand.Execute e p w).1.
Proof.
  unfold FExportBlueprintGraphCommand.Execute.
  repeat match goal with
         | |- context [match ?x with Some _ => _ | None => _ end] =>
             destruct x as [?|]; [|by left; eexists]
         | |- context [let (_, _) := ?x in _] => destruct x
         end.
  destruct (IsEmpty _); [by left; eexists | by right].
Qed.

(** X14. Every response of the seven per-operation commands keeps the
    envelope: it carries [success = true] and no [error], or it is exactly
    [success = false] with an [error] message. *)
Theorem every_command_keeps_the_envelope e p w :
  ConformsToEnvelope (FExportBlueprintGraphCommand.Execute e p w).1
  ∧ ConformsToEnvelope (FGetBlueprintDependenciesCommand.Execute (Services e) p w).1
  ∧ ConformsToEnvelope (FFindBlueprintReferencesCommand.Execute e p w).1
  ∧ ConformsToEnvelope (FRedirectFunctionCallCommand.Execute (Services e) p w).1
  ∧ ConformsToEnvelope (FDeleteBlueprintFunctionCommand.Execute (Services e) p w).1
  ∧ ConformsToEnvelope (FSetBlueprintParentClassCommand.Execute (Services e) p w).1
  ∧ ConformsToEnvelope (FGetBlueprintFunctionsCommand.Execute e p w).1.
Proof.
  destruct (Commands_fail_cleanly_or_succeed (Services e) p w) as (H1 & H3 & H4 & H5).
  destruct (Queries_fail_cleanly_or_succeed e p w) as (H2 & H6).
  pose proof (Export_fails_or_succeeds e p w) as H0.
  assert (Hk : ∀ r, FailsCleanlyOrSucceeds r w → ConformsToEnvelope r.1).
  { intros r [[msg ->]|Hs]; [right; by exists msg | by left]. }
  split_and!; try by apply Hk.
  destruct H0 as [[msg ->]|Hs]; [right; by exists msg | by left].
Qed.

(** X15. A redirect, a delete or a reparent command that answers with a
    failure has changed nothing: the blueprints, graphs, nodes and files are
    those it was given. *)
Theorem failed_mutation_changes_nothing h p w :
  (GetField "success" (FRedirectFunctionCallCommand.Execute h p w).1 = Some (JBoolean false) →
   (FRedirectFunctionCallCommand.Execute h p w).2 = w)
  ∧ (GetField "success" (FDeleteBlueprintFunctionCommand.Execute h p w).1
     = Some (JBoolean false) →
     (FDeleteBlueprintFunctionCommand.Execute h p w).2 = w)
  ∧ (GetField "success" (FSetBlueprintParentClassCommand.Execute h p w).1
     = Some (JBoolean false) →
     (FSetBlueprintParentClassCommand.Execute h p w).2 = w).
Proof.
  destruct (Commands_fail_cleanly_or_succeed h p w) as (_ & H3 & H4 & H5).
  assert (Hk : ∀ r, FailsCleanlyOrSucceeds r w →
                    GetField "success" r.1 = Some (JBoolean false) → r.2 = w).
  { intros r [[msg ->]|[Hs _]] Hf; [done | congruence]. }
  split_and!; by apply Hk.
Qed.

Lemma failed_mutation_changes_nothing_witness :
  GetField "success"
    (FDeleteBlueprintFunctionCommand.Execute (Sample.host true)
       (Some (Sample.delete_request "Missing")) Sample.world).1 = Some (JBoolean false)
  ∧ (FDeleteBlueprintFunctionCommand.Execute (Sample.host true)
       (Some (Sample.delete_request "Missing")) Sample.world).2 = Sample.world.
Proof.
  split; [reflexivity|].
  apply (proj1 (proj2 (failed_mutation_changes_nothing (Sample.host true)
                         (Some (Sample.delete_request "Missing")) Sample.world))).
  reflexivity.
Defined.

Lemma Given_Some q k : ValidateParams.Given q k = true → ∃ v, TryGetStringField q k = Some v.
Proof. unfold ValidateParams.Given. destruct (TryGetStringField q k); [by eexists | done]. Qed.

Lemma ParameterError_Succeeds r : Succeeds r → ParameterError r = false.
Proof. intros [_ He]. unfold ParameterError, DocString. by rewrite He. Qed.

Ltac validated :=
  repeat match goal with
         | H : _ && _ = true |- _ => apply andb_prop in H as [? ?]
         | H : ValidateParams.Given _ _ = true |- _ => apply Given_Some in H as [? H]; rewrite H
         end.

Ltac later_error :=
  repeat match goal with
         | |- context [match ?x with Some _ => _ | None => _ end] =>
             destruct x as [?|]; [|reflexivity]
         | |- context [let (_, _) := ?x in _] => destruct x
         end.

(** X16. A request that [ValidateParams] accepts is never answered with
    "Invalid JSON parameters" or with a "Missing ... parameter" error by the
    [Execute] of the same command. *)
Theorem validated_request_has_no_parameter_error e p w :
  (ValidateParams.FExportBlueprintGraphCommand p = true →
   ParameterError (FExportBlueprintGraphCommand.Execute e p w).1 = false)
  ∧ (ValidateParams.FGetBlueprintDependenciesCommand p = true →
     ParameterError (FGetBlueprintDependenciesCommand.Execute (Services e) p w).1 = false)
  ∧ (ValidateParams.FFindBlueprintReferencesCommand p = true →
     ParameterError (FFindBlueprintReferencesCommand.Execute e p w).1 = false)
  ∧ (ValidateParams.FRedirectFunctionCallCommand p = true →
     ParameterError (FRedirectFunctionCallCommand.Execute (Services e) p w).1 = false)
  ∧ (ValidateParams.FDeleteBlueprintFunctionCommand p = true →
     ParameterError (FDeleteBlueprintFunctionCommand.Execute (Services e) p w).1 = false)
  ∧ (ValidateParams.FSetBlueprintParentClassCommand p = true →
     ParameterError (FSetBlueprintParentClassCommand.Execute (Services e) p w).1 = false)
  ∧ (ValidateParams.FGetBlueprintFunctionsCommand p = true →
     ParameterError (FGetBlueprintFunctionsCommand.Execute e p w).1 = false).
Proof.
  split_and!; destruct p as [q|]; try discriminate; cbn [ValidateParams.FExportBlueprintGraphCommand
    ValidateParams.FGetBlueprintDependenciesCommand ValidateParams.FFindBlueprintReferencesCommand
    ValidateParams.FRedirectFunctionCallCommand ValidateParams.FDeleteBlueprintFunctionCommand
    ValidateParams.FSetBlueprintParentClassCommand ValidateParams.FGetBlueprintFunctionsCommand];
    intros HV.
  - unfold FExportBlueprintGraphCommand.Execute. validated. later_error.
    destruct (IsEmpty _); [reflexivity|]. by apply ParameterError_Succeeds.
  - unfold FGetBlueprintDependenciesCommand.Execute. validated. later_error.
    apply ParameterError_Succeeds, DependenciesJson_succeeds.
  - unfold FFindBlueprintReferencesCommand.Execute. validated.
    apply ParameterError_Succeeds, FindReferences_succeeds.
  - unfold FRedirectFunctionCallCommand.Execute. validated. later_error.
    apply ParameterError_Succeeds, RedirectResolved_succeeds.
  - unfold FDeleteBlueprintFunctionCommand.Execute. validated. later_error.
    apply ParameterError_Succeeds, DeleteFound_succeeds.
  - unfold FSetBlueprintParentClassCommand.Execute. validated. later_error.
    apply ParameterError_Succeeds, ReparentResolved_succeeds.
  - unfold FGetBlueprintFunctionsCommand.Execute. validated. later_error.
    apply ParameterError_Succeeds, FunctionsResolved_succeeds.
Qed.

Lemma validated_request_has_no_parameter_error_witness :
  ValidateParams.FDeleteBlueprintFunctionCommand (Some (Sample.delete_request "Missing")) = true
  ∧ ParameterError
      (FDeleteBlueprintFunctionCommand.Execute (Services (Project.editor true))
         (Some (Sample.delete_request "Missing")) Project.world).1 = false.
Proof.
  split; [reflexivity|].
  apply (proj1 (proj2 (proj2 (proj2 (proj2
           (validated_request_has_no_parameter_error (Project.editor true)
              (Some (Sample.delete_request "Missing")) Project.world)))))).
  reflexivity.
Defined.

(** ** Dependency analysis, further *)

Lemma CountNodes_functions w b nodes m :
  fold_left (CountNode w b) nodes m
  = fold_left (CountFunction b)
      (omap (fun Node : addr => NodeStore w !! Node ≫= GetTargetFunction) nodes) m.
Proof.
  revert m. induction nodes as [|n nodes IH]; intros m; [done|].
  cbn [fold_left]. rewrite list_omap_cons, IH. unfold CountNode at 1.
  by destruct (NodeStore w !! n ≫= GetTargetFunction).
Qed.

Lemma CountGraphs_functions w b graphs m :
  fold_left (CountGraph w b) graphs m
  = fold_left (CountFunction b)
      (Graph ← omap (fun g : addr => GraphStore w !! g) graphs;
       omap (fun Node : addr => NodeStore w !! Node ≫= GetTargetFunction) (Nodes Graph)) m.
Proof.
  revert m. induction graphs as [|g graphs IH]; intros m; [done|].
  cbn [fold_left]. rewrite list_omap_cons, IH. unfold CountGraph at 1.
  destruct (GraphStore w !! g) as [G|]; [|done].
  cbn [mbind list_bind]. by rewrite fold_left_app, CountNodes_functions.
Qed.

Lemma TMap_Find_Increment K k m :
  TMap_Find K (TMap_Increment k m)
  = if FString_eqb k K then Some (default 0 (TMap_Find K m) + 1) else TMap_Find K m.
Proof.
  induction m as [|[k' c] m IH]; cbn [TMap_Increment TMap_Find].
  - destruct (FString_eqb k K); done.
  - destruct (FString_eqb k' k) eqn:E1; cbn [TMap_Find].
    + rewrite (FString_eqb_congr k' k K E1).
      destruct (FString_eqb k K); done.
    + destruct (FString_eqb k' K) eqn:E2; [|exact IH].
      rewrite (FString_eqb_congr k' K k E2), FString_eqb_sym in E1. by rewrite E1.
Qed.

Lemma existsb_TMap_Increment k m x :
  existsb (FString_eqb x) (map fst (TMap_Increment k m))
  = existsb (FString_eqb x) (map fst m) || FString_eqb x k.
Proof.
  induction m as [|[k' c] m IH]; cbn [TMap_Increment map fst existsb].
  - by rewrite orb_false_r.
  - destruct (FString_eqb k' k) eqn:E; cbn [map fst existsb].
    + rewrite (FString_eqb_sym x k), <- (FString_eqb_congr k' k x E), (FString_eqb_sym k' x).
      by destruct (FString_eqb x k'), (existsb (FString_eqb x) (map fst m)).
    + rewrite IH. by rewrite orb_assoc.
Qed.

Lemma DistinctKeys_TMap_Increment k m :
  DistinctKeys (map fst m) → DistinctKeys (map fst (TMap_Increment k m)).
Proof.
  induction m as [|[k' c] m IH]; cbn [TMap_Increment map fst DistinctKeys].
  - done.
  - intros [Hk' Hm]. destruct (FString_eqb k' k) eqn:E; cbn [map fst DistinctKeys].
    + done.
    + split; [|by apply IH]. by rewrite existsb_TMap_Increment, Hk', E.
Qed.

Lemma TMap_Find_elem K c m :
  DistinctKeys (map fst m) → (K, c) ∈ m → TMap_Find K m = Some c.
Proof.
  induction m as [|[k' c'] m IH]; cbn [map fst DistinctKeys TMap_Find].
  - by intros _ ?%elem_of_nil.
  - intros [Hk' Hm] [[= -> ->]|Hin]%elem_of_cons.
    + by rewrite FString_eqb_refl.
    + destruct (FString_eqb k' K) eqn:E; [|by apply IH].
      exfalso. assert (existsb (FString_eqb k') (map fst m) = true); [|congruence].
      apply existsb_exists. exists K. split; [|done].
      apply list_elem_of_In, list_elem_of_fmap. by exists (K, c).
Qed.

Lemma TMap_Increment_positive k m :
  (∀ k c, (k, c) ∈ m → 0 < c) → ∀ k' c, (k', c) ∈ TMap_Increment k m → 0 < c.
Proof.
  induction m as [|[k0 c0] m IHm]; intros Hm; cbn [TMap_Increment].
  - intros k' c [[= -> ->]|?%elem_of_nil]%elem_of_cons; [lia|done].
  - destruct (FString_eqb k0 k).
    + intros k' c [[= -> ->]|Hin]%elem_of_cons.
      * assert (0 < c0) by (apply (Hm k0); by constructor). lia.
      * apply (Hm k'). by constructor.
    + intros k' c [[= -> ->]|Hin]%elem_of_cons.
      * apply (Hm k0). by constructor.
      * apply (IHm ltac:(intros ? ? ?; eapply Hm; by constructor) k' c Hin).
Qed.

Lemma CountFunction_step b m f K :
  default 0 (TMap_Find K (CountFunction b m f))
  = default 0 (TMap_Find K m) + (if CountedAs b K f then 1 else 0)
  ∧ (DistinctKeys (map fst m) → DistinctKeys (map fst (CountFunction b m f)))
  ∧ ((∀ k c, (k, c) ∈ m → 0 < c) → ∀ k c, (k, c) ∈ CountFunction b m f → 0 < c).
Proof.
  unfold CountFunction, CountedAs.
  destruct (CountsFunctionCall b f); cbn [andb]; [|split_and!; [lia|done|done]].
  split_and!.
  - rewrite TMap_Find_Increment.
    destruct (FString_eqb (FunctionKeyOf f) K); cbn [from_option id]; lia.
  - apply DistinctKeys_TMap_Increment.
  - apply TMap_Increment_positive.
Qed.

(** The invariant of the count: over the functions counted so far, the map
    holds for every key the number of calls counted under it. *)
Lemma CountFunction_fold b fs m K :
  default 0 (TMap_Find K (fold_left (CountFunction b) fs m))
  = default 0 (TMap_Find K m) + Z.of_nat (length (List.filter (CountedAs b K) fs))
  ∧ (DistinctKeys (map fst m) → DistinctKeys (map fst (fold_left (CountFunction b) fs m)))
  ∧ ((∀ k c, (k, c) ∈ m → 0 < c) →
     ∀ k c, (k, c) ∈ fold_left (CountFunction b) fs m → 0 < c).
Proof.
  revert m. induction fs as [|f fs IH]; intros m.
  - cbn. split_and!; [lia | done | done].
  - cbn [fold_left List.filter]. destruct (IH (CountFunction b m f)) as (H1 & H2 & H3).
    destruct (CountFunction_step b m f K) as (S1 & S2 & S3).
    split_and!.
    + rewrite H1, S1. destruct (CountedAs b K f); cbn [length]; lia.
    + intros Hm. by apply H2, S2.
    + intros Hm. by apply H3, S3.
Qed.

Lemma FunctionCallCounts_DependenciesJson bp D F o :
  FunctionCallCounts (DependenciesJson bp D F o) = F.
Proof.
  unfold FunctionCallCounts, GetArrayField, DependenciesJson.
  unfold_setters. rewrite GetField_SetField_eq.
  induction F as [|[k c] F IH]; [done|].
  simpl map. rewrite list_omap_cons. simpl. by f_equal.
Qed.

Lemma CollectFunctionCalls_counts b w bp :
  DistinctKeys (map fst (CollectFunctionCalls w b bp))
  ∧ ∀ K c, (K, c) ∈ CollectFunctionCalls w b bp → c = CountedCalls b w bp K ∧ 0 < c.
Proof.
  unfold CollectFunctionCalls. rewrite CountGraphs_functions.
  fold (CalledFunctions w bp).
  split.
  - by apply (CountFunction_fold b (CalledFunctions w bp) [] EmptyString).
  - intros K c Hin.
    destruct (CountFunction_fold b (CalledFunctions w bp) [] K) as (H1 & H2 & H3).
    rewrite (TMap_Find_elem K c _ (H2 I) Hin) in H1. cbn [from_option id TMap_Find] in H1.
    split; [exact H1|]. apply (H3 ltac:(by intros ? ? ?%elem_of_nil) K c Hin).
Qed.

(** X17. The keys of [function_calls] differ pairwise, compared ignoring
    case, and each comes with the number of call nodes of the blueprint that
    are counted under it; no key comes with a count of zero. *)
Theorem function_calls_count_the_call_nodes h p w path ptr bp :
  TryGetStringField p "blueprint_path" = Some path →
  let b := default false (TryGetBoolField p "include_engine_classes") in
  (ResolveBlueprint h w path = Some (ptr, bp) →
   CountsCalls b w bp (Monolithic.HandleGetBlueprintDependencies h p w).1)
  ∧ (DiscoverBlueprint h w path = Some (ptr, bp) →
     CountsCalls b w bp (FGetBlueprintDependenciesCommand.Execute h (Some p) w).1).
Proof.
  intros Hpath. cbv zeta. split; intros Hbp; unfold CountsCalls.
  - unfold Monolithic.HandleGetBlueprintDependencies. rewrite Hpath, Hbp. cbn [fst].
    rewrite FunctionCallCounts_DependenciesJson. apply CollectFunctionCalls_counts.
  - unfold FGetBlueprintDependenciesCommand.Execute. rewrite Hpath, Hbp. cbn [fst].
    rewrite FunctionCallCounts_DependenciesJson. apply CollectFunctionCalls_counts.
Qed.

Lemma function_calls_count_the_call_nodes_witness :
  let resp := (FGetBlueprintDependenciesCommand.Execute (Sample.host true)
                 (Some Sample.dependencies_request) Sample.world).1 in
  FunctionCallCounts resp
  = [("BP_Hero_C::OldFunc", 2); ("KismetSystemLibrary::PrintString", 1)]
  ∧ CountsCalls false Sample.world Sample.BP_Hero resp.
Proof.
  cbv zeta. split; [reflexivity|].
  apply (proj2 (function_calls_count_the_call_nodes (Sample.host true)
                  Sample.dependencies_request Sample.world "/Game/BP_Hero.BP_Hero"
                  100%positive Sample.BP_Hero eq_refl)).
  reflexivity.
Defined.

Lemma CategorizeDependency_leaves_engine_out h D x :
  NativeClasses D = [] →
  (∀ y, y ∈ AssetDependencies D ++ BlueprintDependencies D → UnderEngineRoots y = false) →
  let D' := CategorizeDependency h false D x in
  NativeClasses D' = []
  ∧ ∀ y, y ∈ AssetDependencies D' ++ BlueprintDependencies D' → UnderEngineRoots y = false.
Proof.
  intros HN HA. cbv zeta. unfold CategorizeDependency. cbn [negb andb].
  fold (UnderEngineRoots x). destruct (UnderEngineRoots x) eqn:Ex; [done|].
  assert (Es : StartsWith x "/Script/" = false).
  { unfold UnderEngineRoots in Ex. by apply orb_false_elim in Ex as [? _]. }
  rewrite Es.
  destruct (GetAssetByObjectPath h x) as [cls|]; [destruct (FString_eqb cls "Blueprint")|];
    cbn [AssetDependencies BlueprintDependencies NativeClasses]; (split; [done|]);
    intros y [Hy|Hy]%elem_of_app;
    try (apply elem_of_TSet_Add in Hy as [->|Hy]; [done|]);
    apply HA, elem_of_app; auto.
Qed.

Lemma CollectDependencies_leaves_engine_out h bp :
  let D := CollectDependencies h false bp in
  NativeClasses D = []
  ∧ ∀ y, y ∈ AssetDependencies D ++ BlueprintDependencies D → UnderEngineRoots y = false.
Proof.
  cbv zeta. unfold CollectDependencies.
  assert (H : ∀ l D, NativeClasses D = [] →
            (∀ y, y ∈ AssetDependencies D ++ BlueprintDependencies D →
                  UnderEngineRoots y = false) →
            NativeClasses (fold_left (CategorizeDependency h false) l D) = []
            ∧ ∀ y, y ∈ AssetDependencies (fold_left (CategorizeDependency h false) l D)
                       ++ BlueprintDependencies (fold_left (CategorizeDependency h false) l D) →
                   UnderEngineRoots y = false).
  { induction l as [|x l IH]; intros D HN HA; [done|]. cbn [fold_left].
    destruct (CategorizeDependency_leaves_engine_out h D x HN HA). by apply IH. }
  apply H; [done|]. by intros y ?%elem_of_nil.
Qed.

Lemma LeavesEngineOut_error msg : LeavesEngineOut (CreateErrorResponse msg).
Proof. split; [done|]. by intros x ?%elem_of_nil. Qed.

(** X18. Unless [include_engine_classes] is set, the dependencies response
    names no native class at all - every path the registry reports under the
    script root is dropped before it could be classified as one - and no
    asset or blueprint under the script or engine roots. *)
Theorem native_classes_need_include_engine_classes h p w :
  default false (TryGetBoolField p "include_engine_classes") = false →
  LeavesEngineOut (FGetBlueprintDependenciesCommand.Execute h (Some p) w).1
  ∧ (∀ path ptr bp,
       TryGetStringField p "blueprint_path" = Some path →
       ResolveBlueprint h w path = Some (ptr, bp) →
       LeavesEngineOut (Monolithic.HandleGetBlueprintDependencies h p w).1).
Proof.
  intros Hb. split.
  - unfold FGetBlueprintDependenciesCommand.Execute.
    destruct (TryGetStringField p "blueprint_path") as [path|];
      [|apply LeavesEngineOut_error].
    destruct (DiscoverBlueprint h w path) as [[ptr bp]|]; [|apply LeavesEngineOut_error].
    rewrite Hb. cbn [fst]. unfold LeavesEngineOut.
    destruct (GetStringArray_DependenciesJson bp (CollectDependencies h false bp)
                (CollectFunctionCalls w false bp)
                (MakeJsonObject |> SetBoolField "success" true)) as (-> & -> & ->).
    apply CollectDependencies_leaves_engine_out.
  - intros path ptr bp Hpath Hbp.
    unfold Monolithic.HandleGetBlueprintDependencies. rewrite Hpath, Hbp, Hb. cbn [fst].
    unfold LeavesEngineOut.
    destruct (GetStringArray_DependenciesJson bp (CollectDependencies h false bp)
                (CollectFunctionCalls w false bp) MakeJsonObject) as (-> & -> & ->).
    apply CollectDependencies_leaves_engine_out.
Qed.

Lemma native_classes_need_include_engine_classes_witness :
  "/Script/MyGame" ∈ GetDependencies (Sample.host true) (PackageName Sample.BP_Hero)
  ∧ LeavesEngineOut (FGetBlueprintDependenciesCommand.Execute (Sample.host true)
                       (Some Sample.dependencies_request) Sample.world).1.
Proof.
  split; [by constructor|].
  apply (proj1 (native_classes_need_include_engine_classes (Sample.host true)
                  Sample.dependencies_request Sample.world eq_refl)).
Defined.

(** X19. The option [recursive] of the dependency analysis has no effect:
    requests that differ in it only get the same response. *)
Theorem dependencies_ignore_recursive h p p' w :
  AgreeOutside [] ["recursive"] p p' →
  Monolithic.HandleGetBlueprintDependencies h p' w
  = Monolithic.HandleGetBlueprintDependencies h p w
  ∧ FGetBlueprintDependenciesCommand.Execute h (Some p') w
    = FGetBlueprintDependenciesCommand.Execute h (Some p) w.
Proof.
  intros [Hs Hb].
  unfold Monolithic.HandleGetBlueprintDependencies, FGetBlueprintDependenciesCommand.Execute.
  rewrite (Hs "blueprint_path") by (by intros ?%elem_of_nil).
  by rewrite (Hb "include_engine_classes") by (intros [=]%list_elem_of_singleton).
Qed.

Lemma dependencies_ignore_recursive_witness :
  let p := Sample.request [("blueprint_path", "/Game/BP_Hero.BP_Hero")] [("recursive", true)] in
  let p' := Sample.request [("blueprint_path", "/Game/BP_Hero.BP_Hero")] [("recursive", false)] in
  FGetBlueprintDependenciesCommand.Execute (Sample.host true) (Some p') Sample.world
  = FGetBlueprintDependenciesCommand.Execute (Sample.host true) (Some p) Sample.world.
Proof.
  cbv zeta.
  refine (proj2 (dependencies_ignore_recursive (Sample.host true)
    (Sample.request [("blueprint_path", "/Game/BP_Hero.BP_Hero")] [("recursive", true)])
    (Sample.request [("blueprint_path", "/Game/BP_Hero.BP_Hero")] [("recursive", false)])
    Sample.world _)).
  split; intros k Hk; [reflexivity|].
  unfold Sample.request. cbn [TryGetBoolField find fst].
  destruct (String.eqb "recursive" k) eqn:E; [|reflexivity].
  apply String.eqb_eq in E. subst k. exfalso. apply Hk. by constructor.
Defined.

(** ** Redirect, further *)

Lemma LookupBlueprint_Some w a ptr bp :
  LookupBlueprint w a = Some (ptr, bp) → a = ptr ∧ Blueprints w !! ptr = Some bp.
Proof.
  unfold LookupBlueprint. destruct (Blueprints w !! a) as [bp'|] eqn:E; [|done].
  cbn. by intros [= <- <-].
Qed.

Lemma ResolveBlueprint_Some h w path ptr bp :
  ResolveBlueprint h w path = Some (ptr, bp) → Blueprints w !! ptr = Some bp.
Proof.
  unfold ResolveBlueprint, or_else.
  destruct (LoadBlueprint h path ≫= LookupBlueprint w) as [[a b]|] eqn:E1.
  - intros [= -> ->]. destruct (LoadBlueprint h path) as [a|]; [|done].
    cbn in E1. by apply LookupBlueprint_Some in E1 as [_ ?].
  - intros E2. destruct (FindBlueprint h path) as [a|]; [|done].
    cbn in E2. by apply LookupBlueprint_Some in E2 as [_ ?].
Qed.

Lemma DiscoverBlueprint_Some h w path ptr bp :
  DiscoverBlueprint h w path = Some (ptr, bp) → Blueprints w !! ptr = Some bp.
Proof.
  unfold DiscoverBlueprint, or_else.
  destruct (LoadBlueprint h path ≫= LookupBlueprint w) as [[a b]|] eqn:E1.
  - intros [= -> ->]. destruct (LoadBlueprint h path) as [a|]; [|done].
    cbn in E1. by apply LookupBlueprint_Some in E1 as [_ ?].
  - destruct (FindBlueprints h path) as [|First rest]; [done|].
    intros E2. destruct (LoadBlueprint h First) as [a|]; [|done].
    cbn in E2. by apply LookupBlueprint_Some in E2 as [_ ?].
Qed.

Lemma RedirectResolved_redirected h o bk ptr bp sf C F w :
  Blueprints w !! ptr = Some bp →
  NodesCalling w bp sf ≠ [] →
  Redirected ptr bp sf F w (RedirectResolved h o false bk ptr bp sf C F w).2.
Proof.
  intros Hbp Hne.
  destruct (RedirectResolved_world h o false bk ptr bp sf C F w)
    as [[Hc _]|(_ & w0 & HB & HG & HN & ->)].
  { rewrite orb_false_r in Hc. apply Z.eqb_eq in Hc.
    destruct (NodesCalling w bp sf); [done | cbn in Hc; lia]. }
  destruct (ApplyRedirects_frame F (NodesCalling w bp sf) w0) as (AB & AG & _ & _).
  unfold Redirected, MarkBlueprintAsModified. cbn [NodeStore GraphStore Blueprints with_Blueprints].
  split_and!.
  - intros n Hn. rewrite ApplyRedirects_lookup, HN. rewrite decide_True by done.
    apply elem_of_NodesCalling in Hn as [Hc _]. unfold CallsFunction in Hc.
    destruct (NodeStore w !! n) as [N|]; [|done]. cbn in *.
    unfold GetTargetFunction, SetFromFunction in *. by destruct (NodeKind N).
  - intros n Hn. rewrite ApplyRedirects_lookup, HN. by rewrite decide_False.
  - by rewrite AG, HG.
  - by rewrite AB, HB, lookup_alter_eq, Hbp.
  - by rewrite AB, HB, lookup_alter_eq, Hbp.
  - intros a Ha. by rewrite AB, HB, lookup_alter_ne.
Qed.

(** X20. A redirect that is applied - not a dry run, and at least one call
    found - retargets exactly the call nodes found: each now calls the
    resolved function, every other node and every graph is as before, and
    the blueprint keeps its graphs and is marked modified. *)
Theorem redirect_retargets_exactly_the_found_nodes h p w path sf ptr bp C F :
  TryGetStringField p "source_blueprint" = Some path →
  TryGetStringField p "source_function" = Some sf →
  ResolvedTarget h p = Some (C, F) →
  default true (TryGetBoolField p "dry_run") = false →
  NodesCalling w bp sf ≠ [] →
  (ResolveBlueprint h w path = Some (ptr, bp) →
   Redirected ptr bp sf F w (Monolithic.HandleRedirectFunctionCall h p w).2)
  ∧ (DiscoverBlueprint h w path = Some (ptr, bp) →
     Redirected ptr bp sf F w (FRedirectFunctionCallCommand.Execute h (Some p) w).2).
Proof.
  intros Hpath Hsf HT Hdry Hne. split; intros Hbp.
  - rewrite (Monolithic_redirect_resolved h p w path sf ptr bp C F) by done.
    rewrite Hdry. apply RedirectResolved_redirected; [|done].
    by eapply ResolveBlueprint_Some.
  - rewrite (Command_redirect_resolved h p w path sf ptr bp C F) by done.
    rewrite Hdry. apply RedirectResolved_redirected; [|done].
    by eapply DiscoverBlueprint_Some.
Qed.

Lemma redirect_retargets_exactly_the_found_nodes_witness :
  NodesCalling Sample.world Sample.BP_Hero "OldFunc" = [2; 4]%positive
  ∧ Redirected 100%positive Sample.BP_Hero "OldFunc" Sample.NewFunc Sample.world
      (FRedirectFunctionCallCommand.Execute (Sample.host true)
         (Some (Sample.redirect_request "NewFunc" false)) Sample.world).2.
Proof.
  split; [reflexivity|].
  apply (proj2 (redirect_retargets_exactly_the_found_nodes (Sample.host true)
                  (Sample.redirect_request "NewFunc" false) Sample.world
                  "/Game/BP_Hero.BP_Hero" "OldFunc" 100%positive Sample.BP_Hero
                  Sample.NewClass Sample.NewFunc eq_refl eq_refl eq_refl eq_refl
                  ltac:(vm_compute; discriminate))).
  reflexivity.
Defined.

Lemma RedirectResolved_no_match h o dry bk ptr bp sf C F w :
  GetField "nodes_found" (RedirectResolved h o dry bk ptr bp sf C F w).1 = Some (JNumber 0) →
  (RedirectResolved h o dry bk ptr bp sf C F w).2 = w.
Proof.
  rewrite RedirectResolved_nodes_found. intros [= Hn].
  destruct (RedirectResolved_world h o dry bk ptr bp sf C F w)
    as [[_ ->]|(Hc & _)]; [done|].
  rewrite Hn in Hc. done.
Qed.

(** X21. A redirect that reports [nodes_found = 0] has changed nothing,
    whether or not it was a dry run: no node, graph or blueprint is touched
    and no backup is written. *)
Theorem redirect_without_match_changes_nothing h p w :
  (GetField "nodes_found" (Monolithic.HandleRedirectFunctionCall h p w).1
   = Some (JNumber 0) →
   (Monolithic.HandleRedirectFunctionCall h p w).2 = w)
  ∧ (GetField "nodes_found" (FRedirectFunctionCallCommand.Execute h (Some p) w).1
     = Some (JNumber 0) →
     (FRedirectFunctionCallCommand.Execute h (Some p) w).2 = w).
Proof.
  split.
  - destruct (Monolithic_redirect_cases h p w) as [[msg ->]|(? & ? & ? & ? & ? & ? & _ & _ & _ & _ & ->)];
      [done | apply RedirectResolved_no_match].
  - destruct (Command_redirect_cases h (Some p) w)
      as [[msg ->]|(? & ? & ? & ? & ? & ? & ? & _ & _ & _ & _ & _ & ->)];
      [done | apply RedirectResolved_no_match].
Qed.

Lemma redirect_without_match_changes_nothing_witness :
  let p := Sample.request
             [("source_blueprint", "/Game/BP_Hero.BP_Hero"); ("source_function", "NoSuchCall");
              ("target_class", "NewClass"); ("target_function", "NewFunc")]
             [("dry_run", false)] in
  GetField "nodes_found" (FRedirectFunctionCallCommand.Execute (Sample.host true) (Some p)
                            Sample.world).1 = Some (JNumber 0)
  ∧ (FRedirectFunctionCallCommand.Execute (Sample.host true) (Some p) Sample.world).2
    = Sample.world.
Proof.
  cbv zeta. split; [reflexivity|].
  apply (proj2 (redirect_without_match_changes_nothing (Sample.host true)
    (Sample.request
       [("source_blueprint", "/Game/BP_Hero.BP_Hero"); ("source_function", "NoSuchCall");
        ("target_class", "NewClass"); ("target_function", "NewFunc")]
       [("dry_run", false)]) Sample.world)).
  reflexivity.
Defined.

(** ** The engine calls of the delete and of the reparent *)

Lemma Occurrences_0 n l : n ∉ l → Occurrences n l = 0%nat.
Proof.
  unfold Occurrences. induction l as [|a l IH]; [done|]. intros Hn. cbn [List.filter].
  destruct (Pos.eqb_spec n a) as [->|_]; [exfalso; apply Hn; by constructor|].
  apply IH. intros ?. apply Hn. by constructor.
Qed.

Lemma lookup_fold_alter_count {A} (f : A → A) (l : list addr) (m : gmap addr A) n :
  fold_left (fun s a => alter f a s) l m !! n = Nat.iter (Occurrences n l) f <$> m !! n.
Proof.
  unfold Occurrences. revert m. induction l as [|a l IH]; intros m.
  - cbn. by destruct (m !! n).
  - cbn [fold_left List.filter]. rewrite IH.
    destruct (Pos.eqb_spec n a) as [->|Hne].
    + rewrite lookup_alter_eq. cbn [length].
      destruct (m !! a) as [x|]; cbn [fmap option_fmap option_map]; [|done].
      by rewrite Nat.iter_succ_r.
    + by rewrite lookup_alter_ne.
Qed.

Lemma RemoveMacroInstances_frame g w gp :
  let w' := RemoveMacroInstances g w gp in
  Blueprints w' = Blueprints w ∧ Files w' = Files w
  ∧ ExportDirExists w' = ExportDirExists w
  ∧ ∀ g', (GraphName <$> GraphStore w' !! g') = (GraphName <$> GraphStore w !! g').
Proof.
  cbv zeta. unfold RemoveMacroInstances.
  destruct (GraphStore w !! gp) as [G|] eqn:E; [|done].
  cbn [Blueprints Files ExportDirExists GraphStore with_NodeStore with_GraphStore].
  split_and!; try done. intros g'.
  destruct (decide (g' = gp)) as [->|Hne].
  - by rewrite lookup_insert_eq, E.
  - by rewrite lookup_insert_ne.
Qed.

Lemma RemoveMacroInstances_fold_frame g graphs w :
  let w' := fold_left (RemoveMacroInstances g) graphs w in
  Blueprints w' = Blueprints w ∧ Files w' = Files w
  ∧ ExportDirExists w' = ExportDirExists w
  ∧ ∀ g', (GraphName <$> GraphStore w' !! g') = (GraphName <$> GraphStore w !! g').
Proof.
  cbv zeta. revert w. induction graphs as [|gp graphs IH]; intros w; [done|].
  cbn [fold_left].
  destruct (IH (RemoveMacroInstances g w gp)) as (-> & -> & -> & HG).
  destruct (RemoveMacroInstances_frame g w gp) as (-> & -> & -> & HG').
  split_and!; try done. intros g'. by rewrite HG, HG'.
Qed.

Lemma RemoveMacroInstances_outside g w gp g' :
  g' ≠ gp → GraphStore (RemoveMacroInstances g w gp) !! g' = GraphStore w !! g'.
Proof.
  intros Hne. unfold RemoveMacroInstances.
  destruct (GraphStore w !! gp) as [G|]; [|done].
  cbn [GraphStore with_NodeStore with_GraphStore]. by rewrite lookup_insert_ne.
Qed.

Lemma RemoveMacroInstances_fold_outside g graphs w g' :
  g' ∉ graphs →
  GraphStore (fold_left (RemoveMacroInstances g) graphs w) !! g' = GraphStore w !! g'.
Proof.
  revert w. induction graphs as [|gp graphs IH]; intros w Hn; [done|]. cbn [fold_left].
  rewrite IH by (intros ?; apply Hn; by constructor).
  apply RemoveMacroInstances_outside. intros ->. apply Hn. by constructor.
Qed.

Lemma NodeKind_iter_BreakLinksTo Guids k Node :
  NodeKind (Nat.iter k (BreakLinksTo Guids) Node) = NodeKind Node.
Proof. induction k as [|k IH]; [done|]. cbn [Nat.iter]. exact IH. Qed.

Lemma lookup_fold_delete {A} (l : list addr) (m : gmap addr A) n :
  fold_left (fun s a => delete a s) l m !! n = None
  ∨ fold_left (fun s a => delete a s) l m !! n = m !! n.
Proof.
  revert m. induction l as [|a l IH]; intros m; [by right|]. cbn [fold_left].
  destruct (IH (delete a m)) as [->| ->]; [by left|].
  destruct (decide (a = n)) as [->|Hne].
  - left. apply lookup_delete_eq.
  - right. by apply lookup_delete_ne.
Qed.

(** A step of the removal destroys nodes or breaks links: what is still a
    node keeps its kind. *)
Lemma RemoveMacroInstances_kinds g w gp n :
  NodeStore (RemoveMacroInstances g w gp) !! n = None
  ∨ (NodeKind <$> NodeStore (RemoveMacroInstances g w gp) !! n)
    = (NodeKind <$> NodeStore w !! n).
Proof.
  unfold RemoveMacroInstances.
  destruct (GraphStore w !! gp) as [G|]; [|by right].
  cbn [NodeStore with_NodeStore with_GraphStore].
  match goal with
  | |- context [fold_left (fun s a => delete a s) ?l ?m] =>
      destruct (lookup_fold_delete l m n) as [->| ->]; [by left|]
  end.
  right. rewrite lookup_fold_alter_count.
  destruct (NodeStore w !! n) as [Node|]; [|done].
  cbn [fmap option_fmap option_map]. by rewrite NodeKind_iter_BreakLinksTo.
Qed.

Lemma IsMacroInstanceOf_step g w gp n :
  IsMacroInstanceOf (RemoveMacroInstances g w gp) g n = true →
  IsMacroInstanceOf w g n = true.
Proof.
  unfold IsMacroInstanceOf.
  destruct (RemoveMacroInstances_kinds g w gp n) as [-> | ->]; done.
Qed.

Lemma HoldsNoInstance_step g w gp gp0 :
  gp0 = gp ∨ HoldsNoInstance g w gp0 → HoldsNoInstance g (RemoveMacroInstances g w gp) gp0.
Proof.
  intros H G' HG' n Hn. apply not_true_iff_false. intros Hi%IsMacroInstanceOf_step.
  destruct (decide (gp0 = gp)) as [->|Hne].
  - unfold RemoveMacroInstances in HG'.
    destruct (GraphStore w !! gp) as [G|] eqn:E.
    + cbn [GraphStore with_NodeStore with_GraphStore] in HG'.
      rewrite lookup_insert_eq in HG'. injection HG' as <-. cbn [Nodes] in Hn.
      apply list_elem_of_In, filter_In in Hn as [_ Hn]. by rewrite Hi in Hn.
    + by rewrite E in HG'.
  - destruct H as [->|H]; [done|].
    rewrite RemoveMacroInstances_outside in HG' by done.
    by rewrite (H G' HG' n Hn) in Hi.
Qed.

Lemma HoldsNoInstance_fold g graphs w gp0 :
  gp0 ∈ graphs ∨ HoldsNoInstance g w gp0 →
  HoldsNoInstance g (fold_left (RemoveMacroInstances g) graphs w) gp0.
Proof.
  revert w. induction graphs as [|gp graphs IH]; intros w H.
  - destruct H as [H|H]; [by apply elem_of_nil in H | done].
  - cbn [fold_left]. apply IH.
    destruct H as [[->|H]%elem_of_cons|H]; [right | by left | right];
      apply HoldsNoInstance_step; auto.
Qed.

(** What [RemoveGraph] does to the blueprint, to the files and to the names
    of the graphs. *)
Lemma RemoveGraph_frame ptr g w :
  let w' := RemoveGraph ptr g w in
  Blueprints w'
  = alter (fun bp =>
       {| BlueprintName := BlueprintName bp; BlueprintPathName := BlueprintPathName bp;
          PackageName := PackageName bp; ParentClass := ParentClass bp;
          FunctionGraphs := filter (fun g' : addr => g' ≠ g) (FunctionGraphs bp);
          MacroGraphs := filter (fun g' : addr => g' ≠ g) (MacroGraphs bp);
          UbergraphPages := filter (fun g' : addr => g' ≠ g) (UbergraphPages bp);
          Status := Status bp |}) ptr (Blueprints w)
  ∧ Files w' = Files w
  ∧ ExportDirExists w' = ExportDirExists w
  ∧ GraphStore w' !! g = None
  ∧ ∀ g', g' ≠ g → (GraphName <$> GraphStore w' !! g') = (GraphName <$> GraphStore w !! g').
Proof.
  cbv zeta. unfold RemoveGraph.
  set (w1 := with_GraphStore _ _).
  assert (Hcase : ∀ w', (w' = w1 ∨ ∃ graphs, w' = fold_left (RemoveMacroInstances g) graphs w1) →
            Blueprints w' = Blueprints w1 ∧ Files w' = Files w
            ∧ ExportDirExists w' = ExportDirExists w
            ∧ ∀ g', (GraphName <$> GraphStore w' !! g')
                    = (GraphName <$> delete g (GraphStore w) !! g')).
  { intros w' [->|[graphs ->]]; [done|].
    destruct (RemoveMacroInstances_fold_frame g graphs w1) as (-> & -> & -> & HG).
    split_and!; try done. }
  match goal with
  | |- context [Blueprints ?w'] =>
      destruct (Hcase w') as (HB & HF & HD & HG)
  end.
  { destruct (Blueprints w !! ptr) as [bp|]; [|by left].
    destruct (bool_decide _); [right; by eexists | by left]. }
  rewrite HB, HF, HD. split_and!; try done.
  - specialize (HG g). rewrite lookup_delete_eq in HG.
    by destruct (GraphStore _ !! g).
  - intros g' Hne. by rewrite HG, lookup_delete_ne.
Qed.

(** When the graph is not one of the macro graphs, nothing else is touched. *)
Lemma RemoveGraph_not_macro ptr g w bp :
  Blueprints w !! ptr = Some bp → g ∉ MacroGraphs bp →
  GraphStore (RemoveGraph ptr g w) = delete g (GraphStore w)
  ∧ NodeStore (RemoveGraph ptr g w) = NodeStore w.
Proof.
  intros Hbp Hg. unfold RemoveGraph. rewrite Hbp.
  by rewrite bool_decide_eq_false_2.
Qed.

(** The graphs that are not the blueprint's are not touched. *)
Lemma RemoveGraph_outside ptr g w bp g' :
  Blueprints w !! ptr = Some bp → g' ≠ g → g' ∉ GetAllGraphs bp →
  GraphStore (RemoveGraph ptr g w) !! g' = GraphStore w !! g'.
Proof.
  intros Hbp Hne Hout. unfold RemoveGraph. rewrite Hbp.
  destruct (bool_decide _).
  - rewrite RemoveMacroInstances_fold_outside.
    + cbn [GraphStore with_GraphStore]. by apply lookup_delete_ne.
    + intros [_ H]%list_elem_of_filter. by apply Hout.
  - cbn [GraphStore with_GraphStore]. by apply lookup_delete_ne.
Qed.

(** When the graph was one of the macro graphs, no graph that the blueprint
    keeps holds an instance of it afterwards. *)
Lemma RemoveGraph_macro ptr g w bp g' :
  Blueprints w !! ptr = Some bp → g ∈ MacroGraphs bp →
  g' ∈ filter (fun g0 : addr => g0 ≠ g) (GetAllGraphs bp) →
  HoldsNoInstance g (RemoveGraph ptr g w) g'.
Proof.
  intros Hbp Hg Hin. unfold RemoveGraph. rewrite Hbp, bool_decide_eq_true_2 by done.
  apply HoldsNoInstance_fold. by left.
Qed.

Lemma RefreshAllNodes_frame h ptr w :
  let w' := RefreshAllNodes h ptr w in
  Blueprints w' = Blueprints w ∧ GraphStore w' = GraphStore w
  ∧ Files w' = Files w ∧ ExportDirExists w' = ExportDirExists w.
Proof. cbv zeta. unfold RefreshAllNodes. by destruct (Blueprints w !! ptr). Qed.

Lemma lookup_fold_alter {A} (f : A → A) (l : list addr) (m : gmap addr A) n :
  n ∉ l → fold_left (fun s a => alter f a s) l m !! n = m !! n.
Proof.
  revert m. induction l as [|a l IH]; intros m Hn; [done|]. cbn [fold_left].
  rewrite IH by (intros ?; apply Hn; by constructor).
  apply lookup_alter_ne. intros ->. apply Hn. by constructor.
Qed.

Lemma lookup_fold_alter_is_Some {A} (f : A → A) (l : list addr) (m : gmap addr A) n :
  is_Some (fold_left (fun s a => alter f a s) l m !! n) ↔ is_Some (m !! n).
Proof.
  revert m. induction l as [|a l IH]; intros m; [done|]. cbn [fold_left].
  rewrite IH. destruct (decide (a = n)) as [->|Hne].
  - rewrite lookup_alter_eq. by rewrite fmap_is_Some.
  - by rewrite lookup_alter_ne.
Qed.

(** ** Backups, reparenting and deleting, further *)

Lemma WriteJsonToTempFile_path h name json w :
  let r := WriteJsonToTempFile h name json w in
  (r.1 = EmptyString ∧ Files r.2 = Files w)
  ∨ (IsEmpty r.1 = false ∧ Files r.2 = (r.1, json) :: Files w).
Proof.
  cbv zeta. unfold WriteJsonToTempFile, GetExportDirectory.
  destruct (SaveStringToFile h _); [right | left]; cbn [fst snd Files]; [|done].
  split; [|done]. apply PathCombine_not_empty_l, PathCombine_not_empty_r. reflexivity.
Qed.

Lemma ApplyRedirects_Files F l w : Files (ApplyRedirects F l w).1 = Files w.
Proof. by destruct (ApplyRedirects_frame F l w) as (_ & _ & ? & _). Qed.

Lemma RedirectResolved_backup h o dry bk ptr bp sf C F w :
  GetField "backup_path" o = None →
  ReportsItsBackup "source_blueprint" (RedirectResolved h o dry bk ptr bp sf C F w) w
  ∧ ∀ P doc rest, DocString "backup_path" (RedirectResolved h o dry bk ptr bp sf C F w).1
                  = Some P →
                  IsEmpty P = false →
                  Files (RedirectResolved h o dry bk ptr bp sf C F w).2 = (P, doc) :: rest →
                  GetArrayField "original_state" doc
                  = GetArrayField "changes" (RedirectResolved h o dry bk ptr bp sf C F w).1.
Proof.
  intros Ho. unfold ReportsItsBackup.
  assert (Hnone : ∀ r : FJsonObject * World,
            DocString "backup_path" r.1 = None →
            (∀ P, DocString "backup_path" r.1 = Some P → IsEmpty P = false →
                  ∃ doc, Files r.2 = (P, doc) :: Files w
                         ∧ DocString "blueprint_path" doc = DocString "source_blueprint" r.1)
            ∧ (∀ P doc rest, DocString "backup_path" r.1 = Some P → IsEmpty P = false →
                  Files r.2 = (P, doc) :: rest →
                  GetArrayField "original_state" doc = GetArrayField "changes" r.1)).
  { intros r Hr. split; intros; congruence. }
  unfold RedirectResolved.
  destruct (FindNodesToRedirect w bp sf C F) as [l ch].
  destruct (Z.of_nat (length l) =? 0).
  { apply Hnone. cbn [fst]. unfold DocString. unfold_setters.
    by rewrite !GetField_SetField, Ho. }
  destruct dry.
  { apply Hnone. cbn [fst]. unfold DocString. unfold_setters.
    by rewrite !GetField_SetField, Ho. }
  destruct bk.
  - pose proof (WriteJsonToTempFile_path h (RedirectBackupFileName h bp)
      (SetArrayField "original_state" ch
         (SetStringField "backup_time" (NowText h)
            (SetStringField "blueprint_path" (BlueprintPathName bp) MakeJsonObject))) w)
      as Hw.
    cbv zeta in Hw.
    destruct (WriteJsonToTempFile _ _ _ _) as [path w1]. cbn [fst snd] in Hw.
    pose proof (ApplyRedirects_Files F l w1) as HF.
    destruct (ApplyRedirects F l w1) as [w2 c]. cbn [fst snd] in *.
    unfold DocString, GetArrayField. unfold_setters.
    rewrite !GetField_SetField. cbn [String.eqb Ascii.eqb Bool.eqb mbind option_bind AsString].
    unfold MarkBlueprintAsModified. cbn [Files with_Blueprints]. rewrite HF.
    destruct Hw as [[-> Hfiles]|[Hne Hfiles]].
    + split; intros P; intros; simplify_eq; done.
    + rewrite Hfiles. split.
      * intros P [= <-] _. eexists. split; [reflexivity|].
        by rewrite ?GetField_SetField.
      * intros P doc rest [= <-] _ [= <- <-]. by rewrite ?GetField_SetField.
  - apply Hnone. destruct (ApplyRedirects F l w) as [w2 c]. cbn [fst].
    unfold DocString. unfold_setters. by rewrite !GetField_SetField, Ho.
Qed.

Lemma Files_deleted ptr g w :
  Files (MarkBlueprintAsModified ptr (RemoveGraph ptr g w)) = Files w.
Proof. by destruct (RemoveGraph_frame ptr g w) as (_ & ? & _). Qed.

Lemma Files_reparented h ptr c w :
  Files (MarkBlueprintAsModified ptr (RefreshAllNodes h ptr (SetParentClass ptr c w)))
  = Files w.
Proof. by destruct (RefreshAllNodes_frame h ptr (SetParentClass ptr c w)) as (_ & _ & ? & _). Qed.

Lemma DeleteFound_backup Ser h bk ptr bp name g G w :
  ReportsItsBackup "blueprint_path" (DeleteFound Ser h bk ptr bp name g G w) w.
Proof.
  unfold ReportsItsBackup, DeleteFound.
  destruct bk.
  - match goal with |- context [WriteJsonToTempFile ?a ?b ?c ?d] =>
      pose proof (WriteJsonToTempFile_path a b c d) as Hw;
      destruct (WriteJsonToTempFile a b c d) as [path w1] end.
    cbv zeta in Hw. cbn [fst snd] in *.
    rewrite Files_deleted.
    unfold DocString. unfold_setters.
    destruct Hw as [[-> Hfiles]|[Hne Hfiles]].
    + cbn [IsEmpty negb some_if SetWhen]. rewrite !GetField_SetField.
      cbn [String.eqb Ascii.eqb Bool.eqb]. done.
    + rewrite Hne. cbn [negb some_if SetWhen]. rewrite !GetField_SetField.
      cbn [String.eqb Ascii.eqb Bool.eqb mbind option_bind AsString].
      intros P [= <-] _. rewrite Hfiles. eexists. split; [reflexivity|].
      by rewrite ?GetField_SetField.
  - cbn [fst snd IsEmpty negb some_if SetWhen]. unfold DocString. unfold_setters.
    rewrite !GetField_SetField. cbn [String.eqb Ascii.eqb Bool.eqb]. done.
Qed.

Lemma ReparentResolved_backup h bk ptr bp c w :
  ReportsItsBackup "blueprint_path" (ReparentResolved h bk ptr bp c w) w.
Proof.
  unfold ReportsItsBackup, ReparentResolved.
  destruct bk.
  - match goal with |- context [WriteJsonToTempFile ?a ?b ?c ?d] =>
      pose proof (WriteJsonToTempFile_path a b c d) as Hw;
      destruct (WriteJsonToTempFile a b c d) as [path w1] end.
    cbv zeta in Hw. cbn [fst snd] in *.
    rewrite Files_reparented.
    unfold DocString. unfold_setters.
    destruct Hw as [[-> Hfiles]|[Hne Hfiles]].
    + cbn [IsEmpty negb some_if SetWhen]. rewrite !GetField_SetField.
      cbn [String.eqb Ascii.eqb Bool.eqb]. done.
    + rewrite Hne. cbn [negb some_if SetWhen]. rewrite !GetField_SetField.
      cbn [String.eqb Ascii.eqb Bool.eqb mbind option_bind AsString].
      intros P [= <-] _. rewrite Hfiles. eexists. split; [reflexivity|].
      by rewrite ?GetField_SetField.
  - cbn [fst snd IsEmpty negb some_if SetWhen]. unfold DocString. unfold_setters.
    rewrite !GetField_SetField. cbn [String.eqb Ascii.eqb Bool.eqb]. done.
Qed.

Lemma ReportsItsBackup_error subject msg w :
  ReportsItsBackup subject (CreateErrorResponse msg, w) w.
Proof. intros P HP. done. Qed.

Ltac backup_cases :=
  repeat match goal with
         | |- context [match ?x with Some _ => _ | None => _ end] =>
             destruct x as [?|]; [|apply ReportsItsBackup_error]
         | |- context [let (_, _) := ?x in _] => destruct x
         end.

(** X22. A [backup_path] that a redirect, delete or reparent command
    reports, when not empty, names the file this command wrote: it is the
    newest file, the only one added, and holds the path of the blueprint the
    response names; the [original_state] of a redirect backup is the
    [changes] of the response. *)
Theorem reported_backup_is_the_file_written h p w :
  ReportsItsBackup "source_blueprint" (FRedirectFunctionCallCommand.Execute h p w) w
  ∧ ReportsItsBackup "blueprint_path" (FDeleteBlueprintFunctionCommand.Execute h p w) w
  ∧ ReportsItsBackup "blueprint_path" (FSetBlueprintParentClassCommand.Execute h p w) w
  ∧ (let r := FRedirectFunctionCallCommand.Execute h p w in
     ∀ P doc rest, DocString "backup_path" r.1 = Some P → IsEmpty P = false →
                   Files r.2 = (P, doc) :: rest →
                   GetArrayField "original_state" doc = GetArrayField "changes" r.1).
Proof.
  split_and!.
  - unfold FRedirectFunctionCallCommand.Execute. backup_cases.
    by apply RedirectResolved_backup.
  - unfold FDeleteBlueprintFunctionCommand.Execute. backup_cases.
    apply DeleteFound_backup.
  - unfold FSetBlueprintParentClassCommand.Execute. backup_cases.
    apply ReparentResolved_backup.
  - cbv zeta. unfold FRedirectFunctionCallCommand.Execute.
    repeat match goal with
           | |- context [match ?x with Some _ => _ | None => _ end] =>
               destruct x as [?|]; [|by intros]
           | |- context [let (_, _) := ?x in _] => destruct x
           end.
    by apply RedirectResolved_backup.
Qed.

Lemma reported_backup_is_the_file_written_witness :
  let r := FRedirectFunctionCallCommand.Execute (Sample.host true)
             (Some (Sample.redirect_request "NewFunc" false)) Sample.world in
  DocString "backup_path" r.1
  = Some "Saved/UnrealMCP/Exports/backup_BP_Hero_20240101_120000.json"
  ∧ ∃ doc, Files r.2
           = [("Saved/UnrealMCP/Exports/backup_BP_Hero_20240101_120000.json", doc)]
           ∧ DocString "blueprint_path" doc = DocString "source_blueprint" r.1.
Proof.
  cbv zeta. split; [reflexivity|].
  apply (proj1 (reported_backup_is_the_file_written (Sample.host true)
                  (Some (Sample.redirect_request "NewFunc" false)) Sample.world));
    reflexivity.
Defined.

(** The world after the three steps of a reparent. *)
Lemma Reparent_steps h ptr bp c w1 w :
  SameObjects w1 w → Blueprints w !! ptr = Some bp →
  let w' := MarkBlueprintAsModified ptr (RefreshAllNodes h ptr (SetParentClass ptr c w1)) in
  Blueprints w' !! ptr = Some (WithParent c bp)
  ∧ (∀ a, a ≠ ptr → Blueprints w' !! a = Blueprints w !! a)
  ∧ GraphStore w' = GraphStore w
  ∧ (∀ n, n ∉ NodesOf w bp → NodeStore w' !! n = NodeStore w !! n)
  ∧ (∀ n, NodeStore w' !! n
          = Nat.iter (Occurrences n (NodesOf w bp)) (ReconstructNode h (ParentSet c bp))
            <$> NodeStore w !! n).
Proof.
  intros (HB & HG & HN) Hbp. cbv zeta.
  assert (HP : Blueprints (SetParentClass ptr c w1) !! ptr = Some (ParentSet c bp)).
  { unfold SetParentClass. cbn [Blueprints with_Blueprints].
    by rewrite lookup_alter_eq, HB, Hbp. }
  assert (Hnodes : ∀ n, NodeStore (RefreshAllNodes h ptr (SetParentClass ptr c w1)) !! n
            = Nat.iter (Occurrences n (NodesOf w bp)) (ReconstructNode h (ParentSet c bp))
              <$> NodeStore w !! n).
  { intros n. unfold RefreshAllNodes. rewrite HP.
    cbn [NodeStore with_NodeStore]. rewrite lookup_fold_alter_count.
    unfold SetParentClass. cbn [NodeStore GraphStore with_Blueprints].
    by rewrite HG, HN. }
  destruct (RefreshAllNodes_frame h ptr (SetParentClass ptr c w1)) as (RB & RG & _).
  cbv zeta in RB, RG.
  unfold MarkBlueprintAsModified. cbn [Blueprints GraphStore NodeStore with_Blueprints].
  rewrite RB, RG. split_and!.
  - unfold SetParentClass. cbn [Blueprints with_Blueprints].
    by rewrite !lookup_alter_eq, HB, Hbp.
  - intros a Ha. unfold SetParentClass. cbn [Blueprints with_Blueprints].
    by rewrite !lookup_alter_ne, HB.
  - exact HG.
  - intros n Hn. rewrite Hnodes, (Occurrences_0 n _ Hn). cbn [Nat.iter].
    by destruct (NodeStore w !! n).
  - exact Hnodes.
Qed.

Lemma ReparentResolved_reparented h bk ptr bp c w :
  Blueprints w !! ptr = Some bp →
  Reparented h ptr bp c w (ReparentResolved h bk ptr bp c w).
Proof.
  intros Hbp. unfold Reparented, ReparentResolved.
  assert (Hw : ∀ (path : string) w1, SameObjects w1 w →
    let r := (MakeJsonObject
       |> SetBoolField "success" true
       |> SetStringField "blueprint_path" (BlueprintPathName bp)
       |> SetStringField "old_parent_class"
            (match ParentClass bp with Some c => ClassName c | None => "None" end)
       |> SetStringField "new_parent_class" (ClassName c)
       |> SetStringField "new_parent_class_path" (ClassPathName c)
       |> SetWhen (some_if (negb (IsEmpty path)) path) (SetStringField "backup_path")
       |> SetBoolField "requires_compile" true
       |> SetStringField "message"
            ("Successfully reparented Blueprint from '"
             +:+ (match ParentClass bp with Some c => ClassName c | None => "None" end)
             +:+ "' to '" +:+ ClassName c +:+ "'"),
       MarkBlueprintAsModified ptr (RefreshAllNodes h ptr (SetParentClass ptr c w1))) in
    Blueprints r.2 !! ptr = Some (WithParent c bp)
    ∧ (∀ a, a ≠ ptr → Blueprints r.2 !! a = Blueprints w !! a)
    ∧ GraphStore r.2 = GraphStore w
    ∧ (∀ n, n ∉ NodesOf w bp → NodeStore r.2 !! n = NodeStore w !! n)
    ∧ (∀ n, NodeStore r.2 !! n
            = Nat.iter (Occurrences n (NodesOf w bp)) (ReconstructNode h (ParentSet c bp))
              <$> NodeStore w !! n)
    ∧ DocString "old_parent_class" r.1
      = Some (match ParentClass bp with Some c => ClassName c | None => "None" end)
    ∧ DocString "new_parent_class" r.1 = Some (ClassName c)).
  { intros path w1 HS. cbv zeta. cbn [fst snd].
    destruct (Reparent_steps h ptr bp c w1 w HS Hbp) as (A1 & A2 & A3 & A4 & A5).
    split_and!; try done.
    - unfold DocString. unfold_setters.
      destruct (some_if _ _); cbn [SetWhen]; by rewrite !GetField_SetField.
    - unfold DocString. unfold_setters.
      destruct (some_if _ _); cbn [SetWhen]; by rewrite !GetField_SetField. }
  destruct bk.
  - match goal with |- context [WriteJsonToTempFile ?a ?b ?c ?d] =>
      pose proof (WriteJsonToTempFile_frame a b c d) as Hf;
      destruct (WriteJsonToTempFile a b c d) as [path w1] end.
    cbv zeta in Hf. cbn [snd] in Hf. by apply Hw.
  - by apply Hw.
Qed.

Lemma reparent_effect_core h p w path name ptr bp c :
  TryGetStringField p "blueprint_path" = Some path →
  TryGetStringField p "new_parent_class" = Some name →
  (ResolveBlueprint h w path = Some (ptr, bp) →
   DispatcherParentClass h name = Some c →
   Reparented h ptr bp c w (Monolithic.HandleSetBlueprintParentClass h p w))
  ∧ (DiscoverBlueprint h w path = Some (ptr, bp) →
     CommandParentClass h name = Some c →
     Reparented h ptr bp c w (FSetBlueprintParentClassCommand.Execute h (Some p) w)).
Proof.
  intros Hpath Hname. split; intros Hbp Hc.
  - unfold Monolithic.HandleSetBlueprintParentClass.
    rewrite Hpath, Hname, Hbp. fold (DispatcherParentClass h name). rewrite Hc.
    apply ReparentResolved_reparented. by eapply ResolveBlueprint_Some.
  - unfold FSetBlueprintParentClassCommand.Execute.
    rewrite Hpath, Hname, Hbp.
    fold (DispatcherParentClass h name). fold (CommandParentClass h name). rewrite Hc.
    apply ReparentResolved_reparented. by eapply DiscoverBlueprint_Some.
Qed.

(** X23. A reparent that resolves its blueprint and its class gives the
    blueprint the new parent class and marks it modified; every other
    blueprint and every graph is as before.  The nodes that the graphs of the
    blueprint hold are reconstructed by the engine in the reparented
    blueprint, once for each time a graph holds them; every other node is
    as before.  The response names the parent class the blueprint had, or
    "None" when it had none. *)
Theorem reparent_sets_the_parent_class h p w path name ptr bp c :
  TryGetStringField p "blueprint_path" = Some path →
  TryGetStringField p "new_parent_class" = Some name →
  (ResolveBlueprint h w path = Some (ptr, bp) →
   DispatcherParentClass h name = Some c →
   Reparented h ptr bp c w (Monolithic.HandleSetBlueprintParentClass h p w))
  ∧ (DiscoverBlueprint h w path = Some (ptr, bp) →
     CommandParentClass h name = Some c →
     Reparented h ptr bp c w (FSetBlueprintParentClassCommand.Execute h (Some p) w)).
Proof. exact (reparent_effect_core h p w path name ptr bp c). Qed.

(** On the sample host a reconstruction rebuilds the pins: the call node of
    [DoWork] has lost its null pin after the reparent. *)
Lemma reparent_sets_the_parent_class_witness :
  let r := FSetBlueprintParentClassCommand.Execute (Sample.host true)
             (Some Sample.reparent_request) Sample.world in
  Reparented (Sample.host true) 100%positive Sample.BP_Hero Sample.NewClass Sample.world r
  ∧ (length ∘ Pins <$> NodeStore Sample.world !! 2%positive) = Some 3%nat
  ∧ (length ∘ Pins <$> NodeStore r.2 !! 2%positive) = Some 2%nat.
Proof.
  cbv zeta. split; [|split; reflexivity].
  apply (proj2 (reparent_sets_the_parent_class (Sample.host true) Sample.reparent_request
                  Sample.world "/Game/BP_Hero.BP_Hero" "NewClass" 100%positive
                  Sample.BP_Hero Sample.NewClass eq_refl eq_refl));
    reflexivity.
Defined.

Lemma LookupBlueprint_retouched w w' ptr bp' a :
  Blueprints w' !! ptr = Some bp' →
  (∀ a, a ≠ ptr → Blueprints w' !! a = Blueprints w !! a) →
  LookupBlueprint w' a
  = if decide (a = ptr) then Some (ptr, bp') else LookupBlueprint w a.
Proof.
  intros Hp Ho. unfold LookupBlueprint. destruct (decide (a = ptr)) as [->|Hne].
  - by rewrite Hp.
  - by rewrite Ho.
Qed.

Lemma DiscoverBlueprint_retouched h w w' path ptr bp bp' :
  Blueprints w' !! ptr = Some bp' →
  (∀ a, a ≠ ptr → Blueprints w' !! a = Blueprints w !! a) →
  DiscoverBlueprint h w path = Some (ptr, bp) →
  DiscoverBlueprint h w' path = Some (ptr, bp').
Proof.
  intros Hp Ho. unfold DiscoverBlueprint, or_else.
  assert (HL : ∀ x : option addr,
            match x ≫= LookupBlueprint w with
            | Some r => r.1 = ptr → x ≫= LookupBlueprint w' = Some (ptr, bp')
            | None => x ≫= LookupBlueprint w' = None
                      ∨ x ≫= LookupBlueprint w' = Some (ptr, bp')
            end).
  { intros [a|]; cbn [mbind option_bind]; [|by left].
    rewrite (LookupBlueprint_retouched w w' ptr bp' a Hp Ho).
    destruct (LookupBlueprint w a) as [[a' b]|] eqn:E.
    - apply LookupBlueprint_Some in E as [-> _]. cbn. intros ->. by rewrite decide_True.
    - destruct (decide (a = ptr)); [by right | by left]. }
  pose proof (HL (LoadBlueprint h path)) as H1.
  destruct (LoadBlueprint h path ≫= LookupBlueprint w) as [[a b]|].
  - intros [= -> ->]. by rewrite H1.
  - destruct H1 as [->| ->]; [|done].
    destruct (FindBlueprints h path) as [|First rest]; [done|].
    pose proof (HL (LoadBlueprint h First)) as H2.
    destruct (LoadBlueprint h First ≫= LookupBlueprint w) as [[a b]|]; [|done].
    intros [= -> ->]. by apply H2.
Qed.

Lemma ResolveBlueprint_retouched h w w' path ptr bp bp' :
  Blueprints w' !! ptr = Some bp' →
  (∀ a, a ≠ ptr → Blueprints w' !! a = Blueprints w !! a) →
  ResolveBlueprint h w path = Some (ptr, bp) →
  ResolveBlueprint h w' path = Some (ptr, bp').
Proof.
  intros Hp Ho. unfold ResolveBlueprint, or_else.
  assert (HL : ∀ x : option addr,
            match x ≫= LookupBlueprint w with
            | Some r => r.1 = ptr → x ≫= LookupBlueprint w' = Some (ptr, bp')
            | None => x ≫= LookupBlueprint w' = None
                      ∨ x ≫= LookupBlueprint w' = Some (ptr, bp')
            end).
  { intros [a|]; cbn [mbind option_bind]; [|by left].
    rewrite (LookupBlueprint_retouched w w' ptr bp' a Hp Ho).
    destruct (LookupBlueprint w a) as [[a' b]|] eqn:E.
    - apply LookupBlueprint_Some in E as [-> _]. cbn. intros ->. by rewrite decide_True.
    - destruct (decide (a = ptr)); [by right | by left]. }
  pose proof (HL (LoadBlueprint h path)) as H1.
  destruct (LoadBlueprint h path ≫= LookupBlueprint w) as [[a b]|].
  - intros [= -> ->]. by rewrite H1.
  - destruct H1 as [->| ->]; [|done].
    pose proof (HL (FindBlueprint h path)) as H2.
    destruct (FindBlueprint h path ≫= LookupBlueprint w) as [[a b]|]; [|done].
    intros [= -> ->]. by apply H2.
Qed.

Lemma Reparented_back h ptr bp c0 c1 w r1 r2 :
  ParentClass bp = Some c0 →
  Reparented h ptr bp c1 w r1 →
  Reparented h ptr (WithParent c1 bp) c0 r1.2 r2 →
  ParentRestored h ptr bp c1 w r2.2
  ∧ DocString "old_parent_class" r2.1 = Some (ClassName c1).
Proof.
  intros Hc0 (A1 & A2 & A3 & A4 & A5 & _) (B1 & B2 & B3 & B4 & B5 & B6 & _).
  assert (Hm : WithParent c0 (WithParent c1 bp) = MarkedModified bp).
  { unfold WithParent, MarkedModified. cbn. by rewrite Hc0. }
  assert (Hs : ParentSet c0 (WithParent c1 bp) = MarkedModified bp).
  { unfold ParentSet, WithParent, MarkedModified. cbn. by rewrite Hc0. }
  assert (Hn : NodesOf r1.2 (WithParent c1 bp) = NodesOf w bp).
  { unfold NodesOf. by rewrite A3. }
  rewrite Hn in B4, B5. rewrite Hs in B5. rewrite Hm in B1.
  split; [|exact B6]. unfold ParentRestored. split_and!.
  - exact B1.
  - intros a Ha. by rewrite B2, A2.
  - by rewrite B3, A3.
  - intros n Hnot. by rewrite B4, A4.
  - intros n. rewrite B5, A5. by destruct (NodeStore w !! n).
Qed.

(** X24. Reparenting a blueprint and then reparenting it to the class it had
    restores the record of the blueprint - names, parent class and graph
    lists - except that the blueprint is marked modified; every other
    blueprint, every graph and every node outside the graphs of the blueprint
    is as it was, and the second response names the class of the first
    reparent as the old parent.  The nodes in the graphs of the blueprint are
    not put back: each has been reconstructed by the engine under the class
    in between and then under the restored one. *)
Theorem reparenting_back_restores_the_parent h p1 p2 w path name1 name2 ptr bp c0 c1 :
  TryGetStringField p1 "blueprint_path" = Some path →
  TryGetStringField p2 "blueprint_path" = Some path →
  TryGetStringField p1 "new_parent_class" = Some name1 →
  TryGetStringField p2 "new_parent_class" = Some name2 →
  ParentClass bp = Some c0 →
  (ResolveBlueprint h w path = Some (ptr, bp) →
   DispatcherParentClass h name1 = Some c1 →
   DispatcherParentClass h name2 = Some c0 →
   let r := Monolithic.HandleSetBlueprintParentClass h p2
              (Monolithic.HandleSetBlueprintParentClass h p1 w).2 in
   ParentRestored h ptr bp c1 w r.2
   ∧ DocString "old_parent_class" r.1 = Some (ClassName c1))
  ∧ (DiscoverBlueprint h w path = Some (ptr, bp) →
     CommandParentClass h name1 = Some c1 →
     CommandParentClass h name2 = Some c0 →
     let r := FSetBlueprintParentClassCommand.Execute h (Some p2)
                (FSetBlueprintParentClassCommand.Execute h (Some p1) w).2 in
     ParentRestored h ptr bp c1 w r.2
     ∧ DocString "old_parent_class" r.1 = Some (ClassName c1)).
Proof.
  intros Hp1 Hp2 Hn1 Hn2 Hc0.
  split; intros Hbp H1 H2; cbv zeta.
  - pose proof (proj1 (reparent_effect_core h p1 w path name1 ptr bp c1 Hp1 Hn1) Hbp H1) as A.
    pose proof A as (A1 & A2 & _).
    pose proof (ResolveBlueprint_retouched h w _ path ptr bp _ A1 A2 Hbp) as Hbp'.
    pose proof (proj1 (reparent_effect_core h p2 _ path name2 ptr _ c0 Hp2 Hn2) Hbp' H2) as B.
    exact (Reparented_back h ptr bp c0 c1 w _ _ Hc0 A B).
  - pose proof (proj2 (reparent_effect_core h p1 w path name1 ptr bp c1 Hp1 Hn1) Hbp H1) as A.
    pose proof A as (A1 & A2 & _).
    pose proof (DiscoverBlueprint_retouched h w _ path ptr bp _ A1 A2 Hbp) as Hbp'.
    pose proof (proj2 (reparent_effect_core h p2 _ path name2 ptr _ c0 Hp2 Hn2) Hbp' H2) as B.
    exact (Reparented_back h ptr bp c0 c1 w _ _ Hc0 A B).
Qed.

(** On the sample host, where a reconstruction rebuilds the pins, the call
    node of [UseHero] does not get its null pin back. *)
Lemma reparenting_back_restores_the_parent_witness :
  let r := FSetBlueprintParentClassCommand.Execute (Project.host true)
             (Some (Project.reparent_request "NewClass"))
             (FSetBlueprintParentClassCommand.Execute (Project.host true)
                (Some (Project.reparent_request "HeroBase")) Project.world).2 in
  (ParentRestored (Project.host true) 101%positive Project.BP_User Project.HeroBase
     Project.world r.2
   ∧ DocString "old_parent_class" r.1 = Some "HeroBase")
  ∧ Blueprints r.2 !! 101%positive = Some (MarkedModified Project.BP_User)
  ∧ NodeStore r.2 !! 7%positive ≠ NodeStore Project.world !! 7%positive.
Proof.
  cbv zeta. split; [|split; [reflexivity | vm_compute; discriminate]].
  apply (proj2 (reparenting_back_restores_the_parent (Project.host true)
                  (Project.reparent_request "HeroBase") (Project.reparent_request "NewClass")
                  Project.world "/Game/BP_User" "HeroBase" "NewClass" 101%positive
                  Project.BP_User Sample.NewClass Project.HeroBase
                  eq_refl eq_refl eq_refl eq_refl eq_refl));
    reflexivity.
Defined.

Lemma FindGraphByName_Some w graphs name g G :
  FindGraphByName w graphs name = Some (g, G) →
  g ∈ graphs ∧ GraphStore w !! g = Some G ∧ FString_eqb (GraphName G) name = true.
Proof.
  induction graphs as [|g' graphs IH]; [done|]. cbn [FindGraphByName].
  destruct (GraphStore w !! g') as [G'|] eqn:E.
  - destruct (FString_eqb (GraphName G') name) eqn:En.
    + intros [= <- <-]. split_and!; [by constructor | done | done].
    + intros H. destruct (IH H) as (? & ? & ?). split_and!; [by constructor | done | done].
  - intros H. destruct (IH H) as (? & ? & ?). split_and!; [by constructor | done | done].
Qed.

Lemma FindGraphToDelete_Some w bp name g G :
  FindGraphToDelete w bp name = Some (g, G) →
  g ∈ GetAllGraphs bp ∧ GraphStore w !! g = Some G ∧ FString_eqb (GraphName G) name = true.
Proof.
  unfold FindGraphToDelete, or_else.
  destruct (FindGraphByName w (GetAllGraphs bp) name) as [[g' G']|] eqn:E.
  - intros [= -> ->]. by apply FindGraphByName_Some.
  - intros H. apply FindGraphByName_Some in H as (Hin & ? & ?).
    split_and!; [|done|done]. unfold GetAllGraphs. apply elem_of_app. by left.
Qed.

Lemma FindGraphByName_first w graphs name g G :
  FindGraphByName w graphs name = Some (g, G) → FirstNamed w graphs name g G.
Proof.
  induction graphs as [|g' graphs IH]; [done|]. cbn [FindGraphByName].
  assert (Hnext : FindGraphByName w graphs name = Some (g, G) →
            (∀ G', GraphStore w !! g' = Some G' → FString_eqb (GraphName G') name = false) →
            FirstNamed w (g' :: graphs) name g G).
  { intros H Hg'. destruct (IH H) as (Before & After & -> & HG & Hn & HB).
    exists (g' :: Before), After. split_and!; try done.
    intros g0 G0 [->|Hin]%elem_of_cons HG0; [by apply Hg' | by apply (HB g0 G0)]. }
  destruct (GraphStore w !! g') as [G'|] eqn:E.
  - destruct (FString_eqb (GraphName G') name) eqn:En.
    + intros [= <- <-]. exists [], graphs. split_and!; try done.
      intros g0 G0 H. by apply elem_of_nil in H.
    + intros H. apply Hnext; [done|]. by intros ? [= <-].
  - intros H. apply Hnext; [done|]. by intros ? [=].
Qed.

(** The graph to delete is the first graph of that name among all the graphs
    of the blueprint: the second search, in the function graphs alone, finds
    nothing that the first has not found. *)
Lemma FindGraphToDelete_first w bp name g G :
  FindGraphToDelete w bp name = Some (g, G) → FirstNamed w (GetAllGraphs bp) name g G.
Proof.
  unfold FindGraphToDelete, or_else.
  destruct (FindGraphByName w (GetAllGraphs bp) name) as [[g' G']|] eqn:E.
  - intros [= -> ->]. by apply FindGraphByName_first.
  - intros H. apply FindGraphByName_Some in H as (Hin & HG & Hn).
    assert (FindGraphByName w (GetAllGraphs bp) name ≠ None) as []; [|done].
    clear E. unfold GetAllGraphs.
    assert (Hin' : g ∈ FunctionGraphs bp ++ MacroGraphs bp ++ UbergraphPages bp)
      by (apply elem_of_app; by left).
    revert Hin'. generalize (FunctionGraphs bp ++ MacroGraphs bp ++ UbergraphPages bp).
    intros l. induction l as [|a l IH]; [by intros ?%elem_of_nil|].
    intros [->|Hl]%elem_of_cons; cbn [FindGraphByName].
    + by rewrite HG, Hn.
    + destruct (GraphStore w !! a) as [Ga|]; [|by apply IH].
      destruct (FString_eqb (GraphName Ga) name); [done | by apply IH].
Qed.

(** The world after the two steps of a delete. *)
Lemma Delete_steps ptr bp g w1 w :
  SameObjects w1 w → Blueprints w !! ptr = Some bp →
  let w' := MarkBlueprintAsModified ptr (RemoveGraph ptr g w1) in
  Blueprints w' !! ptr = Some (WithoutGraph g bp)
  ∧ (∀ a, a ≠ ptr → Blueprints w' !! a = Blueprints w !! a)
  ∧ GraphStore w' !! g = None
  ∧ (∀ g', g' ≠ g → (GraphName <$> GraphStore w' !! g') = (GraphName <$> GraphStore w !! g'))
  ∧ (∀ g', g' ≠ g → g' ∉ GetAllGraphs bp → GraphStore w' !! g' = GraphStore w !! g')
  ∧ (g ∉ MacroGraphs bp →
       GraphStore w' = delete g (GraphStore w) ∧ NodeStore w' = NodeStore w)
  ∧ (g ∈ MacroGraphs bp →
       ∀ g', g' ∈ GetAllGraphs (WithoutGraph g bp) → HoldsNoInstance g w' g').
Proof.
  intros (HB & HG & HN) Hbp. cbv zeta.
  assert (Hbp1 : Blueprints w1 !! ptr = Some bp) by (by rewrite HB).
  destruct (RemoveGraph_frame ptr g w1) as (RB & _ & _ & Rg & Rn). cbv zeta in RB, Rg, Rn.
  unfold MarkBlueprintAsModified.
  assert (HM : ∀ x, IsMacroInstanceOf
                      (with_Blueprints (RemoveGraph ptr g w1)
                         (alter (fun bp0 =>
                            {| BlueprintName := BlueprintName bp0;
                               BlueprintPathName := BlueprintPathName bp0;
                               PackageName := PackageName bp0; ParentClass := ParentClass bp0;
                               FunctionGraphs := FunctionGraphs bp0;
                               MacroGraphs := MacroGraphs bp0;
                               UbergraphPages := UbergraphPages bp0; Status := BS_Dirty |})
                            ptr (Blueprints (RemoveGraph ptr g w1)))) g x
                    = IsMacroInstanceOf (RemoveGraph ptr g w1) g x) by done.
  cbn [Blueprints GraphStore NodeStore with_Blueprints].
  split_and!.
  - by rewrite RB, !lookup_alter_eq, HB, Hbp.
  - intros a Ha. by rewrite RB, !lookup_alter_ne, HB.
  - exact Rg.
  - intros g' Hne. by rewrite Rn, HG.
  - intros g' Hne Hout. by rewrite (RemoveGraph_outside ptr g w1 bp g'), HG.
  - intros Hg. destruct (RemoveGraph_not_macro ptr g w1 bp Hbp1 Hg) as [-> ->].
    by rewrite HG, HN.
  - intros Hg g' Hin G' HG' n Hn. rewrite HM.
    refine (RemoveGraph_macro ptr g w1 bp g' Hbp1 Hg _ G' HG' n Hn).
    unfold GetAllGraphs, WithoutGraph in Hin.
    cbn [FunctionGraphs MacroGraphs UbergraphPages] in Hin.
    unfold GetAllGraphs. by rewrite !filter_app.
Qed.

Lemma DeleteFound_deleted Ser h bk ptr bp name g G w :
  Blueprints w !! ptr = Some bp →
  Deleted ptr bp g G w (DeleteFound Ser h bk ptr bp name g G w).
Proof.
  intros Hbp. unfold Deleted, DeleteFound.
  assert (Hr : ∀ path : string,
    DocNumber "nodes_removed"
      (MakeJsonObject
       |> SetBoolField "success" true
       |> SetStringField "blueprint_path" (BlueprintPathName bp)
       |> SetStringField "function_name" name
       |> SetNumberField "nodes_removed" (Z.of_nat (length (Nodes G)))
       |> SetWhen (some_if (negb (IsEmpty path)) path) (SetStringField "backup_path")
       |> SetBoolField "requires_compile" true
       |> SetStringField "message"
            ("Successfully deleted function '" +:+ name +:+ "' ("
             +:+ pretty (Z.of_nat (length (Nodes G))) +:+ " nodes)"))
    = Some (Z.of_nat (length (Nodes G)))).
  { intros path. unfold DocNumber. unfold_setters.
    destruct (some_if _ _); cbn [SetWhen]; by rewrite !GetField_SetField. }
  destruct bk.
  - match goal with |- context [WriteJsonToTempFile ?a ?b ?c ?d] =>
      pose proof (WriteJsonToTempFile_frame a b c d) as Hf;
      destruct (WriteJsonToTempFile a b c d) as [path w1] end.
    cbv zeta in Hf. cbn [snd] in Hf. cbn [fst snd].
    destruct (Delete_steps ptr bp g w1 w Hf Hbp) as (? & ? & ? & ? & ? & ? & ?).
    by rewrite Hr.
  - cbn [fst snd].
    destruct (Delete_steps ptr bp g w w (SameObjects_refl w) Hbp) as (? & ? & ? & ? & ? & ? & ?).
    by rewrite Hr.
Qed.

Lemma delete_effect_core h p w path name ptr bp g G :
  TryGetStringField p "blueprint_path" = Some path →
  TryGetStringField p "function_name" = Some name →
  FindGraphToDelete w bp name = Some (g, G) →
  (ResolveBlueprint h w path = Some (ptr, bp) →
   Deleted ptr bp g G w (Monolithic.HandleDeleteBlueprintFunction h p w))
  ∧ (DiscoverBlueprint h w path = Some (ptr, bp) →
     Deleted ptr bp g G w (FDeleteBlueprintFunctionCommand.Execute h (Some p) w)).
Proof.
  intros Hpath Hname Hg. split; intros Hbp.
  - unfold Monolithic.HandleDeleteBlueprintFunction. rewrite Hpath, Hname, Hbp, Hg.
    apply DeleteFound_deleted. by eapply ResolveBlueprint_Some.
  - unfold FDeleteBlueprintFunctionCommand.Execute. rewrite Hpath, Hname, Hbp, Hg.
    apply DeleteFound_deleted. by eapply DiscoverBlueprint_Some.
Qed.

(** X25. The graph a delete finds is the first that the blueprint holds, among
    its function graphs, macro graphs and event graph pages in this order,
    whose name equals [function_name] ignoring case.  The delete takes it out
    of the store and out of every graph list of the blueprint, which is
    marked modified; other blueprints are as before; every other graph is
    still there under its name, and the graphs that are not the blueprint's
    are as before.  When the graph was not one of the macro graphs of the
    blueprint, every other graph and every node is as before; when it was, no
    graph that the blueprint keeps holds an instance of it any more.
    [nodes_removed] is the size of the [Nodes] array of the graph. *)
Theorem delete_removes_the_graph_found h p w path name ptr bp g G :
  TryGetStringField p "blueprint_path" = Some path →
  TryGetStringField p "function_name" = Some name →
  FindGraphToDelete w bp name = Some (g, G) →
  FirstNamed w (GetAllGraphs bp) name g G
  ∧ (ResolveBlueprint h w path = Some (ptr, bp) →
     Deleted ptr bp g G w (Monolithic.HandleDeleteBlueprintFunction h p w))
  ∧ (DiscoverBlueprint h w path = Some (ptr, bp) →
     Deleted ptr bp g G w (FDeleteBlueprintFunctionCommand.Execute h (Some p) w)).
Proof.
  intros Hpath Hname Hg. split; [by apply FindGraphToDelete_first|].
  exact (delete_effect_core h p w path name ptr bp g G Hpath Hname Hg).
Qed.

(** On the samples: the event graph of [BP_Hero], found under another
    spelling of its name; and the macro graph [Helper] of [BP_User], whose
    instance in the graph [NewFunc] goes with it, the entry node losing its
    link to the instance. *)
Lemma delete_removes_the_graph_found_witness :
  let r := Monolithic.HandleDeleteBlueprintFunction (Project.host true)
             (Project.delete_request "Helper") Project.world in
  Deleted 100%positive Sample.BP_Hero 11%positive Sample.EventGraph Sample.world
    (FDeleteBlueprintFunctionCommand.Execute (Sample.host true)
       (Some (Sample.delete_request "eventgraph")) Sample.world)
  ∧ Deleted 101%positive Project.BP_User 13%positive Project.Helper Project.world r
  ∧ (Nodes <$> GraphStore Project.world !! 15%positive) = Some [16; 17]%positive
  ∧ (Nodes <$> GraphStore r.2 !! 15%positive) = Some [16%positive]
  ∧ NodeStore r.2 !! 17%positive = None
  ∧ (Pins <$> NodeStore r.2 !! 16%positive)
    = Some [Some {| PinName := "then"; Direction := EGPD_Output;
                    PinType := Sample.ExecType; DefaultValue := "";
                    DefaultObject := None; DefaultTextValue := ""; LinkedTo := [] |}].
Proof.
  cbv zeta. split; [|split; [|by vm_compute]].
  - apply (proj2 (proj2 (delete_removes_the_graph_found (Sample.host true)
                           (Sample.delete_request "eventgraph") Sample.world
                           "/Game/BP_Hero.BP_Hero" "eventgraph" 100%positive Sample.BP_Hero
                           11%positive Sample.EventGraph eq_refl eq_refl eq_refl))).
    reflexivity.
  - apply (proj1 (proj2 (delete_removes_the_graph_found (Project.host true)
                           (Project.delete_request "Helper") Project.world
                           "/Game/BP_User" "Helper" 101%positive Project.BP_User
                           13%positive Project.Helper eq_refl eq_refl eq_refl))).
    reflexivity.
Defined.

Lemma GetAllGraphs_WithoutGraph g bp g' :
  g' ∈ GetAllGraphs (WithoutGraph g bp) ↔ g' ∈ GetAllGraphs bp ∧ g' ≠ g.
Proof.
  unfold GetAllGraphs, WithoutGraph. cbn [FunctionGraphs MacroGraphs UbergraphPages].
  rewrite !elem_of_app, !list_elem_of_filter. tauto.
Qed.

Lemma FindGraphToDelete_after_delete w w' bp g name :
  (∀ g', g' ≠ g → (GraphName <$> GraphStore w' !! g') = (GraphName <$> GraphStore w !! g')) →
  OnlyGraphNamed w bp g name →
  FindGraphToDelete w' (WithoutGraph g bp) name = None.
Proof.
  intros HG Honly. apply FindGraphToDelete_None.
  intros g' G' [Hin Hne]%GetAllGraphs_WithoutGraph HG'.
  specialize (HG g' Hne). rewrite HG' in HG.
  destruct (GraphStore w !! g') as [G0|] eqn:E; [|done].
  injection HG as ->. by apply (Honly g' G0).
Qed.

(** X26. After a delete of the only graph of the blueprint that is named
    [function_name], the same delete finds no graph: it is answered by
    "Function graph not found" and changes nothing. *)
Theorem repeated_delete_is_not_found h p w path name ptr bp g G :
  TryGetStringField p "blueprint_path" = Some path →
  TryGetStringField p "function_name" = Some name →
  FindGraphToDelete w bp name = Some (g, G) →
  OnlyGraphNamed w bp g name →
  (ResolveBlueprint h w path = Some (ptr, bp) →
   let w' := (Monolithic.HandleDeleteBlueprintFunction h p w).2 in
   Monolithic.HandleDeleteBlueprintFunction h p w'
   = (CommonUtils_CreateErrorResponse ("Function graph not found: " +:+ name), w'))
  ∧ (DiscoverBlueprint h w path = Some (ptr, bp) →
     let w' := (FDeleteBlueprintFunctionCommand.Execute h (Some p) w).2 in
     FDeleteBlueprintFunctionCommand.Execute h (Some p) w'
     = (CreateErrorResponse ("Function graph not found: " +:+ name), w')).
Proof.
  intros Hpath Hname Hg Honly. split; intros Hbp; cbv zeta.
  - destruct (proj1 (delete_effect_core h p w path name ptr bp g G Hpath Hname Hg) Hbp)
      as (A1 & A2 & _ & A3 & _).
    pose proof (ResolveBlueprint_retouched h w _ path ptr bp _ A1 A2 Hbp) as Hbp'.
    unfold Monolithic.HandleDeleteBlueprintFunction at 1. rewrite Hpath, Hname, Hbp'.
    by rewrite (FindGraphToDelete_after_delete w _ bp g name A3 Honly).
  - destruct (proj2 (delete_effect_core h p w path name ptr bp g G Hpath Hname Hg) Hbp)
      as (A1 & A2 & _ & A3 & _).
    pose proof (DiscoverBlueprint_retouched h w _ path ptr bp _ A1 A2 Hbp) as Hbp'.
    unfold FDeleteBlueprintFunctionCommand.Execute at 1. rewrite Hpath, Hname, Hbp'.
    by rewrite (FindGraphToDelete_after_delete w _ bp g name A3 Honly).
Qed.

Lemma repeated_delete_is_not_found_witness :
  let w' := (FDeleteBlueprintFunctionCommand.Execute (Sample.host true)
               (Some (Sample.delete_request "DoWork")) Sample.world).2 in
  FDeleteBlueprintFunctionCommand.Execute (Sample.host true)
    (Some (Sample.delete_request "DoWork")) w'
  = (CreateErrorResponse "Function graph not found: DoWork", w').
Proof.
  refine (proj2 (repeated_delete_is_not_found (Sample.host true)
                   (Sample.delete_request "DoWork") Sample.world
                   "/Game/BP_Hero.BP_Hero" "DoWork" 100%positive Sample.BP_Hero
                   10%positive Sample.DoWork eq_refl eq_refl eq_refl _) eq_refl).
  intros g' G' Hin Hne HG'.
  apply elem_of_cons in Hin as [->|Hin]; [done|].
  apply list_elem_of_singleton in Hin as ->.
  vm_compute in HG'. by injection HG' as <-.
Defined.

Lemma FunctionListing_graph_names w bp t n gn :
  (t, n, Some gn) ∈ FunctionListing w bp →
  ∃ g G, g ∈ GetAllGraphs bp ∧ GraphStore w !! g = Some G ∧ gn = GraphName G.
Proof.
  assert (HA : ∀ l G, G ∈ GraphsAt w l → ∃ g, g ∈ l ∧ GraphStore w !! g = Some G).
  { intros l G HG. unfold GraphsAt in HG. apply list_elem_of_omap in HG as (g & ? & ?).
    by exists g. }
  unfold FunctionListing, GetAllGraphs. rewrite !elem_of_app.
  intros [H|[H|H]].
  - apply list_elem_of_fmap in H as (G & [= -> -> ->] & HG).
    destruct (HA _ _ HG) as (g & ? & ?). exists g, G. rewrite !elem_of_app. auto.
  - apply list_elem_of_bind in H as (G & H & HG).
    destruct (HA _ _ HG) as (g & ? & ?). exists g, G. rewrite !elem_of_app.
    split_and!; [auto | done |].
    apply elem_of_app in H as [H|H].
    + by apply list_elem_of_fmap in H as (? & [= _ _ ->] & _).
    + by apply list_elem_of_singleton in H as [= _ _ ->].
  - apply list_elem_of_fmap in H as (G & [= -> -> ->] & HG).
    destruct (HA _ _ HG) as (g & ? & ?). exists g, G. rewrite !elem_of_app. auto.
Qed.

(** X27. After a delete of the only graph of the blueprint that is named
    [function_name], the function listing of the blueprint has no entry
    whose [graph_name] is that name. *)
Theorem deleted_function_is_no_longer_listed e p q w path name ptr bp g G :
  TryGetStringField p "blueprint_path" = Some path →
  TryGetStringField p "function_name" = Some name →
  TryGetStringField q "blueprint_path" = Some path →
  FindGraphToDelete w bp name = Some (g, G) →
  OnlyGraphNamed w bp g name →
  (ResolveBlueprint (Services e) w path = Some (ptr, bp) →
   ∀ t n gn,
     (t, n, Some gn)
     ∈ ListedFunctions
         (FUnrealMCPBlueprintMigrationCommands.HandleGetBlueprintFunctions e q
            (Monolithic.HandleDeleteBlueprintFunction (Services e) p w).2).1 →
     FString_eqb gn name = false)
  ∧ (DiscoverBlueprint (Services e) w path = Some (ptr, bp) →
     ∀ t n gn,
       (t, n, Some gn)
       ∈ ListedFunctions
           (FGetBlueprintFunctionsCommand.Execute e (Some q)
              (FDeleteBlueprintFunctionCommand.Execute (Services e) (Some p) w).2).1 →
       FString_eqb gn name = false).
Proof.
  intros Hpath Hname Hq Hg Honly.
  assert (HL : ∀ w', (∀ g', g' ≠ g → (GraphName <$> GraphStore w' !! g')
                                      = (GraphName <$> GraphStore w !! g')) →
            ∀ t n gn, (t, n, Some gn)
                      ∈ ListedFunctions (FunctionsResolved (Services e) (WithoutGraph g bp) w') →
                      FString_eqb gn name = false).
  { intros w' HG t n gn Hin. unfold ListedFunctions in Hin.
    destruct (FunctionsResolved_functions (Services e) (WithoutGraph g bp) w') as [HF _].
    rewrite HF, CollectFunctions_listing in Hin.
    apply FunctionListing_graph_names in Hin as (g' & G' & Hin & HG' & ->).
    apply GetAllGraphs_WithoutGraph in Hin as [Hin Hne].
    specialize (HG g' Hne). rewrite HG' in HG.
    destruct (GraphStore w !! g') as [G0|] eqn:E; [|done].
    injection HG as ->. by apply (Honly g' G0). }
  split; intros Hbp.
  - destruct (proj1 (delete_effect_core (Services e) p w path name ptr bp g G Hpath Hname Hg) Hbp)
      as (A1 & A2 & _ & A3 & _).
    pose proof (ResolveBlueprint_retouched (Services e) w _ path ptr bp _ A1 A2 Hbp) as Hbp'.
    unfold FUnrealMCPBlueprintMigrationCommands.HandleGetBlueprintFunctions.
    rewrite Hq, Hbp'. cbn [fst]. by apply HL.
  - destruct (proj2 (delete_effect_core (Services e) p w path name ptr bp g G Hpath Hname Hg) Hbp)
      as (A1 & A2 & _ & A3 & _).
    pose proof (DiscoverBlueprint_retouched (Services e) w _ path ptr bp _ A1 A2 Hbp) as Hbp'.
    unfold FGetBlueprintFunctionsCommand.Execute.
    rewrite Hq, Hbp'. cbn [fst]. by apply HL.
Qed.

Lemma deleted_function_is_no_longer_listed_witness :
  Forall (fun entry : option string * option string * option string =>
            entry.2 ≠ Some "DoWork")
    (ListedFunctions
       (FUnrealMCPBlueprintMigrationCommands.HandleGetBlueprintFunctions (Project.editor true)
          (Project.functions_request "/Game/BP_Hero.BP_Hero")
          (Monolithic.HandleDeleteBlueprintFunction (Services (Project.editor true))
             (Sample.delete_request "DoWork") Project.world).2).1).
Proof.
  apply Forall_forall. intros [[t n] gn] Hin. cbn [snd]. intros ->.
  assert (FString_eqb "DoWork" "DoWork" = false); [|done].
  refine (proj1 (deleted_function_is_no_longer_listed (Project.editor true)
                   (Sample.delete_request "DoWork")
                   (Project.functions_request "/Game/BP_Hero.BP_Hero") Project.world
                   "/Game/BP_Hero.BP_Hero" "DoWork" 100%positive Sample.BP_Hero
                   10%positive Sample.DoWork eq_refl eq_refl eq_refl eq_refl _) eq_refl
                t n "DoWork" Hin).
  intros g' G' Hg' Hne HG'.
  apply elem_of_cons in Hg' as [->|Hg']; [done|].
  apply list_elem_of_singleton in Hg' as ->.
  vm_compute in HG'. by injection HG' as <-.
Defined.

(** ** Serializer, further *)

Lemma length_omap_le {A B} (f : A → option B) l : (length (omap f l) <= length l)%nat.
Proof.
  induction l as [|x l IH]; [done|]. rewrite list_omap_cons.
  destruct (f x); cbn [length]; lia.
Qed.

Lemma length_omap_full {A B} (f : A → option B) l :
  length (omap f l) = length l ↔ ∀ a, a ∈ l → is_Some (f a).
Proof.
  induction l as [|x l IH].
  - split; [by intros _ a ?%elem_of_nil | done].
  - rewrite list_omap_cons. pose proof (length_omap_le f l).
    destruct (f x) as [y|] eqn:E; cbn [length].
    + split.
      * intros [= Hl] a [->|Ha]%elem_of_cons; [by rewrite E | by apply IH].
      * intros Ha. f_equal. apply IH. intros a Hin. apply Ha. by constructor.
    + split; [lia|]. intros Ha.
      destruct (Ha x ltac:(by constructor)) as [? ?]. congruence.
Qed.

Lemma length_node_docs (Ser : option UEdGraphNode → option FJsonObject) w nodes :
  (∀ n, is_Some (Ser (Some n))) → Ser None = None →
  length (omap (fun Node : addr => NodeJson ← Ser (NodeStore w !! Node); Some (JObject NodeJson))
            nodes)
  = length (omap (fun Node : addr => NodeStore w !! Node) nodes).
Proof.
  intros HS HN. induction nodes as [|a nodes IH]; [done|].
  rewrite !list_omap_cons. destruct (NodeStore w !! a) as [n|].
  - destruct (HS n) as [o ->]. cbn. by f_equal.
  - by rewrite HN.
Qed.

Lemma CountsNodeSlots_of (Ser : option UEdGraphNode → option FJsonObject) w G :
  (∀ n, is_Some (Ser (Some n))) → Ser None = None →
  CountsNodeSlots w G
    (MakeJsonObject
     |> SetStringField "name" (GraphName G)
     |> SetStringField "class" (GraphClassName G)
     |> SetNumberField "node_count" (Z.of_nat (length (Nodes G)))
     |> SetArrayField "nodes"
          (omap (fun Node : addr => NodeJson ← Ser (NodeStore w !! Node);
                                    Some (JObject NodeJson)) (Nodes G))).
Proof.
  intros HS HN. unfold CountsNodeSlots, DocNumber, DocObjects, GetArrayField, LiveNodes.
  unfold_setters. rewrite !GetField_SetField. cbn [String.eqb Ascii.eqb Bool.eqb].
  rewrite length_map, (length_node_docs Ser w (Nodes G) HS HN).
  split_and!; [done | done | apply length_omap_le | apply length_omap_full].
Qed.

(** X28. In a graph document, [node_count] is the size of the graph's
    [Nodes] array with its null entries, while [nodes] holds one entry for
    each node of the array that is not null: [node_count] can exceed the
    number of entries of [nodes], and equals it exactly when the array has
    no null entry.  This holds for the serializer of the dispatcher, which
    the export command repeats, and for the one of the delete command. *)
Theorem node_count_counts_null_entries w G b :
  (∃ doc, Monolithic.SerializeGraph w (Some G) b = Some doc ∧ CountsNodeSlots w G doc)
  ∧ (∃ doc, FExportBlueprintGraphCommand.SerializeGraph w (Some G) b = Some doc
            ∧ CountsNodeSlots w G doc)
  ∧ (∃ doc, FDeleteBlueprintFunctionCommand.SerializeGraph w (Some G) b = Some doc
            ∧ CountsNodeSlots w G doc).
Proof.
  assert (HM : ∀ n, is_Some (Monolithic.SerializeNode (Some n))).
  { intros n. destruct (SerializeNode_follows n) as (o & -> & _). by eexists. }
  split_and!.
  - eexists. split; [reflexivity|]. by apply (CountsNodeSlots_of Monolithic.SerializeNode).
  - eexists. split; [reflexivity|]. by apply (CountsNodeSlots_of Monolithic.SerializeNode).
  - eexists. split; [reflexivity|].
    apply (CountsNodeSlots_of FDeleteBlueprintFunctionCommand.SerializeNode); [|done].
    intros n. by eexists.
Qed.

Lemma node_count_counts_null_entries_sample :
  ∃ doc, Monolithic.SerializeGraph Sample.world (Some Sample.EventGraph) false = Some doc
         ∧ DocNumber "node_count" doc = Some 4
         ∧ length (DocObjects "nodes" doc) = 3%nat.
Proof. eexists. split; [reflexivity|]. split; reflexivity. Qed.

(** ** Export, the members *)

Lemma CPF_Edit_bit (Flags : N) : negb (N.land Flags CPF_Edit =? 0)%N = N.testbit Flags 0.
Proof. destruct Flags as [|[p|p|]]; reflexivity. Qed.

Lemma VariableShown_VariableJson Var :
  VariableShown (AsObject (VariableJson Var))
  = (Some (VarName Var), Some (PinCategory (VarType Var)),
     PinSubCategoryObject (VarType Var), Some (N.testbit (PropertyFlags Var) 0)).
Proof.
  unfold VariableShown, VariableJson, DocString, DocBool, SetWhen. cbn [AsObject].
  rewrite CPF_Edit_bit.
  destruct (PinSubCategoryObject (VarType Var)); unfold_setters;
    rewrite ?GetField_SetField; reflexivity.
Qed.

Lemma ComponentShown_ComponentJson AllNodes :
  map ComponentShown (map AsObject (omap ComponentJson AllNodes)) = TemplatedComponents AllNodes.
Proof.
  unfold TemplatedComponents.
  induction AllNodes as [|Node AllNodes IH]; [done|].
  rewrite !list_omap_cons. destruct Node as [Node|]; cbn [ComponentJson mbind option_bind]; [|done].
  destruct (ComponentTemplate Node) as [Class|]; cbn [mbind option_bind]; [|done].
  cbn [map]. rewrite IH. f_equal.
  unfold ComponentShown, DocString, SetWhen. cbn [AsObject].
  destruct (ParentComponentOrVariableName Node); unfold_setters;
    rewrite ?GetField_SetField; reflexivity.
Qed.

Lemma BuildExportJson_members Ser M GN bc bd bp w :
  ShowsMembers M bc (BuildExportJson Ser M GN bc bd bp w).1.1.
Proof.
  unfold BuildExportJson.
  destruct (fold_left _ _ _) as [[GraphsArray T] C]. cbn [fst].
  set (base := SetArrayField "graphs" GraphsArray _).
  assert (Hbase : GetField "components" base = None).
  { subst base. unfold SetWhen. destruct (ParentClass bp); unfold_setters;
      rewrite ?GetField_SetField; reflexivity. }
  clearbody base. unfold ShowsMembers. split.
  - unfold DocObjects, GetArrayField. unfold_setters.
    rewrite (GetField_SetField_eq "variables"), !map_map. apply map_ext. intros Var. apply VariableShown_VariableJson.
  - unfold SetWhen.
    destruct (if bc then SimpleConstructionScript M else None) as [AllNodes|].
    + unfold DocObjects, GetArrayField. unfold_setters.
      rewrite (GetField_SetField_ne "components" "variables") by reflexivity.
      rewrite !GetField_SetField_eq. split; [by eexists|].
      apply ComponentShown_ComponentJson.
    + unfold_setters. rewrite GetField_SetField. exact Hbase.
Qed.

Lemma ExportToFile_members Ser e p ptr bp w :
  SaveStringToFile (Services e) (ExportFilePath e bp) = true →
  ∃ T C w',
    ExportToFile Ser e p ptr bp w = (ExportFilePath e bp, T, C, w')
    ∧ NewestFileShowsMembers (Members e ptr)
        (default true (TryGetBoolField p "include_components")) w'.
Proof.
  intros Hsave. unfold ExportToFile.
  set (GN := default EmptyString (TryGetStringField p "graph_name")).
  set (bc := default true (TryGetBoolField p "include_components")).
  set (bd := default false (TryGetBoolField p "include_defaults")).
  pose proof (BuildExportJson_members Ser (Members e ptr) GN bc bd bp w) as HM.
  destruct (BuildExportJson _ _ _ _ _ _ _) as [[doc T] C]. cbn [fst] in HM.
  unfold WriteJsonToTempFile, GetExportDirectory.
  change (PathCombine (PathCombine (PathCombine (ProjectSavedDir (Services e)) "UnrealMCP") "Exports")
            (GenerateExportFileName (Now e) (BlueprintName bp))) with (ExportFilePath e bp).
  rewrite Hsave. eexists T, C, _. split; [reflexivity|].
  eexists _, doc, _. split; [reflexivity | exact HM].
Qed.

(** X29. The file of a successful export has one [variables] entry for each
    variable of the blueprint, with its name, its pin category as [type], the
    name of its sub-category object as [subtype] when it has one, and
    [is_exposed] set exactly when bit 0 of its property flags is set.  The
    file has [components] only when [include_components] is not false and the
    blueprint has a construction script; it then lists the components that
    have a template, with their class and, if any, their parent. *)
Theorem export_lists_variables_and_components e p w path ptr bp :
  TryGetStringField p "blueprint_path" = Some path →
  SaveStringToFile (Services e) (ExportFilePath e bp) = true →
  let bIncludeComponents := default true (TryGetBoolField p "include_components") in
  (ResolveBlueprint (Services e) w path = Some (ptr, bp) →
   NewestFileShowsMembers (Members e ptr) bIncludeComponents
     (FUnrealMCPBlueprintMigrationCommands.HandleExportBlueprintGraph e p w).2)
  ∧ (DiscoverBlueprint (Services e) w path = Some (ptr, bp) →
     NewestFileShowsMembers (Members e ptr) bIncludeComponents
       (FExportBlueprintGraphCommand.Execute e (Some p) w).2).
Proof.
  intros Hpath Hsave. cbv zeta. split; intros Hbp.
  - destruct (ExportToFile_members Monolithic.SerializeGraph e p ptr bp w Hsave)
      as (T & C & w' & E & HM).
    unfold FUnrealMCPBlueprintMigrationCommands.HandleExportBlueprintGraph.
    rewrite Hpath, Hbp, E, ExportFilePath_not_empty. exact HM.
  - destruct (ExportToFile_members FExportBlueprintGraphCommand.SerializeGraph e p ptr bp w Hsave)
      as (T & C & w' & E & HM).
    unfold FExportBlueprintGraphCommand.Execute.
    rewrite Hpath, Hbp, E, ExportFilePath_not_empty. exact HM.
Qed.

Lemma export_lists_variables_and_components_witness :
  NewestFileShowsMembers Project.HeroMembers true
    (FUnrealMCPBlueprintMigrationCommands.HandleExportBlueprintGraph (Project.editor true)
       (Project.export_request "") Project.world).2.
Proof.
  apply (proj1 (export_lists_variables_and_components (Project.editor true)
                  (Project.export_request "") Project.world
                  "/Game/BP_Hero.BP_Hero" 100%positive Sample.BP_Hero
                  eq_refl eq_refl)).
  reflexivity.
Defined.

(** ** Export and the backup of a delete *)

Lemma prefix_refl (s : string) : String.prefix s s = true.
Proof.
  induction s as [|c s IH]; [done|]. cbn [String.prefix].
  by destruct (ascii_dec c c).
Qed.

Lemma StrFind_refl (s : string) : StrFind s s = true.
Proof. destruct s; cbn [StrFind]; by rewrite prefix_refl. Qed.

(** A graph whose name equals the filter is taken by the export. *)
Lemma Exported_of_equal (Name : string) (G : UEdGraph) :
  FString_eqb (GraphName G) Name = true → Exported Name G = true.
Proof.
  unfold FString_eqb, Exported, Contains. intros E%String.eqb_eq.
  destruct Name as [|c Name]; [done|]. cbn [IsEmpty orb].
  rewrite E. apply StrFind_refl.
Qed.

Lemma elem_of_graph_docs w sel G :
  G ∈ sel →
  (default [] (Monolithic.SerializeGraph w (Some G) true) : FJsonObject)
  ∈ map AsObject (omap (fun G => JObject <$> Monolithic.SerializeGraph w (Some G) true) sel).
Proof.
  intros Hin. apply list_elem_of_fmap.
  exists (JObject (default [] (Monolithic.SerializeGraph w (Some G) true))).
  split; [done|]. apply list_elem_of_omap. exists G. split; [done|].
  destruct (SerializeGraph_Some w G true) as (doc & -> & _). done.
Qed.

(** X30. The backup the dispatcher writes before it deletes a function holds,
    under [graph_data], the very document that an export of the same
    blueprint filtered by the function's name holds for that graph: the name
    that selects the graph to delete also passes the export filter, and both
    handlers serialize the graph in the same way. *)
Theorem delete_backup_is_the_export_entry e pE pD w path name ptr bp g G :
  TryGetStringField pE "blueprint_path" = Some path →
  TryGetStringField pE "graph_name" = Some name →
  TryGetStringField pD "blueprint_path" = Some path →
  TryGetStringField pD "function_name" = Some name →
  TryGetBoolField pD "backup" ≠ Some false →
  ResolveBlueprint (Services e) w path = Some (ptr, bp) →
  FindGraphToDelete w bp name = Some (g, G) →
  SaveStringToFile (Services e) (ExportFilePath e bp) = true →
  SaveStringToFile (Services e) (DeleteBackupPath (Services e) bp name) = true →
  BackupIsExportEntry
    (FUnrealMCPBlueprintMigrationCommands.HandleExportBlueprintGraph e pE w).2
    (Monolithic.HandleDeleteBlueprintFunction (Services e) pD w).2.
Proof.
  intros HpE HnE HpD HnD Hbk Hbp Hg HsE HsD.
  destruct (ExportToFile_written e pE ptr bp w HsE) as (docE & wE & E & HF & _ & HD).
  cbv zeta in E, HD. rewrite HnE in E, HD. cbn [from_option id] in E, HD.
  apply FindGraphToDelete_Some in Hg as Hfound. destruct Hfound as (Hin & HG & Hname).
  assert (Hsel : G ∈ List.filter (Exported name) (LiveGraphs w bp)).
  { apply list_elem_of_In, filter_In. split; [|by apply Exported_of_equal].
    apply list_elem_of_In, list_elem_of_omap. by exists g. }
  unfold FUnrealMCPBlueprintMigrationCommands.HandleExportBlueprintGraph.
  rewrite HpE, Hbp, E, ExportFilePath_not_empty. cbn [snd].
  unfold Monolithic.HandleDeleteBlueprintFunction.
  rewrite HpD, HnD, Hbp, Hg.
  assert (default true (TryGetBoolField pD "backup") = true) as ->.
  { destruct (TryGetBoolField pD "backup") as [[]|]; done. }
  unfold DeleteFound, WriteJsonToTempFile, GetExportDirectory.
  change (PathCombine (PathCombine (PathCombine (ProjectSavedDir (Services e)) "UnrealMCP")
                         "Exports") (DeleteBackupFileName (Services e) bp name))
    with (DeleteBackupPath (Services e) bp name).
  rewrite HsD. cbn [snd].
  unfold BackupIsExportEntry. rewrite Files_deleted. cbn [Files].
  exists (default [] (Monolithic.SerializeGraph w (Some G) true)).
  eexists _, docE, _, _, _, _. split_and!; [exact HF | reflexivity | |].
  - unfold_setters. rewrite GetField_SetField_eq.
    destruct (SerializeGraph_Some w G true) as (doc & -> & _). done.
  - rewrite HD. by apply elem_of_graph_docs.
Qed.

Lemma delete_backup_is_the_export_entry_witness :
  BackupIsExportEntry
    (FUnrealMCPBlueprintMigrationCommands.HandleExportBlueprintGraph (Project.editor true)
       (Project.export_request "dowork") Project.world).2
    (Monolithic.HandleDeleteBlueprintFunction (Services (Project.editor true))
       (Sample.delete_request "dowork") Project.world).2.
Proof.
  apply (delete_backup_is_the_export_entry (Project.editor true)
           (Project.export_request "dowork") (Sample.delete_request "dowork") Project.world
           "/Game/BP_Hero.BP_Hero" "dowork" 100%positive Sample.BP_Hero
           10%positive Sample.DoWork);
    first [reflexivity | discriminate].
Defined.

(** ** Backup write failures *)






